(* ===== verification/_CoqProject ===== *)
-Q . S2P
Prelude.v
GoLib.v
Json.v
Http.v
Transport.v
Entities.v
JobEngine.v
Domain.v
Binding.v
