(* ===== verification/Prelude.v ===== *)
(** * A verification development of terraform-provider-athena

    The program is a Terraform provider (Go) that manages IPAM
    reservations of a OneFuse REST service.  Its sources are
    [src/api_client.go] (the REST client, the provider schema and the
    [main] glue: three Go files concatenated) and
    [src/unnamed/part_000] (the [athena_ipam_record] resource).

    ** The parts of the program and how they interact

    - Transport helpers ([collectionURL], [itemURL], [urlFromHref],
      [setStandardHeaders], [setHeaders], [getHttpClient],
      [checkForErrors], [readResponse], [buildPostRequest],
      [buildPutRequest], [doGet]) build authenticated requests and
      classify HTTP status codes.
    - The asynchronous job engine ([handleAsyncRequest], [waitForJob],
      [GetJobStatus], [checkForJobErrors],
      [handleAsyncRequestAndFetchManagdObject]) submits a mutating
      request, polls [jobStatus/{id}/] every 5 s for at most one hour,
      reports a failed job, and fetches the job's [managedObject] link.
    - Domain operations ([CreateIPAMReservation], [GetIPAMReservation],
      [UpdateIPAMReservation], [DeleteIPAMReservation], [GetIPAMPolicy],
      [GetIPAMPolicyByName], [findWorkspaceURLOrDefault],
      [findDefaultWorkspaceID], [findEntityByName], [RenderTemplate])
      compose the two layers above on an [AthenaAPIClient].
    - The binding adapter ([bindIPAMReservationResource] and the
      handlers [resourceIPAMReservationCreate], [...Read], [...Update],
      [...Delete] of [part_000]) moves data between the Terraform
      resource data and the client.

    ** Files of the development (in dependency order)

    - [Prelude] (this file): the state/error/panic monad [St] of every
      effectful Go function ([res]: a value, an [error] value, a panic or
      exhausted fuel), its notation scope [go_scope], the monad laws and
      run lemmas in the [go] databases, the tactic [zlia].
    - [GoLib]: the Go standard-library functions the code calls: the
      [error] values of [github.com/pkg/errors] ([errors.WithMessage]
      returns nil on a nil cause), [strconv.Itoa]/[strconv.Atoi] on the
      64-bit [int] (with the round trip [Atoi_Itoa]), [strings.Split]
      on one byte, [path.Join], the [fmt] verbs of the messages.  They
      are library code, not code of the repository, and are not in the
      manifest's map.
    - [Json]: JSON values, [encoding/json] decoding into Go values (a
      class [FromJson] with Go's merge semantics: absent keys keep the
      previous value, [null] is a no-op on scalars and nils a pointer or
      a map, the first type error is kept and decoding goes on, keys
      match exactly and then case-insensitively) and encoding (a class
      [ToJson], [omitempty], sorted map keys, the text [json.Marshal]
      prints).
    - [Http]: the world a client runs in ([World]): a clock in
      nanoseconds, the trace of requests and sleeps (newest first) and a
      server oracle that answers a request from the trace with a reply
      and a latency; [client.Do], [time.Sleep], [time.Now],
      [ioutil.ReadAll]; the run invariants [Grows] (clock monotone,
      server fixed, trace only extended), [Total] (no exhausted fuel)
      and [Safe] (no panic) with the [grows] hint database.
    - [Transport]: [Config], [NewConfig] and the transport helpers.
    - [Entities]: the Go structs ([LinkRef], [Workspace],
      [IPAMReservation], [IPAMPolicy], [JobStatus], the list responses,
      the anonymous [Links]/[Embedded]/[ErrorDetails] structs as records
      of their own) with their field tables for decoding and their
      encoders; [Embedded] is the interface the reflective
      [findEntityByName] uses.
    - [JobEngine]: the job engine; [poll_loop] is the [for] loop of
      [waitForJob] with fuel; the job protocol ([phase], [step],
      [steps]) is the abstract state machine the engine refines.
    - [Domain]: the API client and its operations.
    - [Binding]: the resource schema, a model of the SDK's
      [schema.ResourceData] (Get with zero values by type, Set checked
      against the schema, HasChange, the id), the binding and the four
      handlers in the monad [TF] over the resource data and the world.

    ** What the theorems show

    - Termination ([JobEngine]): the poll loop never exhausts its 721
      iterations.
    - Refinement ([JobEngine.handleAsyncRequest_refines]): the labels
      read off the exchanges a run of the submission handler adds to
      the trace (the submission, then each poll with the status the
      server returned and its latency, see [JobEngine.run_labels]) are
      a path of the job protocol from [Submitted], and the run's result
      is the one of the phase reached; the path ends at most with the
      loop's exit or with the error of a status URL that does not parse,
      the one failure that leaves no exchange behind.
    - Traces: the engine only polls its job, 5 s apart, at most 721
      times; creation sends GETs and one POST; deletion sends the
      DELETE and then only polls; the Update handler never calls the
      server.
    - Functional and error behaviour of the domain operations (default
      workspace, policy checks, refused deletions) and of the binding
      (the policy id read back from its link, the panic on a link
      without a slash, the unused search suffixes).
    - The findings of the manifest come from these theorems: the
      timeout that overrides a finished job, the policy URL built with
      the workspaces resource type, the missing Default workspace
      reported as an Atoi error, the lookup sent before the policy
      check, the panics on a refused DELETE, on a failed job without
      details and on a policy link without a slash.

    ** Fuel

    The poll loop of [waitForJob] is a Go [for] loop that stops on a
    terminal job state or when more than 3 600 000 ms have elapsed
    after the 5 000 ms sleep of an iteration.  The model runs it with
    fuel; every iteration advances the clock by at least 5 s, so the
    loop stops after at most 721 iterations whatever the server answers
    and however long it takes.  [JobEngine.waitForJob_never_out_of_fuel]
    proves that the fuel of 721 iterations is never exhausted, so no
    run of the model stops for want of fuel.  The other loops (string and list loops)
    are structural recursions.

    ** Concrete runs

    The witnesses run the model on a scripted server
    ([JobEngine.script_server]): a job whose polls see a given list of
    states, a Default workspace with a given id, a managed object; the
    runs are evaluated with [vm_compute] and the theorems applied to
    them.

    ** Not modelled

    Logging ([log.Println], [fmt.Println]) has no effect on results and
    is dropped.  The provider schema, [configureProvider] and [main] are
    declarative glue of the Terraform SDK; so is the SDK's planning,
    which reads the resource schema's flags.  JSON is modelled as a
    tree, not as bytes: a body is its text and its parse (none when the
    text is not JSON); JSON numbers are integers.  TLS, connection reuse
    and the transport's retries are inside the server oracle. *)

From stdpp Require Export base list strings.
From Stdlib Require Export ZArith Lia.

Declare Scope go_scope.
Delimit Scope go_scope with go.

(** ** Outcomes of a Go function

    A Go function returns a value or an [error]; it may also panic (a nil
    dereference, an index out of range).  [OutOfFuel] is the outcome of a
    loop whose fuel ran out: the theorems of [JobEngine] show that it never
    happens with the fuel chosen. *)
Inductive res (E A : Type) : Type :=
| Ok (a : A)
| Err (e : E)
| Panic (msg : string)
| OutOfFuel.
Arguments Ok {E A} a.
Arguments Err {E A} e.
Arguments Panic {E A} msg.
Arguments OutOfFuel {E A}.

(** A computation threads a state [S] and ends in an outcome. *)
Definition St (S E A : Type) : Type := S -> res E A * S.

Section Monad.
Context {S E : Type}.

Definition ret {A} (a : A) : St S E A := fun s => (Ok a, s).

Definition bind {A B} (m : St S E A) (k : A -> St S E B) : St S E B :=
  fun s =>
    match m s with
    | (Ok a, s') => k a s'
    | (Err e, s') => (Err e, s')
    | (Panic p, s') => (Panic p, s')
    | (OutOfFuel, s') => (OutOfFuel, s')
    end.

Definition raise {A} (e : E) : St S E A := fun s => (Err e, s).
Definition panic {A} (p : string) : St S E A := fun s => (Panic p, s).
Definition out_of_fuel {A} : St S E A := fun s => (OutOfFuel, s).

(** [lift r] turns the outcome of a pure Go function into a step. *)
Definition lift {A} (r : res E A) : St S E A := fun s => (r, s).

Definition get : St S E S := fun s => (Ok s, s).
Definition modify (f : S -> S) : St S E unit := fun s => (Ok tt, f s).

(** [map_err f m] rewrites the error of [m]: the pattern
    [if err != nil { return nil, wrap(err) }]. *)
Definition map_err {A} (f : E -> E) (m : St S E A) : St S E A :=
  fun s =>
    match m s with
    | (Err e, s') => (Err (f e), s')
    | o => o
    end.
End Monad.

Notation "x <- m ;; k" := (bind m (fun x => k))
  (at level 100, m at next level, right associativity) : go_scope.
Notation "m ;; k" := (bind m (fun _ => k))
  (at level 100, right associativity) : go_scope.

Open Scope go_scope.

(** The outcome and final state of a run. *)
Definition outcome {S E A} (m : St S E A) (s : S) : res E A := fst (m s).
Definition final {S E A} (m : St S E A) (s : S) : S := snd (m s).

(** ** Monad laws and run lemmas *)

Create HintDb go discriminated.
Create Rewrite HintDb go_run.

Section MonadLemmas.
Context {S E : Type}.

Lemma bind_ret_l {A B} (a : A) (k : A -> St S E B) :
  bind (ret a) k = k a.
Proof. reflexivity. Qed.

Lemma bind_ret_r {A} (m : St S E A) (s : S) :
  bind m ret s = m s.
Proof. unfold bind, ret. by destruct (m s) as [[] ?]. Qed.

Lemma bind_assoc {A B C} (m : St S E A) (k : A -> St S E B)
      (h : B -> St S E C) (s : S) :
  bind (bind m k) h s = bind m (fun a => bind (k a) h) s.
Proof. unfold bind. by destruct (m s) as [[] ?]. Qed.

Lemma bind_run_ok {A B} (m : St S E A) (k : A -> St S E B) s a s' :
  m s = (Ok a, s') -> bind m k s = k a s'.
Proof. unfold bind. by intros ->. Qed.

Lemma bind_run_err {A B} (m : St S E A) (k : A -> St S E B) s e s' :
  m s = (Err e, s') -> bind m k s = (Err e, s').
Proof. unfold bind. by intros ->. Qed.

Lemma bind_run_panic {A B} (m : St S E A) (k : A -> St S E B) s p s' :
  m s = (Panic p, s') -> bind m k s = (Panic p, s').
Proof. unfold bind. by intros ->. Qed.

Lemma bind_run_fuel {A B} (m : St S E A) (k : A -> St S E B) s s' :
  m s = (OutOfFuel, s') -> bind m k s = (OutOfFuel, s').
Proof. unfold bind. by intros ->. Qed.

End MonadLemmas.

#[export] Hint Rewrite @bind_ret_l @bind_assoc : go_run.

(** ** Tactics *)

(** [lia] after turning [/] and [mod] into their defining equations:
    [lia] alone gives up on divisions of 64-bit constants. *)
Ltac zlia := Z.div_mod_to_equations; lia.
