(* ===== verification/GoLib.v ===== *)
(** Models of the Go standard-library functions the provider calls:
    the [error] values of [errors]/[github.com/pkg/errors] and their
    [Error()] text, [strconv.Itoa] and [strconv.Atoi] on the 64-bit [int]
    of amd64, [strings.Split] on a one-byte separator, [path.Join] and
    [path.Clean], and the [fmt] verbs of the messages.  These functions are
    not code of the repository: they are written from the Go sources of
    the standard library (strconv/atoi.go, strings/strings.go,
    path/path.go) so that the client's definitions can be evaluated. *)

From S2P Require Import Prelude.
From Stdlib Require Import Ascii.
Open Scope string_scope.
Open Scope Z_scope.

(** ** Errors *)

(** The reason of a [*strconv.NumError]. *)
Inductive numErr := ErrSyntax | ErrRange.

#[global] Instance numErr_eq_dec : EqDecision numErr.
Proof. solve_decision. Qed.

(** The error values that reach the provider's code.  [errWithMessage]
    is what [errors.WithMessage] builds around a non-nil cause. *)
Inductive error :=
| errNew (msg : string)
| errWithMessage (cause : error) (msg : string)
| errTransport (msg : string)
| errIO (msg : string)
| errJsonSyntax (msg : string)
| errJsonType (value : string) (gotype : string)
| errNum (func : string) (num : string) (reason : numErr).

#[global] Instance error_eq_dec : EqDecision error.
Proof. solve_decision. Qed.

(** The double-quote character (byte 34). *)
Definition dq : ascii := ascii_of_nat 34.
Definition dq_str : string := String dq EmptyString.

(** [strconv.Quote] on the printable ASCII strings of the messages:
    quote and backslash are escaped. *)
Fixpoint quote_body (s : string) : string :=
  match s with
  | EmptyString => EmptyString
  | String c r =>
      if Ascii.eqb c dq then String "\" (String dq (quote_body r))
      else if Ascii.eqb c "\" then String "\" (String "\" (quote_body r))
      else String c (quote_body r)
  end.
Definition quote (s : string) : string := dq_str ++ quote_body s ++ dq_str.

Definition numErr_text (r : numErr) : string :=
  match r with ErrSyntax => "invalid syntax" | ErrRange => "value out of range" end.

(** [err.Error()]. *)
Fixpoint Error (e : error) : string :=
  match e with
  | errNew m | errTransport m | errIO m | errJsonSyntax m => m
  | errWithMessage c m => m ++ ": " ++ Error c
  | errJsonType v t => "json: cannot unmarshal " ++ v ++ " into Go value of type " ++ t
  | errNum f n r => "strconv." ++ f ++ ": parsing " ++ quote n ++ ": " ++ numErr_text r
  end.

(** [errors.WithMessage(err, msg)] returns nil when [err] is nil. *)
Definition WithMessage (err : option error) (msg : string) : option error :=
  match err with
  | None => None
  | Some c => Some (errWithMessage c msg)
  end.

(** ** strconv *)

Definition int64_min : Z := - 2 ^ 63.
Definition int64_max : Z := 2 ^ 63 - 1.
Definition uint64_max : Z := 2 ^ 64 - 1.

Definition in_int64 (z : Z) : bool := (int64_min <=? z) && (z <=? int64_max).

Definition digit_char (d : Z) : ascii := ascii_of_nat (48 + Z.to_nat d).

Definition digit_val (c : ascii) : option Z :=
  let n := nat_of_ascii c in
  if (48 <=? n)%nat && (n <=? 57)%nat then Some (Z.of_nat n - 48) else None.

(** The decimal digits of [n], most significant first; [fuel] bounds the
    number of digits ([Z.to_nat n] is always enough). *)
Fixpoint utoa_aux (fuel : nat) (n : Z) (acc : string) : string :=
  match fuel with
  | O => acc
  | S f =>
      let acc' := String (digit_char (n mod 10)) acc in
      if n <? 10 then acc' else utoa_aux f (n / 10) acc'
  end.

Definition utoa (n : Z) : string := utoa_aux (S (Z.to_nat (Z.log2 n))) n "".

(** [strconv.Itoa]. *)
Definition Itoa (z : Z) : string :=
  if z <? 0 then String "-" (utoa (- z)) else utoa z.

(** The digit loop of [strconv.ParseUint] for base 10 and 64 bits: it
    stops on the first byte that is not a digit (syntax error) or on the
    first digit that makes the value leave [uint64] (range error, value
    [uint64_max]). *)
Definition uint64_cutoff : Z := uint64_max / 10 + 1.

Fixpoint parse_uint (s : string) (n : Z) : Z * option numErr :=
  match s with
  | EmptyString => (n, None)
  | String c r =>
      match digit_val c with
      | None => (0, Some ErrSyntax)
      | Some d =>
          if uint64_cutoff <=? n then (uint64_max, Some ErrRange)
          else
            let n1 := n * 10 + d in
            if uint64_max <? n1 then (uint64_max, Some ErrRange)
            else parse_uint r n1
      end
  end.

(** [strconv.Atoi] (through [ParseInt(s, 10, 0)]): the value and the
    error, as Go returns both; a range error comes with the clamped
    value, a syntax error with 0. *)
Definition sign_split (s : string) : bool * string :=
  match s with
  | String "-" r => (true, r)
  | String "+" r => (false, r)
  | _ => (false, s)
  end.

Definition Atoi (s : string) : Z * option error :=
  let syntax := (0, Some (errNum "Atoi" s ErrSyntax)) in
  let '(neg, body) := sign_split s in
  match body with
  | EmptyString => syntax
  | _ =>
      match parse_uint body 0 with
      | (_, Some ErrSyntax) => syntax
      | (un, _) =>
          if negb neg && (2 ^ 63 <=? un) then (int64_max, Some (errNum "Atoi" s ErrRange))
          else if neg && (2 ^ 63 <? un) then (int64_min, Some (errNum "Atoi" s ErrRange))
          else ((if neg then - un else un), None)
      end
  end.

(** ** strings.Split with a one-byte separator *)

Fixpoint Split (s : string) (sep : ascii) : list string :=
  match s with
  | EmptyString => [EmptyString]
  | String c r =>
      let rest := Split r sep in
      if Ascii.eqb c sep then EmptyString :: rest
      else match rest with
           | h :: t => String c h :: t
           | [] => [String c EmptyString]
           end
  end.

(** Go slice indexing [xs[i]] with its bounds check. *)
Definition index {A} (xs : list A) (i : Z) : option A :=
  if i <? 0 then None else xs !! Z.to_nat i.

(** ** path.Join and path.Clean *)

Fixpoint join_with (sep : string) (xs : list string) : string :=
  match xs with
  | [] => ""
  | [x] => x
  | x :: r => x ++ sep ++ join_with sep r
  end.

(** One element of a path, processed as [path.Clean] does: the stack
    holds the kept elements, last first. *)
Definition clean_elem (rooted : bool) (stack : list string) (e : string) : list string :=
  if String.eqb e "" || String.eqb e "." then stack
  else if String.eqb e ".." then
    match stack with
    | top :: rest => if String.eqb top ".." then ".." :: stack else rest
    | [] => if rooted then [] else [".."]
    end
  else e :: stack.

Definition Clean (p : string) : string :=
  let rooted := match p with String "/" _ => true | _ => false end in
  let stack := foldl (clean_elem rooted) [] (Split p "/") in
  let body := join_with "/" (rev stack) in
  let out := if rooted then "/" ++ body else body in
  if String.eqb out "" then "." else out.

(** [path.Join]: the non-empty elements joined by slashes, then cleaned;
    "" when every element is empty. *)
Definition Join (elems : list string) : string :=
  let ne := filter (fun e => negb (String.eqb e "")) elems in
  match ne with
  | [] => ""
  | _ => Clean (join_with "/" ne)
  end.

(** ** fmt *)

(** [%v] of a slice of [struct { Message string }]. *)
Definition fmt_messages (ms : list string) : string :=
  "[" ++ join_with " " (map (fun m => "{" ++ m ++ "}") ms) ++ "]".

(** [s] occurs in [t]. *)
Fixpoint contains (t s : string) : bool :=
  String.prefix s t ||
  match t with
  | EmptyString => false
  | String _ r => contains r s
  end.

(** ** Byte loops over strings *)

Fixpoint str_forallb (p : ascii -> bool) (s : string) : bool :=
  match s with
  | EmptyString => true
  | String c r => p c && str_forallb p r
  end.

Fixpoint str_existsb (p : ascii -> bool) (s : string) : bool :=
  match s with
  | EmptyString => false
  | String c r => p c || str_existsb p r
  end.

(** ** Lemmas *)

Lemma digit_val_char (d : Z) : 0 <= d < 10 -> digit_val (digit_char d) = Some d.
Proof.
  intros Hd.
  assert (d = 0 \/ d = 1 \/ d = 2 \/ d = 3 \/ d = 4 \/ d = 5 \/ d = 6 \/ d = 7
          \/ d = 8 \/ d = 9) as Hc by lia.
  repeat destruct Hc as [-> | Hc]; [..| subst]; reflexivity.
Qed.

(** The digits of a non-negative number start with a digit character. *)
Lemma utoa_aux_head (f : nat) (n : Z) (acc : string) :
  0 <= n -> exists d r, utoa_aux (S f) n acc = String (digit_char d) r /\ 0 <= d < 10.
Proof.
  revert n acc. induction f as [|f IH]; intros n acc Hn; cbn [utoa_aux].
  - destruct (n <? 10); eexists _, _; (split; [reflexivity | apply Z.mod_pos_bound; lia]).
  - destruct (n <? 10) eqn:E.
    + eexists _, _; split; [reflexivity | apply Z.mod_pos_bound; lia].
    + apply IH. apply Z.div_pos; lia.
Qed.

Lemma uint64_max_val : uint64_max = 18446744073709551615.
Proof. reflexivity. Qed.

Lemma uint64_cutoff_val : uint64_cutoff = 1844674407370955162.
Proof. reflexivity. Qed.

Lemma parse_uint_utoa_aux (fuel : nat) (n : Z) (acc : string) :
  0 <= n <= uint64_max -> n < 10 ^ Z.of_nat fuel ->
  parse_uint (utoa_aux fuel n acc) 0 = parse_uint acc n.
Proof.
  rewrite uint64_max_val.
  revert n acc. induction fuel as [|f IH]; intros n acc Hn Hf.
  - cbn in Hf. assert (n = 0) as -> by lia. reflexivity.
  - cbn [utoa_aux].
    assert (Hm : 0 <= n mod 10 < 10) by (apply Z.mod_pos_bound; lia).
    destruct (Z.ltb_spec n 10) as [Hlt | Hge].
    + cbn [parse_uint]. rewrite digit_val_char by exact Hm.
      rewrite Z.mod_small, uint64_cutoff_val, uint64_max_val by lia.
      destruct (Z.leb_spec 1844674407370955162 0); [lia |].
      destruct (Z.ltb_spec 18446744073709551615 (0 * 10 + n)); [lia |].
      reflexivity.
    + rewrite IH.
      * cbn [parse_uint]. rewrite digit_val_char by exact Hm.
        rewrite uint64_cutoff_val, uint64_max_val.
        destruct (Z.leb_spec 1844674407370955162 (n / 10)); [zlia |].
        rewrite (Z.mul_comm (n / 10)), <- Z.div_mod by lia.
        destruct (Z.ltb_spec 18446744073709551615 n); [lia | reflexivity].
      * split; [apply Z.div_pos | apply Z.div_le_upper_bound]; lia.
      * rewrite Nat2Z.inj_succ, Z.pow_succ_r in Hf by lia. apply Z.div_lt_upper_bound; lia.
Qed.

Lemma utoa_fuel_enough (n : Z) : 0 <= n -> n < 10 ^ Z.of_nat (S (Z.to_nat (Z.log2 n))).
Proof.
  intros Hn. rewrite Nat2Z.inj_succ, Z2Nat.id by apply Z.log2_nonneg.
  destruct (Z.eq_dec n 0) as [-> | Hn0]; [cbn; lia |].
  pose proof (Z.log2_spec n ltac:(lia)) as [_ Hup].
  eapply Z.lt_le_trans; [exact Hup |].
  apply Z.pow_le_mono_l. pose proof (Z.log2_nonneg n). lia.
Qed.

Lemma parse_uint_utoa (n : Z) : 0 <= n <= uint64_max -> parse_uint (utoa n) 0 = (n, None).
Proof.
  intros Hn. unfold utoa. rewrite parse_uint_utoa_aux; [reflexivity | lia |].
  apply utoa_fuel_enough. lia.
Qed.

Lemma utoa_head (n : Z) : 0 <= n -> exists d r, utoa n = String (digit_char d) r /\ 0 <= d < 10.
Proof. intros Hn. apply utoa_aux_head, Hn. Qed.

Lemma sign_split_digit (d : Z) (r : string) :
  0 <= d < 10 -> sign_split (String (digit_char d) r) = (false, String (digit_char d) r).
Proof.
  intros Hd.
  assert (d = 0 \/ d = 1 \/ d = 2 \/ d = 3 \/ d = 4 \/ d = 5 \/ d = 6 \/ d = 7
          \/ d = 8 \/ d = 9) as Hc by lia.
  repeat destruct Hc as [-> | Hc]; [..| subst]; reflexivity.
Qed.

(** [strconv.Atoi] inverts [strconv.Itoa] on the 64-bit range. *)
Lemma Atoi_Itoa (z : Z) : int64_min <= z <= int64_max -> Atoi (Itoa z) = (z, None).
Proof.
  unfold int64_min, int64_max. intros Hz. unfold Itoa.
  destruct (Z.ltb_spec z 0) as [Hneg | Hpos].
  - destruct (utoa_head (- z)) as (d & r & Hu & Hd); [lia |].
    unfold Atoi. rewrite Hu. cbn -[parse_uint digit_char Z.pow].
    rewrite <- Hu, parse_uint_utoa by (unfold uint64_max; lia). cbn -[Z.pow].
    destruct (Z.ltb_spec (2 ^ 63) (- z)); [lia |]. f_equal. lia.
  - destruct (utoa_head z) as (d & r & Hu & Hd); [lia |].
    unfold Atoi. rewrite Hu, sign_split_digit by exact Hd. rewrite <- Hu.
    rewrite parse_uint_utoa by (unfold uint64_max; lia). cbn -[Z.pow].
    destruct (Z.leb_spec (2 ^ 63) z); [lia | reflexivity].
Qed.

(** ** strings.Split *)

Lemma Split_cons (s : string) (sep : ascii) : exists h t, Split s sep = h :: t.
Proof.
  induction s as [|c r IH]; cbn; [eauto |].
  destruct IH as (h & t & ->). destruct (Ascii.eqb c sep); eauto.
Qed.

(** Splitting at a separator splits the pieces on both sides. *)
Lemma Split_app_sep (p q : string) (sep : ascii) :
  Split (p ++ String sep q) sep = (Split p sep ++ Split q sep)%list.
Proof.
  induction p as [|c r IH]; simpl.
  - by rewrite Ascii.eqb_refl.
  - rewrite IH. destruct (Ascii.eqb c sep); [done |].
    destruct (Split_cons r sep) as (h & t & ->). reflexivity.
Qed.

Lemma Split_no_sep (s : string) (sep : ascii) :
  str_forallb (fun c => negb (Ascii.eqb c sep)) s = true -> Split s sep = [s].
Proof.
  induction s as [|c r IH]; cbn; [done |].
  intros [Hc Hr]%andb_prop. rewrite IH by done. by destruct (Ascii.eqb c sep).
Qed.

Lemma digit_char_not_slash (d : Z) : 0 <= d < 10 -> Ascii.eqb (digit_char d) "/" = false.
Proof.
  intros Hd. assert (d = 0 \/ d = 1 \/ d = 2 \/ d = 3 \/ d = 4 \/ d = 5 \/ d = 6 \/ d = 7 \/ d = 8 \/ d = 9)
    as H by lia. by repeat destruct H as [-> | H]; [..| subst].
Qed.

Lemma utoa_aux_no_slash (f : nat) (n : Z) (acc : string) :
  str_forallb (fun c => negb (Ascii.eqb c "/")) acc = true ->
  str_forallb (fun c => negb (Ascii.eqb c "/")) (utoa_aux f n acc) = true.
Proof.
  revert n acc. induction f as [|f IH]; intros n acc Hacc; cbn; [done |].
  assert (Hd : str_forallb (fun c => negb (Ascii.eqb c "/")) (String (digit_char (n mod 10)) acc) = true).
  { cbn. rewrite digit_char_not_slash by (apply Z.mod_pos_bound; lia). by rewrite Hacc. }
  destruct (n <? 10); auto.
Qed.

(** The decimal text of an integer has no slash. *)
Lemma Itoa_no_slash (z : Z) : str_forallb (fun c => negb (Ascii.eqb c "/")) (Itoa z) = true.
Proof.
  unfold Itoa, utoa. destruct (z <? 0); [cbn [str_forallb]; apply andb_true_intro; split; [done |] |];
    by apply utoa_aux_no_slash.
Qed.
