(* ===== verification/Json.v ===== *)
(** JSON values and the [encoding/json] behaviour the client relies on.

    A response body is the text the server sent together with its parse
    ([body_json = None] when the text is not JSON): [string(body)] in the
    Go messages is [body_text], [json.Unmarshal] works on [body_json].

    Decoding follows Go's [Unmarshal] into an existing value: keys are
    matched exactly, then ASCII case-insensitively; unknown keys are
    skipped; [null] leaves a scalar unchanged and sets a pointer or a map
    to nil; a value of the wrong kind leaves the target unchanged and is
    reported, decoding goes on and the first error is returned; a
    non-null value allocates a nil pointer before it is decoded; an
    object is merged into an existing map; an array is decoded element by
    element into an existing slice.  The class [FromJson] is the
    interface a Go type offers to [json.Unmarshal]; [ToJson] to
    [json.Marshal]. *)

From S2P Require Import Prelude GoLib.
From stdpp Require Import gmap sorting.
From Stdlib Require Import Ascii.
Open Scope string_scope.

#[local] Set Warnings "-register-all".
Inductive json :=
| JNull
| JBool (b : bool)
| JNumber (n : Z)
| JString (s : string)
| JArray (xs : list json)
| JObject (kvs : list (string * json)).

(** A body read from the network. *)
Record body := mkBody { body_text : string; body_json : option json }.

(** The kind of a JSON value, as [UnmarshalTypeError.Value] names it. *)
Definition json_kind (j : json) : string :=
  match j with
  | JNull => "null"
  | JBool _ => "bool"
  | JNumber n => "number " ++ Itoa n
  | JString _ => "string"
  | JArray _ => "array"
  | JObject _ => "object"
  end.

(** The first error of two, as [decodeState.saveError] keeps it. *)
Definition first_err (e1 e2 : option error) : option error :=
  match e1 with Some _ => e1 | None => e2 end.

(** ** Decoding *)

(** The zero value of a Go type. *)
Class GoZero (T : Type) := zero_val : T.
#[export] Instance gozero_int : GoZero Z := 0%Z.
#[export] Instance gozero_string : GoZero string := "".
#[export] Instance gozero_list {T} : GoZero (list T) := [].
#[export] Instance gozero_ptr {T} : GoZero (option T) := None.

Class FromJson (T : Type) := {
  go_type : string;
  decode_into : json -> T -> T * option error
}.
Arguments go_type T {_}.

Definition type_error {T} `{FromJson T} (j : json) (t : T) : T * option error :=
  (t, Some (errJsonType (json_kind j) (go_type T))).

(** [json.Unmarshal(body, &v)]. *)
Definition Unmarshal {T} `{FromJson T} (b : body) (t : T) : T * option error :=
  match body_json b with
  | None => (t, Some (errJsonSyntax ("invalid JSON: " ++ body_text b)))
  | Some j => decode_into j t
  end.

#[export] Instance fromjson_int : FromJson Z := {
  go_type := "int";
  decode_into j old :=
    match j with
    | JNull => (old, None)
    | JNumber n =>
        if in_int64 n then (n, None)
        else (old, Some (errJsonType (json_kind j) "int"))
    | _ => (old, Some (errJsonType (json_kind j) "int"))
    end
}.

#[export] Instance fromjson_string : FromJson string := {
  go_type := "string";
  decode_into j old :=
    match j with
    | JNull => (old, None)
    | JString s => (s, None)
    | _ => (old, Some (errJsonType (json_kind j) "string"))
    end
}.

(** [interface{}] holds the JSON value itself. *)
#[export] Instance fromjson_any : FromJson json := {
  go_type := "interface {}";
  decode_into j _ := (j, None)
}.

(** A pointer [*T]: nil is [None]. *)
#[export] Instance fromjson_ptr {T} `{FromJson T, GoZero T} : FromJson (option T) := {
  go_type := "*" ++ go_type T;
  decode_into j old :=
    match j with
    | JNull => (None, None)
    | _ => let '(v, e) := decode_into j (default zero_val old) in (Some v, e)
    end
}.

(** A slice [[]T]: element [i] is decoded into the old element [i]; the
    slice takes the length of the array. *)
Fixpoint decode_elems {T} `{FromJson T, GoZero T} (xs : list json) (old : list T)
  : list T * option error :=
  match xs with
  | [] => ([], None)
  | x :: r =>
      let '(v, e1) := decode_into x (default zero_val (head old)) in
      let '(vs, e2) := decode_elems r (tail old) in
      (v :: vs, first_err e1 e2)
  end.

#[export] Instance fromjson_slice {T} `{FromJson T, GoZero T} : FromJson (list T) := {
  go_type := "[]" ++ go_type T;
  decode_into j old :=
    match j with
    | JNull => ([], None)
    | JArray xs => decode_elems xs old
    | _ => (old, Some (errJsonType (json_kind j) ("[]" ++ go_type T)))
    end
}.

(** [map[string]interface{}]: nil and empty maps are both [∅] (the code
    never compares a map with nil). *)
#[export] Instance fromjson_map : FromJson (gmap string json) := {
  go_type := "map[string]interface {}";
  decode_into j old :=
    match j with
    | JNull => (∅, None)
    | JObject kvs => (foldl (fun m '(k, v) => <[k := v]> m) old kvs, None)
    | _ => (old, Some (errJsonType (json_kind j) "map[string]interface {}"))
    end
}.

(** ** Structs *)

(** ASCII case folding, as [bytes.EqualFold] on ASCII keys. *)
Definition lower (c : ascii) : ascii :=
  let n := nat_of_ascii c in
  if (65 <=? n)%nat && (n <=? 90)%nat then ascii_of_nat (n + 32) else c.

Fixpoint fold_eq (a b : string) : bool :=
  match a, b with
  | EmptyString, EmptyString => true
  | String x a', String y b' => Ascii.eqb (lower x) (lower y) && fold_eq a' b'
  | _, _ => false
  end.

(** A struct field: its JSON name and how a value is decoded into it. *)
Record field (T : Type) := mkField {
  fname : string;
  fdecode : json -> T -> T * option error
}.
Arguments mkField {T} _ _.
Arguments fname {T} _.
Arguments fdecode {T} _ _ _.

(** [mkField name get set] for a field of type [F]. *)
Definition go_field {T F} `{FromJson F} (name : string) (get : T -> F) (set : F -> T -> T)
  : field T :=
  mkField name (fun j t => let '(v, e) := decode_into j (get t) in (set v t, e)).

(** The field a key selects: exact name first, then case-folded. *)
Definition find_field {T} (fs : list (field T)) (k : string) : option (field T) :=
  match list_find (fun f => fname f = k) fs with
  | Some (_, f) => Some f
  | None =>
      match list_find (fun f => fold_eq (fname f) k = true) fs with
      | Some (_, f) => Some f
      | None => None
      end
  end.

(** One member of an object decoded into a struct: an unknown key is
    skipped, the first error is kept. *)
Definition struct_step {T} (fs : list (field T)) (acc : T * option error) (kv : string * json)
  : T * option error :=
  let '(t, e) := acc in
  let '(k, v) := kv in
  match find_field fs k with
  | Some f => let '(t', e') := fdecode f v t in (t', first_err e e')
  | None => (t, e)
  end.

Definition decode_struct {T} (tname : string) (fs : list (field T)) (j : json) (t : T)
  : T * option error :=
  match j with
  | JNull => (t, None)
  | JObject kvs => foldl (struct_step fs) (t, None) kvs
  | _ => (t, Some (errJsonType (json_kind j) tname))
  end.

(** ** Encoding *)

Class ToJson (T : Type) := to_json : T -> json.

(** An object member with [omitempty]: left out when the value is the
    zero value of its type. *)
Definition omit_empty (k : string) (empty : bool) (v : json) : list (string * json) :=
  if empty then [] else [(k, v)].

(** [json.Marshal] of a map: the keys in increasing byte order. *)
Definition key_le (a b : string * json) : Prop := String.leb a.1 b.1 = true.
#[export] Instance key_le_dec : RelDecision key_le :=
  fun a b => bool_eq_dec (String.leb a.1 b.1) true.

Definition sorted_entries (m : gmap string json) : list (string * json) :=
  merge_sort key_le (map_to_list m).

(** ** The text [json.Marshal] produces *)

Definition hex_digit (n : nat) : ascii :=
  if (n <? 10)%nat then ascii_of_nat (48 + n) else ascii_of_nat (87 + n).

(** One byte of a string literal, escaped as [encodeState.string] does
    (with HTML escaping, Go's default). *)
Definition escape_char (c : ascii) : string :=
  let n := nat_of_ascii c in
  if Ascii.eqb c dq then String "\" (String dq EmptyString)
  else if Ascii.eqb c "\" then String "\" (String "\" EmptyString)
  else if (n =? 10)%nat then "\n"
  else if (n =? 13)%nat then "\r"
  else if (n =? 9)%nat then "\t"
  else if (n <? 32)%nat || Ascii.eqb c "<" || Ascii.eqb c ">" || Ascii.eqb c "&" then
    "\u00" ++ String (hex_digit (n / 16)) (String (hex_digit (n mod 16)) EmptyString)
  else String c EmptyString.

Fixpoint escape_string (s : string) : string :=
  match s with
  | EmptyString => EmptyString
  | String c r => escape_char c ++ escape_string r
  end.

Definition quote_json (s : string) : string := dq_str ++ escape_string s ++ dq_str.

Fixpoint json_text (j : json) : string :=
  match j with
  | JNull => "null"
  | JBool b => if b then "true" else "false"
  | JNumber n => Itoa n
  | JString s => quote_json s
  | JArray xs => "[" ++ join_with "," (map json_text xs) ++ "]"
  | JObject kvs =>
      "{" ++ join_with "," (map (fun '(k, v) => quote_json k ++ ":" ++ json_text v) kvs) ++ "}"
  end.

(** ** Lemmas *)

(** A member omitted or decoded without error sets the field. *)
Lemma struct_step_omit {T F} `{FromJson F} (fs : list (field T)) (k : string) (get : T -> F)
  (set : F -> T -> T) (b : bool) (v : json) (x : F) (t : T) :
  find_field fs k = Some (go_field k get set) ->
  (b = false -> decode_into v (get t) = (x, None)) ->
  (b = true -> set x t = t) ->
  foldl (struct_step fs) (t, None) (omit_empty k b v) = (set x t, None).
Proof.
  intros Hf Hd Hs. unfold omit_empty. destruct b.
  - cbn. by rewrite Hs.
  - cbn. rewrite Hf. unfold go_field. cbn. by rewrite Hd.
Qed.

Lemma foldl_insert_union (l : list (string * json)) (m0 : gmap string json) :
  NoDup l.*1 -> foldl (fun m '(k, v) => <[k := v]> m) m0 l = list_to_map l ∪ m0.
Proof.
  revert m0. induction l as [|[k v] l IH]; intros m0 Hnd; cbn.
  - by rewrite map_empty_union.
  - apply NoDup_cons in Hnd as [Hk Hnd]. rewrite IH by done.
    rewrite <- insert_union_r, insert_union_l; [done |].
    by apply not_elem_of_list_to_map_1.
Qed.

(** Decoding the sorted members of a map into an empty map gives it
    back. *)
Lemma sorted_entries_decode (m : gmap string json) :
  foldl (fun m '(k, v) => <[k := v]> m) ∅ (sorted_entries m) = m.
Proof.
  unfold sorted_entries. pose proof (merge_sort_Permutation key_le (map_to_list m)) as Hp.
  assert (Hnd : NoDup (merge_sort key_le (map_to_list m)).*1).
  { rewrite Hp. apply NoDup_fst_map_to_list. }
  rewrite foldl_insert_union, map_union_empty by done.
  rewrite (list_to_map_proper _ (map_to_list m)); [apply list_to_map_to_list | done | done].
Qed.

(** Decoding an object member by member, from the first. *)
Lemma struct_omit_app {T F} `{FromJson F} (fs : list (field T)) (k : string) (get : T -> F)
  (set : F -> T -> T) (b : bool) (v : json) (x : F) (t : T) (rest : list (string * json)) :
  find_field fs k = Some (go_field k get set) ->
  (b = false -> decode_into v (get t) = (x, None)) ->
  (b = true -> set x t = t) ->
  foldl (struct_step fs) (t, None) (omit_empty k b v ++ rest) = foldl (struct_step fs) (set x t, None) rest.
Proof.
  intros Hf Hd Hs. rewrite foldl_app. f_equal. exact (struct_step_omit fs k get set b v x t Hf Hd Hs).
Qed.

Lemma struct_cons {T F} `{FromJson F} (fs : list (field T)) (k : string) (get : T -> F)
  (set : F -> T -> T) (v : json) (x : F) (t : T) (rest : list (string * json)) :
  find_field fs k = Some (go_field k get set) ->
  decode_into v (get t) = (x, None) ->
  foldl (struct_step fs) (t, None) ((k, v) :: rest) = foldl (struct_step fs) (set x t, None) rest.
Proof. intros Hf Hd. cbn. rewrite Hf. unfold go_field. cbn. by rewrite Hd. Qed.
