(* ===== verification/Http.v ===== *)
(** The world the client runs in: HTTP requests and replies, the clock,
    and the server.

    The server is an oracle stored in the world: it answers a request
    from the history of earlier requests and sleeps, and says how long
    the exchange takes.  Every theorem about the client holds for every
    server, so the oracle covers a server that misbehaves, a job that
    never ends, a network that fails.  [client.Do] logs the request,
    advances the clock by the latency, and returns the reply;
    [time.Sleep] logs the sleep and advances the clock. *)

From S2P Require Import Prelude GoLib Json.
From Stdlib Require Import Ascii.
Open Scope string_scope.

(** ** Requests *)

(** [*http.Request]: [req_body = None] is a nil [Body] (a GET or a
    DELETE built with a nil reader); header keys are canonical. *)
Record Request := mkRequest {
  req_method : string;
  req_url : string;
  req_header : list (string * string);
  req_basic_auth : option (string * string);
  req_body : option json
}.

(** The part of [*http.Client] the provider sets. *)
Record HttpClient := mkHttpClient { insecure_skip_verify : bool }.

(** [textproto.CanonicalMIMEHeaderKey] on ASCII keys: upper case at the
    start and after a dash, lower case elsewhere. *)
Definition upper (c : ascii) : ascii :=
  let n := nat_of_ascii c in
  if (97 <=? n)%nat && (n <=? 122)%nat then ascii_of_nat (n - 32) else c.

Definition lower_c (c : ascii) : ascii :=
  let n := nat_of_ascii c in
  if (65 <=? n)%nat && (n <=? 90)%nat then ascii_of_nat (n + 32) else c.

Fixpoint canon_aux (up : bool) (s : string) : string :=
  match s with
  | EmptyString => EmptyString
  | String c r =>
      String (if up then upper c else lower_c c) (canon_aux (Ascii.eqb c "-") r)
  end.

Definition CanonicalHeaderKey (k : string) : string := canon_aux true k.

(** [req.Header.Add(k, v)]. *)
Definition header_add (k v : string) (r : Request) : Request :=
  {| req_method := req_method r; req_url := req_url r;
     req_header := req_header r ++ [(CanonicalHeaderKey k, v)];
     req_basic_auth := req_basic_auth r; req_body := req_body r |}.

(** [req.SetBasicAuth(user, password)]. *)
Definition set_basic_auth (user password : string) (r : Request) : Request :=
  {| req_method := req_method r; req_url := req_url r; req_header := req_header r;
     req_basic_auth := Some (user, password); req_body := req_body r |}.

(** ** url.Parse, as far as [http.NewRequest] checks the URLs the client
    builds: control bytes, a missing scheme, the host's characters and
    percent escapes, the port. *)

Definition is_ctl (c : ascii) : bool :=
  let n := nat_of_ascii c in (n <? 32)%nat || (n =? 127)%nat.

Definition is_alnum (c : ascii) : bool :=
  let n := nat_of_ascii c in
  ((48 <=? n) && (n <=? 57) || (65 <=? n) && (n <=? 90) || (97 <=? n) && (n <=? 122))%nat.

Definition is_hex (c : ascii) : bool :=
  let n := nat_of_ascii c in
  is_alnum c && ((n <=? 57) || (65 <=? n) && (n <=? 70) || (97 <=? n) && (n <=? 102))%nat.

(** Characters [shouldEscape] lets through in a host name. *)
Definition host_char_ok (c : ascii) : bool :=
  is_alnum c || (128 <=? nat_of_ascii c)%nat
  || existsb (Ascii.eqb c) ["-"; "."; "_"; "~"; "!"; "$"; "&"; "'"; "("; ")"; "*";
                            "+"; ","; ";"; "="; ":"; "["; "]"; "<"; ">"; dq; "%"]%char.

(** [unescape]: every [%] is followed by two hex digits. *)
Fixpoint escapes_ok (s : string) : bool :=
  match s with
  | EmptyString => true
  | String "%" (String a (String b r)) => is_hex a && is_hex b && escapes_ok r
  | String "%" _ => false
  | String _ r => escapes_ok r
  end.

Fixpoint all_digits (s : string) : bool :=
  match s with
  | EmptyString => true
  | String c r => match digit_val c with Some _ => all_digits r | None => false end
  end.

(** The text before the first occurrence of [c], and the rest from it. *)
Fixpoint cut (c : ascii) (s : string) : string * string :=
  match s with
  | EmptyString => (EmptyString, EmptyString)
  | String x r =>
      if Ascii.eqb x c then (EmptyString, s)
      else let '(a, b) := cut c r in (String x a, b)
  end.

(** [validOptionalPort] of the text after the last colon of the host. *)
Definition port_ok (host : string) : bool :=
  match rev (Split host ":") with
  | [] | [_] => true
  | p :: _ => all_digits p
  end.

Definition authority_error (auth : string) : option string :=
  let host := snd (cut "@" auth) in
  let host := match host with String "@" h => h | _ => auth end in
  if negb (str_forallb host_char_ok host) then Some "invalid character in host name"
  else if negb (escapes_ok host) then Some "invalid URL escape"
  else if negb (port_ok host) then Some "invalid port after host"
  else None.

(** The error [url.Parse] reports, if any. *)
Definition url_parse_error (u : string) : option string :=
  if str_existsb is_ctl u then Some "net/url: invalid control character in URL"
  else
    match u with
    | String ":" _ => Some "missing protocol scheme"
    | _ =>
        let '(scheme, rest) := cut ":" u in
        match rest with
        | String ":" (String "/" (String "/" r)) =>
            let '(auth, path) := cut "/" r in
            match authority_error auth with
            | Some e => Some e
            | None => if escapes_ok (fst (cut "?" path)) then None else Some "invalid URL escape"
            end
        | _ => None
        end
    end.

(** The request [http.NewRequest] builds when the URL parses. *)
Definition bare_request (method url : string) (b : option json) : Request :=
  {| req_method := method; req_url := url; req_header := []; req_basic_auth := None;
     req_body := b |}.

(** [http.NewRequest(method, url, body)]. *)
Definition NewRequest (method url : string) (b : option json) : Request + error :=
  match url_parse_error url with
  | Some e => inr (errNew ("parse " ++ quote url ++ ": " ++ e))
  | None => inl (bare_request method url b)
  end.

(** ** Replies *)

(** What the network gives back: a transport failure (with what is left
    unread of the request body), or a response whose body may fail to be
    read. *)
Inductive reply :=
| RTransportError (msg : string) (unread : string)
| RResponse (status : Z) (b : body) (read_error : option string).

(** [*http.Response]. *)
Record Response := mkResponse {
  StatusCode : Z;
  resp_body : body;
  resp_read_error : option string
}.

(** [ioutil.ReadAll(res.Body)]. *)
Definition ReadAll (r : Response) : body + error :=
  match resp_read_error r with
  | Some m => inr (errIO m)
  | None => inl (resp_body r)
  end.

(** ** The world *)

Inductive event :=
| EvRequest (at_ : N) (c : HttpClient) (r : Request)
| EvSleep (at_ : N) (d : N).

(** A server answers a request from the history (newest first) with a
    reply and a latency in nanoseconds. *)
Definition Server := list event -> HttpClient -> Request -> reply * N.

Record World := mkWorld {
  clock : N;
  trace : list event;
  server : Server
}.

Definition M := St World error.

(** What [client.Do(req)] returns: a response, or an error together with
    what is left unread of the request body. *)
Inductive DoResult :=
| DoResp (r : Response)
| DoErr (e : error) (unread : string).

(** [client.Do(req)]. *)
Definition client_Do (c : HttpClient) (r : Request) : M DoResult :=
  fun w =>
    let '(rep, lat) := server w (trace w) c r in
    let w' := {| clock := (clock w + lat)%N; trace := EvRequest (clock w) c r :: trace w;
                 server := server w |} in
    match rep with
    | RTransportError m unread => (Ok (DoErr (errTransport m) unread), w')
    | RResponse st b re => (Ok (DoResp (mkResponse st b re)), w')
    end.

Definition nil_deref : string :=
  "runtime error: invalid memory address or nil pointer dereference".

(** [ioutil.ReadAll(req.Body)] after [client.Do]: what the transport left
    unread; a nil [Body] (a request built with a nil reader) is a nil
    [io.Reader], and reading it panics. *)
Definition read_request_body (r : Request) (unread : string) : M string :=
  match req_body r with
  | None => panic nil_deref
  | Some _ => ret unread
  end.

(** The world after one exchange of [lat] ns. *)
Definition logged (w : World) (c : HttpClient) (r : Request) (lat : N) : World :=
  {| clock := (clock w + lat)%N; trace := EvRequest (clock w) c r :: trace w; server := server w |}.

(** [time.Sleep(d)]. *)
Definition Sleep (d : N) : M unit :=
  fun w => (Ok tt, {| clock := (clock w + d)%N; trace := EvSleep (clock w) d :: trace w;
                      server := server w |}).

(** [time.Now()]. *)
Definition Now : M N := fun w => (Ok (clock w), w).

(** The times of the requests of a trace, newest first. *)
Fixpoint request_times (tr : list event) : list N :=
  match tr with
  | [] => []
  | EvRequest t _ _ :: r => t :: request_times r
  | EvSleep _ _ :: r => request_times r
  end.

(** Times, newest first, at least [d] apart. *)
Inductive spaced (d : N) : list N -> Prop :=
| spaced_nil : spaced d []
| spaced_one t : spaced d [t]
| spaced_cons t1 t2 ts : (t2 + d <= t1)%N -> spaced d (t2 :: ts) -> spaced d (t1 :: t2 :: ts).

(** The requests of a trace, oldest first. *)
Fixpoint requests (tr : list event) : list Request :=
  match tr with
  | [] => []
  | EvRequest _ _ r :: t => requests t ++ [r]
  | EvSleep _ _ :: t => requests t
  end.

(** ** Building blocks of concrete servers *)

(** A response of status [status] whose body is the JSON text of [j]. *)
Definition json_reply (status : Z) (j : json) : reply :=
  RResponse status (mkBody (json_text j) (Some j)) None.

(** How many requests of the history went to [url]. *)
Definition count_url (url : string) (tr : list event) : nat :=
  length (List.filter (fun e => match e with
                                | EvRequest _ _ r => String.eqb (req_url r) url
                                | EvSleep _ _ => false
                                end) tr).

(** ** The world only moves forward

    A run never turns the clock back, never changes the server, and only
    adds events in front of the trace.  [Grows m] says it of a computation;
    the [grows] hint database proves it of the client's functions. *)

Definition evolves (w w' : World) : Prop :=
  (clock w <= clock w')%N /\ server w' = server w /\ exists new, trace w' = (new ++ trace w)%list.

Definition Grows {A} (m : M A) : Prop := forall w, evolves w (snd (m w)).

Create HintDb grows discriminated.

(** ** Runs without a loop always end

    [Total m]: [m] never ends in [OutOfFuel]; every client function but
    the poll loop of [JobEngine] is total by construction. *)

Definition Total {A} (m : M A) : Prop := forall w, fst (m w) <> OutOfFuel.

(** [Safe m]: [m] ends in a value or an error, never in a panic. *)
Definition Safe {A} (m : M A) : Prop :=
  forall w, match fst (m w) with Ok _ | Err _ => True | _ => False end.

(** ** Lemmas *)

(** *** Exchanges *)

(** [client.Do] always returns (a response or an error value). *)
Lemma client_Do_ok (c : HttpClient) (r : Request) (w : World) :
  exists d w', client_Do c r w = (Ok d, w').
Proof. unfold client_Do. destruct (server w (trace w) c r) as [[] lat]; eauto. Qed.

Lemma client_Do_resp (c : HttpClient) (r : Request) (w : World) st b re lat :
  server w (trace w) c r = (RResponse st b re, lat) ->
  client_Do c r w = (Ok (DoResp (mkResponse st b re)), logged w c r lat).
Proof. unfold client_Do. by intros ->. Qed.

Lemma client_Do_transport_error (c : HttpClient) (r : Request) (w : World) m u lat :
  server w (trace w) c r = (RTransportError m u, lat) ->
  client_Do c r w = (Ok (DoErr (errTransport m) u), logged w c r lat).
Proof. unfold client_Do. by intros ->. Qed.

Lemma client_Do_world (c : HttpClient) (r : Request) (w : World) o w' :
  client_Do c r w = (o, w') ->
  trace w' = EvRequest (clock w) c r :: trace w /\ (clock w <= clock w')%N /\ server w' = server w.
Proof.
  unfold client_Do. destruct (server w (trace w) c r) as [[] lat];
    intros E; simplify_eq; cbn; split_and!; auto; lia.
Qed.

Lemma request_times_app (a b : list event) :
  request_times (a ++ b) = (request_times a ++ request_times b)%list.
Proof. induction a as [|[] a IH]; cbn; congruence. Qed.

Lemma requests_app (a b : list event) : requests (a ++ b) = (requests b ++ requests a)%list.
Proof. induction a as [|[] a IH]; cbn; rewrite ?app_nil_r, ?IH, ?app_assoc; done. Qed.

Lemma spaced_snoc (d t0 : N) (ts : list N) :
  spaced d ts -> Forall (fun t => (t0 + d <= t)%N) ts -> spaced d (ts ++ [t0])%list.
Proof.
  induction 1 as [|t|t1 t2 ts Hle Hsp IH]; intros Hall; cbn.
  - constructor.
  - inversion Hall. by constructor; [| constructor].
  - inversion Hall; subst. constructor; [done |]. by apply IH.
Qed.

(** *** Growth *)

Lemma evolves_refl (w : World) : evolves w w.
Proof. split; [lia | split; [done | by exists []]]. Qed.

Lemma evolves_trans (w1 w2 w3 : World) : evolves w1 w2 -> evolves w2 w3 -> evolves w1 w3.
Proof.
  intros (H1 & S1 & n1 & T1) (H2 & S2 & n2 & T2).
  split; [lia | split; [congruence |]]. exists (n2 ++ n1)%list. by rewrite T2, T1, app_assoc.
Qed.

Lemma Grows_ret {A} (a : A) : Grows (ret a).
Proof. intros w. apply evolves_refl. Qed.

Lemma Grows_raise {A} (e : error) : Grows (A := A) (raise e).
Proof. intros w. apply evolves_refl. Qed.

Lemma Grows_panic {A} (p : string) : Grows (A := A) (panic p).
Proof. intros w. apply evolves_refl. Qed.

Lemma Grows_out_of_fuel {A} : Grows (A := A) out_of_fuel.
Proof. intros w. apply evolves_refl. Qed.

Lemma Grows_Now : Grows Now.
Proof. intros w. apply evolves_refl. Qed.

Lemma Grows_client_Do (c : HttpClient) (r : Request) : Grows (client_Do c r).
Proof.
  intros w. unfold client_Do. destruct (server w (trace w) c r) as [[] lat];
    (split; [cbn; lia | split; [done | exists [EvRequest (clock w) c r]; done]]).
Qed.

Lemma Grows_Sleep (d : N) : Grows (Sleep d).
Proof. intros w. split; [cbn; lia | split; [done | exists [EvSleep (clock w) d]; done]]. Qed.

Lemma Grows_bind {A B} (m : M A) (k : A -> M B) :
  Grows m -> (forall a, Grows (k a)) -> Grows (bind m k).
Proof.
  intros Hm Hk w. unfold bind. specialize (Hm w).
  destruct (m w) as [[a | e | p |] w'] eqn:E; cbn in *; try exact Hm.
  eapply evolves_trans; [exact Hm | apply Hk].
Qed.

Lemma Grows_read_request_body (r : Request) (u : string) : Grows (read_request_body r u).
Proof. unfold read_request_body. destruct (req_body r); intros w; apply evolves_refl. Qed.

#[export] Hint Resolve Grows_ret Grows_raise Grows_panic Grows_out_of_fuel Grows_Now
  Grows_client_Do Grows_Sleep Grows_read_request_body : grows.
#[export] Hint Extern 2 (Grows (bind _ _)) => apply Grows_bind; [| intro] : grows.
#[export] Hint Extern 4 (Grows (match ?x with _ => _ end)) => destruct x : grows.

(** *** Totality *)

Lemma Total_ret {A} (a : A) : Total (ret a).
Proof. by intros w. Qed.

Lemma Total_raise {A} (e : error) : Total (A := A) (raise e).
Proof. by intros w. Qed.

Lemma Total_panic {A} (p : string) : Total (A := A) (panic p).
Proof. by intros w. Qed.

Lemma Total_Now : Total Now.
Proof. by intros w. Qed.

Lemma Total_Sleep (d : N) : Total (Sleep d).
Proof. by intros w. Qed.

Lemma Total_client_Do (c : HttpClient) (r : Request) : Total (client_Do c r).
Proof. intros w. unfold client_Do. by destruct (server w (trace w) c r) as [[] lat]. Qed.

Lemma Total_read_request_body (r : Request) (u : string) : Total (read_request_body r u).
Proof. unfold read_request_body. by destruct (req_body r). Qed.

Lemma Total_bind {A B} (m : M A) (k : A -> M B) :
  Total m -> (forall a, Total (k a)) -> Total (bind m k).
Proof.
  intros Hm Hk w. unfold bind. specialize (Hm w).
  destruct (m w) as [[a | e | p |] w'] eqn:E; cbn in *; [apply Hk | done | done | done].
Qed.

#[export] Hint Resolve Grows_bind Total_bind Total_ret Total_raise Total_panic Total_Now
  Total_Sleep Total_client_Do Total_read_request_body : grows.

(** *** Safety *)

Lemma Safe_ret {A} (a : A) : Safe (ret a).
Proof. by intros w. Qed.

Lemma Safe_raise {A} (e : error) : Safe (A := A) (raise e).
Proof. by intros w. Qed.

Lemma Safe_Now : Safe Now.
Proof. by intros w. Qed.

Lemma Safe_Sleep (d : N) : Safe (Sleep d).
Proof. by intros w. Qed.

Lemma Safe_client_Do (c : HttpClient) (r : Request) : Safe (client_Do c r).
Proof. intros w. unfold client_Do. by destruct (server w (trace w) c r) as [[] lat]. Qed.

Lemma Safe_bind {A B} (m : M A) (k : A -> M B) :
  Safe m -> (forall a, Safe (k a)) -> Safe (bind m k).
Proof.
  intros Hm Hk w. unfold bind. specialize (Hm w).
  destruct (m w) as [[a | e | p |] w'] eqn:E; cbn in *; [apply Hk | done | done | done].
Qed.

Lemma Safe_Total {A} (m : M A) : Safe m -> Total m.
Proof. intros H w E. specialize (H w). by rewrite E in H. Qed.

#[export] Hint Resolve Safe_bind Safe_ret Safe_raise Safe_Now Safe_Sleep Safe_client_Do : grows.

(** [Grows], [Total] and [Safe] of a client function, through its binds
    and matches. *)
Ltac grows_tac :=
  repeat (solve [auto with grows] || case_match || apply Grows_bind || apply Total_bind
          || apply Safe_bind || intro).

(** A run from [w] ends in a world that [w] evolves into. *)
Lemma Grows_run {A} (m : M A) (w : World) r w' :
  Grows m -> m w = (r, w') -> evolves w w'.
Proof. intros Hm E. specialize (Hm w). by rewrite E in Hm. Qed.
