(* ===== verification/Transport.v ===== *)
(** The transport helpers of [src/api_client.go]: the provider
    configuration, the URL builders, the standard headers, the HTTP status
    classification, the request builders and the synchronous [doGet].

    Every builder is a pure function of the [Config]; [doGet] is the one
    helper that talks to the server, through [Http.client_Do]. *)

From S2P Require Import Prelude GoLib Json Http.
From Stdlib Require Import Ascii.
Open Scope string_scope.

(** ** Configuration *)

(** [type Config struct] (the provider's settings). *)
Record Config := mkConfig {
  scheme : string;
  address : string;
  port : string;
  user : string;
  password : string;
  verifySSL : bool
}.

(** [NewConfig]. *)
Definition NewConfig (scheme address port user password : string) (verifySSL : bool) : Config :=
  {| scheme := scheme; address := address; port := port; user := user;
     password := password; verifySSL := verifySSL |}.

Definition ApiVersion := "api/v3".
Definition ApiNamespace := "onefuse".
Definition WorkspaceResourceType := "workspaces".
Definition ModulePolicyResourceType := "modulePolicies".
Definition IPAMReservationResourceType := "ipamReservations".
Definition IPAMPolicyResourceType := "ipamPolicies".
Definition JobStatusResourceType := "jobStatus".
Definition RenderTemplateType := "templateTester".
Definition JobSuccess := "Successful".
Definition JobFailed := "Failed".

(** [setStandardHeaders]. *)
Definition setStandardHeaders (req : Request) : Request :=
  header_add "cache-control" "no-cache"
    (header_add "Connection" "keep-alive"
      (header_add "accept-encoding" "gzip, deflate"
        (header_add "Cache-Control" "no-cache"
          (header_add "Accept" "*/*"
            (header_add "Content-Type" "application/json" req))))).

Section WithConfig.
Context (config : Config).

(** ** URLs *)

Definition baseURL : string :=
  scheme config ++ "://" ++ address config ++ ":" ++ port config.

(** [collectionURL]. *)
Definition collectionURL (resourceType : string) : string :=
  let endpoint := Join [ApiVersion; ApiNamespace; resourceType] in
  baseURL ++ "/" ++ endpoint ++ "/".

(** [urlFromHref]. *)
Definition urlFromHref (href : string) : string := baseURL ++ href.

(** [itemURL]. *)
Definition itemURL (resourceType : string) (id : Z) : string :=
  collectionURL resourceType ++ Itoa id ++ "/".

(** ** Headers and client *)

(** [setHeaders]: the standard headers, then the host, the source
    marker and basic authentication. *)
Definition setHeaders (req : Request) : Request :=
  set_basic_auth (user config) (password config)
    (header_add "SOURCE" "Terraform"
      (header_add "Host" (address config ++ ":" ++ port config) (setStandardHeaders req))).

(** [getHttpClient]. *)
Definition getHttpClient : HttpClient :=
  {| insecure_skip_verify := negb (verifySSL config) |}.
End WithConfig.

(** ** Status classification *)

(** [checkForErrors]: a status of 500 or more, and one of 400 or more,
    both return the body text as the error (or the error of reading the
    body). *)
Definition checkForErrors (res : Response) : option error :=
  if (500 <=? StatusCode res)%Z then
    match ReadAll res with
    | inr e => Some e
    | inl b => Some (errNew (body_text b))
    end
  else if (400 <=? StatusCode res)%Z then
    match ReadAll res with
    | inr e => Some e
    | inl b => Some (errNew (body_text b))
    end
  else None.

(** [readResponse]. *)
Definition readResponse (res : Response) : body + error :=
  match checkForErrors res with
  | Some e => inr e
  | None => ReadAll res
  end.

(** ** Request builders *)

(** [buildPostRequest] and [buildPutRequest] differ in the verb and the
    URL.  [json.Marshal] cannot fail on the values the client passes (JSON
    trees), so its error branch is not reachable here. *)
Definition buildRequest {T} `{ToJson T} (verb url : string) (requestEntity : T)
  (config : Config) : Request + error :=
  let payload := to_json requestEntity in
  let requestBody := json_text payload in
  match NewRequest verb url (Some payload) with
  | inr e => inr (errWithMessage e ("athena.apiClient: Unable to create request " ++ verb
                                      ++ " " ++ url ++ " " ++ requestBody))
  | inl req => inl (setHeaders config req)
  end.

(** [buildPostRequest]. *)
Definition buildPostRequest {T} `{ToJson T} (config : Config) (resourceType : string)
  (requestEntity : T) : Request + error :=
  buildRequest "POST" (collectionURL config resourceType) requestEntity config.

(** [buildPutRequest]. *)
Definition buildPutRequest {T} `{ToJson T} (config : Config) (resourceType : string)
  (requestEntity : T) (id : Z) : Request + error :=
  buildRequest "PUT" (itemURL config resourceType id) requestEntity config.

(** ** doGet *)

(** [doGet(config, url, &v)]: the decoded value is returned (Go writes it
    through the pointer). *)
Definition doGet {T} `{FromJson T} (config : Config) (url : string) (v : T) : M T :=
  match NewRequest "GET" url None with
  | inl req0 =>
      let req := setHeaders config req0 in
      r <- client_Do (getHttpClient config) req ;;
      match r with
      | DoErr e _ => raise (errWithMessage e ("athena.apiClient: Failed to do request GET " ++ url))
      | DoResp res =>
          match checkForErrors res with
          | Some e => raise (errWithMessage e ("athena.apiClient: Request failed GET " ++ url))
          | None =>
              match ReadAll res with
              | inl b =>
                  let '(v', err) := Unmarshal b v in
                  match err with
                  | Some e => raise (errWithMessage e ("athena.apiClient: Failed to unmarshal response "
                                                        ++ body_text b))
                  | None => ret v'
                  end
              | inr e => raise (errWithMessage e ("athena.apiClient: Failed to read response body from GET " ++ url))
              end
          end
      end
  | inr e => raise (errWithMessage e ("athena.apiClient: Failed to create request GET " ++ url))
  end.

(** The request [doGet] sends. *)
Definition get_request (config : Config) (url : string) : Request :=
  setHeaders config (bare_request "GET" url None).

(** What a GET of [doGet] makes of a reply: the decoded value, or
    [None] when the exchange, the status, the read or the decoding
    fails. *)
Definition get_outcome {T} `{FromJson T} (rep : reply) (v : T) : option T :=
  match rep with
  | RTransportError _ _ => None
  | RResponse st b re =>
      match readResponse (mkResponse st b re) with
      | inr _ => None
      | inl b' => match Unmarshal b' v with (v', None) => Some v' | _ => None end
      end
  end.

(** ** Lemmas *)

Lemma Grows_doGet {T} `{FromJson T} (config : Config) (url : string) (v : T) :
  Grows (doGet config url v).
Proof. unfold doGet. grows_tac. Qed.

Lemma Total_doGet {T} `{FromJson T} (config : Config) (url : string) (v : T) :
  Total (doGet config url v).
Proof. unfold doGet. grows_tac. Qed.
Lemma Safe_doGet {T} `{FromJson T} (config : Config) (url : string) (v : T) :
  Safe (doGet config url v).
Proof. unfold doGet. grows_tac. Qed.
#[export] Hint Resolve Grows_doGet Total_doGet Safe_doGet : grows.


(** Every error [doGet] returns is wrapped by [errors.WithMessage]. *)
Lemma doGet_err_wrapped {T} `{FromJson T} (config : Config) (url : string) (v : T) w e w' :
  doGet config url v w = (Err e, w') -> exists c m, e = errWithMessage c m.
Proof.
  unfold doGet. intros E.
  destruct (NewRequest "GET" url None); [| unfold raise in E; simplify_eq; by do 2 eexists].
  unfold bind in E. destruct (client_Do_ok (getHttpClient config) (setHeaders config r) w)
    as (d & w1 & Hd). rewrite Hd in E.
  repeat case_match; unfold raise, ret in E; simplify_eq; by do 2 eexists.
Qed.

(** [doGet] sends one GET of [url] when the URL parses, and nothing
    otherwise. *)
Lemma doGet_trace {T} `{FromJson T} (config : Config) (url : string) (v : T) w r w' :
  doGet config url v w = (r, w') ->
  (url_parse_error url <> None /\ w' = w)
  \/ (url_parse_error url = None /\ (clock w <= clock w')%N /\ server w' = server w /\
      trace w' = EvRequest (clock w) (getHttpClient config) (get_request config url) :: trace w).
Proof.
  unfold doGet, NewRequest. destruct (url_parse_error url) eqn:Hu.
  { intros E. unfold raise in E. simplify_eq. by left. }
  unfold bind. destruct (client_Do _ _ w) as [o w1] eqn:Hd.
  destruct (client_Do_world _ _ _ _ _ Hd) as (Ht & Hc & Hs).
  intros E. right. split; [done |].
  destruct o as [[res|e u]| | |]; repeat case_match; unfold raise, ret in E; simplify_eq; done.
Qed.

(** When the URL parses, [doGet] is one exchange with the server, and its
    result is the one [get_outcome] reads from the reply. *)
Lemma doGet_exchange {T} `{FromJson T} (config : Config) (url : string) (v : T) w r w' :
  doGet config url v w = (r, w') -> url_parse_error url = None ->
  match server w (trace w) (getHttpClient config) (get_request config url) with
  | (rep, lat) =>
      w' = logged w (getHttpClient config) (get_request config url) lat /\
      match get_outcome rep v with Some v' => r = Ok v' | None => exists e, r = Err e end
  end.
Proof.
  unfold doGet, NewRequest. intros E Hu. rewrite Hu in E. unfold bind in E.
  change (setHeaders config (bare_request "GET" url None)) with (get_request config url) in E.
  destruct (server w (trace w) _ (get_request config url)) as [[m u|st b re] lat] eqn:Hs.
  - rewrite (client_Do_transport_error _ _ _ _ _ _ Hs) in E. unfold raise in E.
    simplify_eq. split; [done | cbn; eauto].
  - rewrite (client_Do_resp _ _ _ _ _ _ _ Hs) in E. unfold get_outcome, readResponse.
    destruct (checkForErrors _); [unfold raise in E; simplify_eq; split; [done | eauto] |].
    destruct (ReadAll _) as [b'|e]; [| unfold raise in E; simplify_eq; split; [done | eauto]].
    destruct (Unmarshal b' v) as [v' [e|]]; unfold raise, ret in E; simplify_eq;
      split; eauto.
Qed.

(** A response below 400 whose body reads is accepted as is. *)
Lemma readResponse_ok (st : Z) (b : body) : (st < 400)%Z -> readResponse (mkResponse st b None) = inl b.
Proof.
  intros Hs. unfold readResponse, checkForErrors. cbn [StatusCode].
  destruct (Z.leb_spec 500 st); [lia |]. by destruct (Z.leb_spec 400 st); [lia |].
Qed.

Lemma checkForErrors_ok (st : Z) (b : body) : (st < 400)%Z -> checkForErrors (mkResponse st b None) = None.
Proof.
  intros Hs. unfold checkForErrors. cbn [StatusCode].
  destruct (Z.leb_spec 500 st); [lia |]. by destruct (Z.leb_spec 400 st); [lia |].
Qed.
