(* ===== verification/Entities.v ===== *)
(** The Go structs of [src/api_client.go] (lines 42-131) as records,
    with their zero values, their JSON field tables (the [json:"..."] tags)
    and the [FromJson] instances [json.Unmarshal] uses; the encoders
    [json.Marshal] uses for the request bodies ([IPAMReservation],
    [RenderTemplateRequest]); and the [Embedded] interface through which
    [findEntityByName] reaches the list inside a collection response (the
    code uses reflection: [FieldByName("Embedded").FieldByName(name)]).

    A Go anonymous struct gets a record of its own ([ReservationLinks],
    [JobLinks], ...).  Field names are the Go names, prefixed where two
    structs share a name ([js_ID] for [JobStatus.ID]). *)

From S2P Require Import Prelude GoLib Json.
From stdpp Require Import gmap.
Open Scope string_scope.

(** [athena.LinkRef]. *)
Record LinkRef := mkLinkRef {
  Href : string;
  Title : string
}.
Definition LinkRef_zero : LinkRef := mkLinkRef ("") ("").
Definition LinkRef_set_Href (v : string) (x : LinkRef) : LinkRef := mkLinkRef v (Title x).
Definition LinkRef_set_Title (v : string) (x : LinkRef) : LinkRef := mkLinkRef (Href x) v.
Definition LinkRef_fields : list (field LinkRef) :=
  [go_field "href" Href LinkRef_set_Href;
   go_field "title" Title LinkRef_set_Title].
#[export] Instance LinkRef_zero_inst : GoZero LinkRef := LinkRef_zero.
#[export] Instance LinkRef_from_json : FromJson LinkRef :=
  {| go_type := "athena.LinkRef"; decode_into := decode_struct "athena.LinkRef" LinkRef_fields |}.

(** [struct { Self athena.LinkRef }]. *)
Record WorkspaceLinks := mkWorkspaceLinks {
  wsl_Self : LinkRef
}.
Definition WorkspaceLinks_zero : WorkspaceLinks := mkWorkspaceLinks (LinkRef_zero).
Definition WorkspaceLinks_set_wsl_Self (v : LinkRef) (x : WorkspaceLinks) : WorkspaceLinks := mkWorkspaceLinks v.
Definition WorkspaceLinks_fields : list (field WorkspaceLinks) :=
  [go_field "self" wsl_Self WorkspaceLinks_set_wsl_Self].
#[export] Instance WorkspaceLinks_zero_inst : GoZero WorkspaceLinks := WorkspaceLinks_zero.
#[export] Instance WorkspaceLinks_from_json : FromJson WorkspaceLinks :=
  {| go_type := "struct { Self athena.LinkRef }"; decode_into := decode_struct "struct { Self athena.LinkRef }" WorkspaceLinks_fields |}.

(** [athena.Workspace]. *)
Record Workspace := mkWorkspace {
  ws_Links : option WorkspaceLinks;
  ws_ID : Z;
  ws_Name : string
}.
Definition Workspace_zero : Workspace := mkWorkspace (None) (0%Z) ("").
Definition Workspace_set_ws_Links (v : option WorkspaceLinks) (x : Workspace) : Workspace := mkWorkspace v (ws_ID x) (ws_Name x).
Definition Workspace_set_ws_ID (v : Z) (x : Workspace) : Workspace := mkWorkspace (ws_Links x) v (ws_Name x).
Definition Workspace_set_ws_Name (v : string) (x : Workspace) : Workspace := mkWorkspace (ws_Links x) (ws_ID x) v.
Definition Workspace_fields : list (field Workspace) :=
  [go_field "_links" ws_Links Workspace_set_ws_Links;
   go_field "id" ws_ID Workspace_set_ws_ID;
   go_field "name" ws_Name Workspace_set_ws_Name].
#[export] Instance Workspace_zero_inst : GoZero Workspace := Workspace_zero.
#[export] Instance Workspace_from_json : FromJson Workspace :=
  {| go_type := "athena.Workspace"; decode_into := decode_struct "athena.Workspace" Workspace_fields |}.

(** [struct { Workspaces []athena.Workspace }]. *)
Record WorkspacesEmbedded := mkWorkspacesEmbedded {
  Workspaces : list Workspace
}.
Definition WorkspacesEmbedded_zero : WorkspacesEmbedded := mkWorkspacesEmbedded ([]).
Definition WorkspacesEmbedded_set_Workspaces (v : list Workspace) (x : WorkspacesEmbedded) : WorkspacesEmbedded := mkWorkspacesEmbedded v.
Definition WorkspacesEmbedded_fields : list (field WorkspacesEmbedded) :=
  [go_field "workspaces" Workspaces WorkspacesEmbedded_set_Workspaces].
#[export] Instance WorkspacesEmbedded_zero_inst : GoZero WorkspacesEmbedded := WorkspacesEmbedded_zero.
#[export] Instance WorkspacesEmbedded_from_json : FromJson WorkspacesEmbedded :=
  {| go_type := "struct { Workspaces []athena.Workspace }"; decode_into := decode_struct "struct { Workspaces []athena.Workspace }" WorkspacesEmbedded_fields |}.

(** [athena.WorkspacesListResponse]. *)
Record WorkspacesListResponse := mkWorkspacesListResponse {
  wslr_Embedded : WorkspacesEmbedded
}.
Definition WorkspacesListResponse_zero : WorkspacesListResponse := mkWorkspacesListResponse (WorkspacesEmbedded_zero).
Definition WorkspacesListResponse_set_wslr_Embedded (v : WorkspacesEmbedded) (x : WorkspacesListResponse) : WorkspacesListResponse := mkWorkspacesListResponse v.
Definition WorkspacesListResponse_fields : list (field WorkspacesListResponse) :=
  [go_field "_embedded" wslr_Embedded WorkspacesListResponse_set_wslr_Embedded].
#[export] Instance WorkspacesListResponse_zero_inst : GoZero WorkspacesListResponse := WorkspacesListResponse_zero.
#[export] Instance WorkspacesListResponse_from_json : FromJson WorkspacesListResponse :=
  {| go_type := "athena.WorkspacesListResponse"; decode_into := decode_struct "athena.WorkspacesListResponse" WorkspacesListResponse_fields |}.

(** [struct { Self, Workspace, Policy, JobMetadata athena.LinkRef }]. *)
Record ReservationLinks := mkReservationLinks {
  rl_Self : LinkRef;
  rl_Workspace : LinkRef;
  rl_Policy : LinkRef;
  rl_JobMetadata : LinkRef
}.
Definition ReservationLinks_zero : ReservationLinks := mkReservationLinks (LinkRef_zero) (LinkRef_zero) (LinkRef_zero) (LinkRef_zero).
Definition ReservationLinks_set_rl_Self (v : LinkRef) (x : ReservationLinks) : ReservationLinks := mkReservationLinks v (rl_Workspace x) (rl_Policy x) (rl_JobMetadata x).
Definition ReservationLinks_set_rl_Workspace (v : LinkRef) (x : ReservationLinks) : ReservationLinks := mkReservationLinks (rl_Self x) v (rl_Policy x) (rl_JobMetadata x).
Definition ReservationLinks_set_rl_Policy (v : LinkRef) (x : ReservationLinks) : ReservationLinks := mkReservationLinks (rl_Self x) (rl_Workspace x) v (rl_JobMetadata x).
Definition ReservationLinks_set_rl_JobMetadata (v : LinkRef) (x : ReservationLinks) : ReservationLinks := mkReservationLinks (rl_Self x) (rl_Workspace x) (rl_Policy x) v.
Definition ReservationLinks_fields : list (field ReservationLinks) :=
  [go_field "self" rl_Self ReservationLinks_set_rl_Self;
   go_field "workspace" rl_Workspace ReservationLinks_set_rl_Workspace;
   go_field "policy" rl_Policy ReservationLinks_set_rl_Policy;
   go_field "jobMetadata" rl_JobMetadata ReservationLinks_set_rl_JobMetadata].
#[export] Instance ReservationLinks_zero_inst : GoZero ReservationLinks := ReservationLinks_zero.
#[export] Instance ReservationLinks_from_json : FromJson ReservationLinks :=
  {| go_type := "struct { Self, Workspace, Policy, JobMetadata athena.LinkRef }"; decode_into := decode_struct "struct { Self, Workspace, Policy, JobMetadata athena.LinkRef }" ReservationLinks_fields |}.

(** [athena.IPAMReservation]. *)
Record IPAMReservation := mkIPAMReservation {
  r_Links : option ReservationLinks;
  r_ID : Z;
  Hostname : string;
  PolicyID : Z;
  r_Policy : string;
  WorkspaceURL : string;
  IPaddress : string;
  Gateway : string;
  PrimaryDNS : string;
  SecondaryDNS : string;
  Network : string;
  Subnet : string;
  DNSSuffix : string;
  Netmask : string;
  NicLabel : string;
  TemplateProperties : gmap string json
}.
Definition IPAMReservation_zero : IPAMReservation := mkIPAMReservation (None) (0%Z) ("") (0%Z) ("") ("") ("") ("") ("") ("") ("") ("") ("") ("") ("") (∅).
Definition IPAMReservation_set_r_Links (v : option ReservationLinks) (x : IPAMReservation) : IPAMReservation := mkIPAMReservation v (r_ID x) (Hostname x) (PolicyID x) (r_Policy x) (WorkspaceURL x) (IPaddress x) (Gateway x) (PrimaryDNS x) (SecondaryDNS x) (Network x) (Subnet x) (DNSSuffix x) (Netmask x) (NicLabel x) (TemplateProperties x).
Definition IPAMReservation_set_r_ID (v : Z) (x : IPAMReservation) : IPAMReservation := mkIPAMReservation (r_Links x) v (Hostname x) (PolicyID x) (r_Policy x) (WorkspaceURL x) (IPaddress x) (Gateway x) (PrimaryDNS x) (SecondaryDNS x) (Network x) (Subnet x) (DNSSuffix x) (Netmask x) (NicLabel x) (TemplateProperties x).
Definition IPAMReservation_set_Hostname (v : string) (x : IPAMReservation) : IPAMReservation := mkIPAMReservation (r_Links x) (r_ID x) v (PolicyID x) (r_Policy x) (WorkspaceURL x) (IPaddress x) (Gateway x) (PrimaryDNS x) (SecondaryDNS x) (Network x) (Subnet x) (DNSSuffix x) (Netmask x) (NicLabel x) (TemplateProperties x).
Definition IPAMReservation_set_PolicyID (v : Z) (x : IPAMReservation) : IPAMReservation := mkIPAMReservation (r_Links x) (r_ID x) (Hostname x) v (r_Policy x) (WorkspaceURL x) (IPaddress x) (Gateway x) (PrimaryDNS x) (SecondaryDNS x) (Network x) (Subnet x) (DNSSuffix x) (Netmask x) (NicLabel x) (TemplateProperties x).
Definition IPAMReservation_set_r_Policy (v : string) (x : IPAMReservation) : IPAMReservation := mkIPAMReservation (r_Links x) (r_ID x) (Hostname x) (PolicyID x) v (WorkspaceURL x) (IPaddress x) (Gateway x) (PrimaryDNS x) (SecondaryDNS x) (Network x) (Subnet x) (DNSSuffix x) (Netmask x) (NicLabel x) (TemplateProperties x).
Definition IPAMReservation_set_WorkspaceURL (v : string) (x : IPAMReservation) : IPAMReservation := mkIPAMReservation (r_Links x) (r_ID x) (Hostname x) (PolicyID x) (r_Policy x) v (IPaddress x) (Gateway x) (PrimaryDNS x) (SecondaryDNS x) (Network x) (Subnet x) (DNSSuffix x) (Netmask x) (NicLabel x) (TemplateProperties x).
Definition IPAMReservation_set_IPaddress (v : string) (x : IPAMReservation) : IPAMReservation := mkIPAMReservation (r_Links x) (r_ID x) (Hostname x) (PolicyID x) (r_Policy x) (WorkspaceURL x) v (Gateway x) (PrimaryDNS x) (SecondaryDNS x) (Network x) (Subnet x) (DNSSuffix x) (Netmask x) (NicLabel x) (TemplateProperties x).
Definition IPAMReservation_set_Gateway (v : string) (x : IPAMReservation) : IPAMReservation := mkIPAMReservation (r_Links x) (r_ID x) (Hostname x) (PolicyID x) (r_Policy x) (WorkspaceURL x) (IPaddress x) v (PrimaryDNS x) (SecondaryDNS x) (Network x) (Subnet x) (DNSSuffix x) (Netmask x) (NicLabel x) (TemplateProperties x).
Definition IPAMReservation_set_PrimaryDNS (v : string) (x : IPAMReservation) : IPAMReservation := mkIPAMReservation (r_Links x) (r_ID x) (Hostname x) (PolicyID x) (r_Policy x) (WorkspaceURL x) (IPaddress x) (Gateway x) v (SecondaryDNS x) (Network x) (Subnet x) (DNSSuffix x) (Netmask x) (NicLabel x) (TemplateProperties x).
Definition IPAMReservation_set_SecondaryDNS (v : string) (x : IPAMReservation) : IPAMReservation := mkIPAMReservation (r_Links x) (r_ID x) (Hostname x) (PolicyID x) (r_Policy x) (WorkspaceURL x) (IPaddress x) (Gateway x) (PrimaryDNS x) v (Network x) (Subnet x) (DNSSuffix x) (Netmask x) (NicLabel x) (TemplateProperties x).
Definition IPAMReservation_set_Network (v : string) (x : IPAMReservation) : IPAMReservation := mkIPAMReservation (r_Links x) (r_ID x) (Hostname x) (PolicyID x) (r_Policy x) (WorkspaceURL x) (IPaddress x) (Gateway x) (PrimaryDNS x) (SecondaryDNS x) v (Subnet x) (DNSSuffix x) (Netmask x) (NicLabel x) (TemplateProperties x).
Definition IPAMReservation_set_Subnet (v : string) (x : IPAMReservation) : IPAMReservation := mkIPAMReservation (r_Links x) (r_ID x) (Hostname x) (PolicyID x) (r_Policy x) (WorkspaceURL x) (IPaddress x) (Gateway x) (PrimaryDNS x) (SecondaryDNS x) (Network x) v (DNSSuffix x) (Netmask x) (NicLabel x) (TemplateProperties x).
Definition IPAMReservation_set_DNSSuffix (v : string) (x : IPAMReservation) : IPAMReservation := mkIPAMReservation (r_Links x) (r_ID x) (Hostname x) (PolicyID x) (r_Policy x) (WorkspaceURL x) (IPaddress x) (Gateway x) (PrimaryDNS x) (SecondaryDNS x) (Network x) (Subnet x) v (Netmask x) (NicLabel x) (TemplateProperties x).
Definition IPAMReservation_set_Netmask (v : string) (x : IPAMReservation) : IPAMReservation := mkIPAMReservation (r_Links x) (r_ID x) (Hostname x) (PolicyID x) (r_Policy x) (WorkspaceURL x) (IPaddress x) (Gateway x) (PrimaryDNS x) (SecondaryDNS x) (Network x) (Subnet x) (DNSSuffix x) v (NicLabel x) (TemplateProperties x).
Definition IPAMReservation_set_NicLabel (v : string) (x : IPAMReservation) : IPAMReservation := mkIPAMReservation (r_Links x) (r_ID x) (Hostname x) (PolicyID x) (r_Policy x) (WorkspaceURL x) (IPaddress x) (Gateway x) (PrimaryDNS x) (SecondaryDNS x) (Network x) (Subnet x) (DNSSuffix x) (Netmask x) v (TemplateProperties x).
Definition IPAMReservation_set_TemplateProperties (v : gmap string json) (x : IPAMReservation) : IPAMReservation := mkIPAMReservation (r_Links x) (r_ID x) (Hostname x) (PolicyID x) (r_Policy x) (WorkspaceURL x) (IPaddress x) (Gateway x) (PrimaryDNS x) (SecondaryDNS x) (Network x) (Subnet x) (DNSSuffix x) (Netmask x) (NicLabel x) v.
Definition IPAMReservation_fields : list (field IPAMReservation) :=
  [go_field "_links" r_Links IPAMReservation_set_r_Links;
   go_field "id" r_ID IPAMReservation_set_r_ID;
   go_field "hostname" Hostname IPAMReservation_set_Hostname;
   go_field "policyId" PolicyID IPAMReservation_set_PolicyID;
   go_field "policy" r_Policy IPAMReservation_set_r_Policy;
   go_field "workspace" WorkspaceURL IPAMReservation_set_WorkspaceURL;
   go_field "ipAddress" IPaddress IPAMReservation_set_IPaddress;
   go_field "gateway" Gateway IPAMReservation_set_Gateway;
   go_field "primaryDns" PrimaryDNS IPAMReservation_set_PrimaryDNS;
   go_field "secondaryDns" SecondaryDNS IPAMReservation_set_SecondaryDNS;
   go_field "network" Network IPAMReservation_set_Network;
   go_field "subnet" Subnet IPAMReservation_set_Subnet;
   go_field "dnsSuffix" DNSSuffix IPAMReservation_set_DNSSuffix;
   go_field "netmask" Netmask IPAMReservation_set_Netmask;
   go_field "nicLabel" NicLabel IPAMReservation_set_NicLabel;
   go_field "template_properties" TemplateProperties IPAMReservation_set_TemplateProperties].
#[export] Instance IPAMReservation_zero_inst : GoZero IPAMReservation := IPAMReservation_zero.
#[export] Instance IPAMReservation_from_json : FromJson IPAMReservation :=
  {| go_type := "athena.IPAMReservation"; decode_into := decode_struct "athena.IPAMReservation" IPAMReservation_fields |}.

(** [struct { Self, Workspace athena.LinkRef }]. *)
Record PolicyLinks := mkPolicyLinks {
  pl_Self : LinkRef;
  pl_Workspace : LinkRef
}.
Definition PolicyLinks_zero : PolicyLinks := mkPolicyLinks (LinkRef_zero) (LinkRef_zero).
Definition PolicyLinks_set_pl_Self (v : LinkRef) (x : PolicyLinks) : PolicyLinks := mkPolicyLinks v (pl_Workspace x).
Definition PolicyLinks_set_pl_Workspace (v : LinkRef) (x : PolicyLinks) : PolicyLinks := mkPolicyLinks (pl_Self x) v.
Definition PolicyLinks_fields : list (field PolicyLinks) :=
  [go_field "self" pl_Self PolicyLinks_set_pl_Self;
   go_field "workspace" pl_Workspace PolicyLinks_set_pl_Workspace].
#[export] Instance PolicyLinks_zero_inst : GoZero PolicyLinks := PolicyLinks_zero.
#[export] Instance PolicyLinks_from_json : FromJson PolicyLinks :=
  {| go_type := "struct { Self, Workspace athena.LinkRef }"; decode_into := decode_struct "struct { Self, Workspace athena.LinkRef }" PolicyLinks_fields |}.

(** [athena.IPAMPolicy]. *)
Record IPAMPolicy := mkIPAMPolicy {
  p_Links : option PolicyLinks;
  p_ID : Z;
  p_Name : string;
  Description : string
}.
Definition IPAMPolicy_zero : IPAMPolicy := mkIPAMPolicy (None) (0%Z) ("") ("").
Definition IPAMPolicy_set_p_Links (v : option PolicyLinks) (x : IPAMPolicy) : IPAMPolicy := mkIPAMPolicy v (p_ID x) (p_Name x) (Description x).
Definition IPAMPolicy_set_p_ID (v : Z) (x : IPAMPolicy) : IPAMPolicy := mkIPAMPolicy (p_Links x) v (p_Name x) (Description x).
Definition IPAMPolicy_set_p_Name (v : string) (x : IPAMPolicy) : IPAMPolicy := mkIPAMPolicy (p_Links x) (p_ID x) v (Description x).
Definition IPAMPolicy_set_Description (v : string) (x : IPAMPolicy) : IPAMPolicy := mkIPAMPolicy (p_Links x) (p_ID x) (p_Name x) v.
Definition IPAMPolicy_fields : list (field IPAMPolicy) :=
  [go_field "_links" p_Links IPAMPolicy_set_p_Links;
   go_field "id" p_ID IPAMPolicy_set_p_ID;
   go_field "name" p_Name IPAMPolicy_set_p_Name;
   go_field "description" Description IPAMPolicy_set_Description].
#[export] Instance IPAMPolicy_zero_inst : GoZero IPAMPolicy := IPAMPolicy_zero.
#[export] Instance IPAMPolicy_from_json : FromJson IPAMPolicy :=
  {| go_type := "athena.IPAMPolicy"; decode_into := decode_struct "athena.IPAMPolicy" IPAMPolicy_fields |}.

(** [struct { IPAMPolicies []athena.IPAMPolicy }]. *)
Record IPAMPolicyEmbedded := mkIPAMPolicyEmbedded {
  IPAMPolicies : list IPAMPolicy
}.
Definition IPAMPolicyEmbedded_zero : IPAMPolicyEmbedded := mkIPAMPolicyEmbedded ([]).
Definition IPAMPolicyEmbedded_set_IPAMPolicies (v : list IPAMPolicy) (x : IPAMPolicyEmbedded) : IPAMPolicyEmbedded := mkIPAMPolicyEmbedded v.
Definition IPAMPolicyEmbedded_fields : list (field IPAMPolicyEmbedded) :=
  [go_field "ipamPolicies" IPAMPolicies IPAMPolicyEmbedded_set_IPAMPolicies].
#[export] Instance IPAMPolicyEmbedded_zero_inst : GoZero IPAMPolicyEmbedded := IPAMPolicyEmbedded_zero.
#[export] Instance IPAMPolicyEmbedded_from_json : FromJson IPAMPolicyEmbedded :=
  {| go_type := "struct { IPAMPolicies []athena.IPAMPolicy }"; decode_into := decode_struct "struct { IPAMPolicies []athena.IPAMPolicy }" IPAMPolicyEmbedded_fields |}.

(** [athena.IPAMPolicyResponse]. *)
Record IPAMPolicyResponse := mkIPAMPolicyResponse {
  pr_Embedded : IPAMPolicyEmbedded
}.
Definition IPAMPolicyResponse_zero : IPAMPolicyResponse := mkIPAMPolicyResponse (IPAMPolicyEmbedded_zero).
Definition IPAMPolicyResponse_set_pr_Embedded (v : IPAMPolicyEmbedded) (x : IPAMPolicyResponse) : IPAMPolicyResponse := mkIPAMPolicyResponse v.
Definition IPAMPolicyResponse_fields : list (field IPAMPolicyResponse) :=
  [go_field "_embedded" pr_Embedded IPAMPolicyResponse_set_pr_Embedded].
#[export] Instance IPAMPolicyResponse_zero_inst : GoZero IPAMPolicyResponse := IPAMPolicyResponse_zero.
#[export] Instance IPAMPolicyResponse_from_json : FromJson IPAMPolicyResponse :=
  {| go_type := "athena.IPAMPolicyResponse"; decode_into := decode_struct "athena.IPAMPolicyResponse" IPAMPolicyResponse_fields |}.

(** [struct { Self, JobMetadata, ManagedObject, Policy, Workspace athena.LinkRef }]. *)
Record JobLinks := mkJobLinks {
  jl_Self : LinkRef;
  jl_JobMetadata : LinkRef;
  ManagedObject : LinkRef;
  jl_Policy : LinkRef;
  jl_Workspace : LinkRef
}.
Definition JobLinks_zero : JobLinks := mkJobLinks (LinkRef_zero) (LinkRef_zero) (LinkRef_zero) (LinkRef_zero) (LinkRef_zero).
Definition JobLinks_set_jl_Self (v : LinkRef) (x : JobLinks) : JobLinks := mkJobLinks v (jl_JobMetadata x) (ManagedObject x) (jl_Policy x) (jl_Workspace x).
Definition JobLinks_set_jl_JobMetadata (v : LinkRef) (x : JobLinks) : JobLinks := mkJobLinks (jl_Self x) v (ManagedObject x) (jl_Policy x) (jl_Workspace x).
Definition JobLinks_set_ManagedObject (v : LinkRef) (x : JobLinks) : JobLinks := mkJobLinks (jl_Self x) (jl_JobMetadata x) v (jl_Policy x) (jl_Workspace x).
Definition JobLinks_set_jl_Policy (v : LinkRef) (x : JobLinks) : JobLinks := mkJobLinks (jl_Self x) (jl_JobMetadata x) (ManagedObject x) v (jl_Workspace x).
Definition JobLinks_set_jl_Workspace (v : LinkRef) (x : JobLinks) : JobLinks := mkJobLinks (jl_Self x) (jl_JobMetadata x) (ManagedObject x) (jl_Policy x) v.
Definition JobLinks_fields : list (field JobLinks) :=
  [go_field "self" jl_Self JobLinks_set_jl_Self;
   go_field "jobMetadata" jl_JobMetadata JobLinks_set_jl_JobMetadata;
   go_field "managedObject" ManagedObject JobLinks_set_ManagedObject;
   go_field "policy" jl_Policy JobLinks_set_jl_Policy;
   go_field "workspace" jl_Workspace JobLinks_set_jl_Workspace].
#[export] Instance JobLinks_zero_inst : GoZero JobLinks := JobLinks_zero.
#[export] Instance JobLinks_from_json : FromJson JobLinks :=
  {| go_type := "struct { Self, JobMetadata, ManagedObject, Policy, Workspace athena.LinkRef }"; decode_into := decode_struct "struct { Self, JobMetadata, ManagedObject, Policy, Workspace athena.LinkRef }" JobLinks_fields |}.

(** [struct { Message string }]. *)
Record ErrorMessage := mkErrorMessage {
  Message : string
}.
Definition ErrorMessage_zero : ErrorMessage := mkErrorMessage ("").
Definition ErrorMessage_set_Message (v : string) (x : ErrorMessage) : ErrorMessage := mkErrorMessage v.
Definition ErrorMessage_fields : list (field ErrorMessage) :=
  [go_field "message" Message ErrorMessage_set_Message].
#[export] Instance ErrorMessage_zero_inst : GoZero ErrorMessage := ErrorMessage_zero.
#[export] Instance ErrorMessage_from_json : FromJson ErrorMessage :=
  {| go_type := "struct { Message string }"; decode_into := decode_struct "struct { Message string }" ErrorMessage_fields |}.

(** [struct { Code int; Errors *[]struct { Message string } }]. *)
Record ErrorDetails := mkErrorDetails {
  Code : Z;
  Errors : option (list ErrorMessage)
}.
Definition ErrorDetails_zero : ErrorDetails := mkErrorDetails (0%Z) (None).
Definition ErrorDetails_set_Code (v : Z) (x : ErrorDetails) : ErrorDetails := mkErrorDetails v (Errors x).
Definition ErrorDetails_set_Errors (v : option (list ErrorMessage)) (x : ErrorDetails) : ErrorDetails := mkErrorDetails (Code x) v.
Definition ErrorDetails_fields : list (field ErrorDetails) :=
  [go_field "code" Code ErrorDetails_set_Code;
   go_field "errors" Errors ErrorDetails_set_Errors].
#[export] Instance ErrorDetails_zero_inst : GoZero ErrorDetails := ErrorDetails_zero.
#[export] Instance ErrorDetails_from_json : FromJson ErrorDetails :=
  {| go_type := "struct { Code int; Errors *[]struct { Message string } }"; decode_into := decode_struct "struct { Code int; Errors *[]struct { Message string } }" ErrorDetails_fields |}.

(** [athena.JobStatus]. *)
Record JobStatus := mkJobStatus {
  js_Links : option JobLinks;
  js_ID : Z;
  JobStateDescription : string;
  JobState : string;
  JobTrackingID : string;
  JobType : string;
  js_ErrorDetails : option ErrorDetails
}.
Definition JobStatus_zero : JobStatus := mkJobStatus (None) (0%Z) ("") ("") ("") ("") (None).
Definition JobStatus_set_js_Links (v : option JobLinks) (x : JobStatus) : JobStatus := mkJobStatus v (js_ID x) (JobStateDescription x) (JobState x) (JobTrackingID x) (JobType x) (js_ErrorDetails x).
Definition JobStatus_set_js_ID (v : Z) (x : JobStatus) : JobStatus := mkJobStatus (js_Links x) v (JobStateDescription x) (JobState x) (JobTrackingID x) (JobType x) (js_ErrorDetails x).
Definition JobStatus_set_JobStateDescription (v : string) (x : JobStatus) : JobStatus := mkJobStatus (js_Links x) (js_ID x) v (JobState x) (JobTrackingID x) (JobType x) (js_ErrorDetails x).
Definition JobStatus_set_JobState (v : string) (x : JobStatus) : JobStatus := mkJobStatus (js_Links x) (js_ID x) (JobStateDescription x) v (JobTrackingID x) (JobType x) (js_ErrorDetails x).
Definition JobStatus_set_JobTrackingID (v : string) (x : JobStatus) : JobStatus := mkJobStatus (js_Links x) (js_ID x) (JobStateDescription x) (JobState x) v (JobType x) (js_ErrorDetails x).
Definition JobStatus_set_JobType (v : string) (x : JobStatus) : JobStatus := mkJobStatus (js_Links x) (js_ID x) (JobStateDescription x) (JobState x) (JobTrackingID x) v (js_ErrorDetails x).
Definition JobStatus_set_js_ErrorDetails (v : option ErrorDetails) (x : JobStatus) : JobStatus := mkJobStatus (js_Links x) (js_ID x) (JobStateDescription x) (JobState x) (JobTrackingID x) (JobType x) v.
Definition JobStatus_fields : list (field JobStatus) :=
  [go_field "_links" js_Links JobStatus_set_js_Links;
   go_field "id" js_ID JobStatus_set_js_ID;
   go_field "jobStateDescription" JobStateDescription JobStatus_set_JobStateDescription;
   go_field "jobState" JobState JobStatus_set_JobState;
   go_field "jobTrackingId" JobTrackingID JobStatus_set_JobTrackingID;
   go_field "jobType" JobType JobStatus_set_JobType;
   go_field "errorDetails" js_ErrorDetails JobStatus_set_js_ErrorDetails].
#[export] Instance JobStatus_zero_inst : GoZero JobStatus := JobStatus_zero.
#[export] Instance JobStatus_from_json : FromJson JobStatus :=
  {| go_type := "athena.JobStatus"; decode_into := decode_struct "athena.JobStatus" JobStatus_fields |}.
(** [type RenderTemplateRequest struct]. *)
Record RenderTemplateRequest := mkRenderTemplateRequest {
  Template : string;
  rt_TemplateProperties : gmap string json
}.

(** [RenderTemplateResponse] is not declared in the sources; it carries
    the rendered value the [templateTester] endpoint returns. *)
Record RenderTemplateResponse := mkRenderTemplateResponse { Value : string }.
Definition RenderTemplateResponse_zero := mkRenderTemplateResponse "".
#[export] Instance RenderTemplateResponse_from_json : FromJson RenderTemplateResponse :=
  {| go_type := "athena.RenderTemplateResponse";
     decode_into := decode_struct "athena.RenderTemplateResponse"
                      [go_field "value" Value (fun v _ => mkRenderTemplateResponse v)] |}.

(** ** Encoders ([json.Marshal]) *)

Definition empty_string (s : string) : bool := String.eqb s "".
Definition empty_map (m : gmap string json) : bool := bool_decide (m = ∅).

Definition encode_LinkRef (l : LinkRef) : json :=
  JObject (omit_empty "href" (empty_string (Href l)) (JString (Href l))
           ++ omit_empty "title" (empty_string (Title l)) (JString (Title l))).

(** A struct-typed field is never empty: [omitempty] keeps it. *)
Definition encode_ReservationLinks (l : ReservationLinks) : json :=
  JObject [("self", encode_LinkRef (rl_Self l)); ("workspace", encode_LinkRef (rl_Workspace l));
           ("policy", encode_LinkRef (rl_Policy l)); ("jobMetadata", encode_LinkRef (rl_JobMetadata l))].

Definition encode_map (m : gmap string json) : json := JObject (sorted_entries m).

(** [json.Marshal(IPAMReservation)]: the fields in declaration order,
    [primaryDns] and [secondaryDns] always, the others only when not
    zero. *)
#[export] Instance IPAMReservation_to_json : ToJson IPAMReservation := fun r =>
  JObject (
    match r_Links r with None => [] | Some l => [("_links", encode_ReservationLinks l)] end
    ++ omit_empty "id" (r_ID r =? 0)%Z (JNumber (r_ID r))
    ++ omit_empty "hostname" (empty_string (Hostname r)) (JString (Hostname r))
    ++ omit_empty "policyId" (PolicyID r =? 0)%Z (JNumber (PolicyID r))
    ++ omit_empty "policy" (empty_string (r_Policy r)) (JString (r_Policy r))
    ++ omit_empty "workspace" (empty_string (WorkspaceURL r)) (JString (WorkspaceURL r))
    ++ omit_empty "ipAddress" (empty_string (IPaddress r)) (JString (IPaddress r))
    ++ omit_empty "gateway" (empty_string (Gateway r)) (JString (Gateway r))
    ++ [("primaryDns", JString (PrimaryDNS r)); ("secondaryDns", JString (SecondaryDNS r))]
    ++ omit_empty "network" (empty_string (Network r)) (JString (Network r))
    ++ omit_empty "subnet" (empty_string (Subnet r)) (JString (Subnet r))
    ++ omit_empty "dnsSuffix" (empty_string (DNSSuffix r)) (JString (DNSSuffix r))
    ++ omit_empty "netmask" (empty_string (Netmask r)) (JString (Netmask r))
    ++ omit_empty "nicLabel" (empty_string (NicLabel r)) (JString (NicLabel r))
    ++ omit_empty "template_properties" (empty_map (TemplateProperties r))
         (encode_map (TemplateProperties r))).

#[export] Instance RenderTemplateRequest_to_json : ToJson RenderTemplateRequest := fun r =>
  JObject (omit_empty "template" (empty_string (Template r)) (JString (Template r))
           ++ omit_empty "template_properties" (empty_map (rt_TemplateProperties r))
                (encode_map (rt_TemplateProperties r))).

(** ** Collections

    [findEntityByName] reads [collectionResponse.Embedded.<name>] by
    reflection; a name that is not a field gives an invalid
    [reflect.Value], on which [Len] panics.  [embedded_field name r] is
    that lookup: [None] for an unknown name. *)
Class Embedded (R E : Type) := embedded_field : string -> R -> option (list E).

#[export] Instance IPAMPolicyResponse_embedded : Embedded IPAMPolicyResponse IPAMPolicy :=
  fun name r => if String.eqb name "IPAMPolicies" then Some (IPAMPolicies (pr_Embedded r)) else None.

#[export] Instance WorkspacesListResponse_embedded : Embedded WorkspacesListResponse Workspace :=
  fun name r => if String.eqb name "Workspaces" then Some (Workspaces (wslr_Embedded r)) else None.

(** A reservation as the server returns it, with links, ids and a
    template property. *)
Definition sample_reservation : IPAMReservation :=
  mkIPAMReservation
    (Some (mkReservationLinks (mkLinkRef "/api/v3/onefuse/ipamReservations/9/" "") LinkRef_zero
             (mkLinkRef "/api/v3/onefuse/modulePolicies/3/" "policy") LinkRef_zero))
    9 "web01" 3 "" "" "10.0.0.5" "10.0.0.1" "10.0.0.2" "" "10.0.0.0" "10.0.0.0/24" "example.com"
    "255.255.255.0" "" (<["owner" := JString "ops"]> ∅).

(** ** Round trips of the reservation's JSON *)

(** One member of an object the client encodes, decoded back into a
    zero field: the field is found in the table [fs] by its tag, the
    value is decoded by computation or by the round trip of its type,
    and an omitted member leaves the zero value. *)
Ltac member_omitted :=
  intros Hb; first [apply String.eqb_eq in Hb | apply Z.eqb_eq in Hb | apply bool_decide_eq_true in Hb];
  cbn in Hb; subst; reflexivity.

Ltac member_step dec :=
  match goal with
  | |- context [foldl (struct_step ?fs) (?t, None) (omit_empty ?k ?b ?v ++ ?rest)] =>
      let l := eval hnf in fs in
      match l with
      | context [go_field k ?g ?s] =>
          erewrite (struct_omit_app fs k g s b v _ t rest);
          [| reflexivity | intros _; dec | member_omitted]
      end
  | |- context [foldl (struct_step ?fs) (?t, None) (omit_empty ?k ?b ?v)] =>
      let l := eval hnf in fs in
      match l with
      | context [go_field k ?g ?s] =>
          erewrite (struct_step_omit fs k g s b v _ t);
          [| reflexivity | intros _; dec | member_omitted]
      end
  | |- context [foldl (struct_step ?fs) (?t, None) ((?k, ?v) :: ?rest)] =>
      let l := eval hnf in fs in
      match l with
      | context [go_field k ?g ?s] =>
          erewrite (struct_cons fs k g s v _ t rest); [| reflexivity | dec]
      end
  end.

Lemma encode_map_decode (m : gmap string json) (t : gmap string json) :
  t = ∅ -> decode_into (encode_map m) t = (m, None).
Proof. intros ->. cbn. by rewrite sorted_entries_decode. Qed.

Lemma encode_LinkRef_decode (l : LinkRef) (t : LinkRef) :
  t = LinkRef_zero -> decode_into (encode_LinkRef l) t = (l, None).
Proof.
  intros ->. destruct l as [h ti]. cbn [decode_into LinkRef_from_json encode_LinkRef decode_struct].
  do 2 member_step ltac:(cbn; reflexivity). reflexivity.
Qed.

Lemma encode_ReservationLinks_decode (l : ReservationLinks) (t : option ReservationLinks) :
  t = None -> decode_into (encode_ReservationLinks l) t = (Some l, None).
Proof.
  intros ->. destruct l as [s w p j]. cbn [decode_into fromjson_ptr].
  cbn [encode_ReservationLinks default zero_val ReservationLinks_zero_inst decode_into
       ReservationLinks_from_json decode_struct].
  do 4 member_step ltac:(apply encode_LinkRef_decode; reflexivity).
  reflexivity.
Qed.

Ltac member_decode :=
  lazymatch goal with
  | |- decode_into (encode_map _) _ = _ => apply encode_map_decode; reflexivity
  | |- decode_into (encode_ReservationLinks _) _ = _ =>
      cbn [decode_into fromjson_ptr]; apply encode_ReservationLinks_decode; reflexivity
  | |- decode_into (JNumber ?n) _ = _ =>
      match goal with H : in_int64 n = true |- _ => cbn [decode_into fromjson_int]; rewrite H end;
      reflexivity
  | |- _ => cbn; reflexivity
  end.

(** The reservation decoded so far, as a record literal. *)
Ltac reservation_norm :=
  cbv [IPAMReservation_zero IPAMReservation_set_r_Links IPAMReservation_set_r_ID IPAMReservation_set_Hostname IPAMReservation_set_PolicyID IPAMReservation_set_r_Policy IPAMReservation_set_WorkspaceURL IPAMReservation_set_IPaddress IPAMReservation_set_Gateway IPAMReservation_set_PrimaryDNS IPAMReservation_set_SecondaryDNS IPAMReservation_set_Network IPAMReservation_set_Subnet IPAMReservation_set_DNSSuffix IPAMReservation_set_Netmask IPAMReservation_set_NicLabel IPAMReservation_set_TemplateProperties
       r_Links r_ID Hostname PolicyID r_Policy WorkspaceURL IPaddress Gateway PrimaryDNS SecondaryDNS Network Subnet DNSSuffix Netmask NicLabel TemplateProperties].

(** C16. The wire JSON of a reservation decodes back to the same
    reservation: the body [json.Marshal] builds for the POST, echoed by
    the server and unmarshalled into a zero [IPAMReservation], gives every
    field back (links, ids, host name, policy and workspace, the network
    and DNS fields, the template properties), as long as the ids are
    64-bit integers. *)
Theorem IPAMReservation_json_roundtrip (r : IPAMReservation) :
  in_int64 (r_ID r) = true -> in_int64 (PolicyID r) = true ->
  Unmarshal (mkBody (json_text (to_json r)) (Some (to_json r))) IPAMReservation_zero = (r, None).
Proof.
  intros Hi Hp. unfold Unmarshal. cbn [body_json].
  destruct r as [links id host pid pol ws ip gw pdns sdns net sub dsuf nm nic tp].
  cbn [r_ID PolicyID] in Hi, Hp.
  cbn [decode_into IPAMReservation_from_json]. unfold to_json, IPAMReservation_to_json.
  cbn [r_Links r_ID Hostname PolicyID r_Policy WorkspaceURL IPaddress Gateway PrimaryDNS SecondaryDNS
       Network Subnet DNSSuffix Netmask NicLabel TemplateProperties decode_struct].
  destruct links as [l|]; cbn [app]; repeat (member_step ltac:(idtac; member_decode); reservation_norm); reflexivity.
Qed.

Lemma IPAMReservation_json_roundtrip_witness :
  in_int64 (r_ID sample_reservation) = true /\ in_int64 (PolicyID sample_reservation) = true /\
  Unmarshal (mkBody (json_text (to_json sample_reservation)) (Some (to_json sample_reservation)))
    IPAMReservation_zero = (sample_reservation, None).
Proof.
  assert (Hi : in_int64 (r_ID sample_reservation) = true) by reflexivity.
  assert (Hp : in_int64 (PolicyID sample_reservation) = true) by reflexivity.
  split_and!; [exact Hi | exact Hp | exact (IPAMReservation_json_roundtrip _ Hi Hp)].
Defined.
