(* ===== verification/JobEngine.v ===== *)
(** The asynchronous job engine of [src/api_client.go]: [GetJobStatus]
    (lines 288-300), [waitForJob] (383-403), [checkForJobErrors]
    (573-578), [handleAsyncRequest] (319-350) and
    [handleAsyncRequestAndFetchManagdObject] (304-317).

    The Go [for] loop of [waitForJob] is [poll_loop], run with the fuel
    [PollFuel]; each iteration fetches the job status, sleeps 5 s, and
    fails with the timeout error when more than an hour has passed since
    the loop started.  The timeout test comes after the sleep, so it is
    made also on the iteration that observed a terminal state. *)

From S2P Require Import Prelude GoLib Json Http Transport Entities.
Open Scope string_scope.

(** ** Definitions *)

(** [GetJobStatus(id, config)]. *)
Definition GetJobStatus (id : Z) (config : Config) : M JobStatus :=
  doGet config (itemURL config JobStatusResourceType id) JobStatus_zero.

Definition PollingTimeoutMS : N := 3600000.
Definition PollingIntervalMS : N := 5000.

(** [time.Duration(n) * time.Millisecond], in nanoseconds. *)
Definition Millisecond (n : N) : N := (n * 1000000)%N.

Definition TimeoutError : error := errNew "Timed out while waiting for job to complete.".

(** The loop condition of [waitForJob]. *)
Definition is_terminal (desc : string) : bool :=
  String.eqb desc JobSuccess || String.eqb desc JobFailed.

(** One iteration per unit of fuel; [last] is the named result
    [jobStatus] (nil before the first fetch). *)
Fixpoint poll_loop (fuel : nat) (jobID : Z) (config : Config) (startTime : N)
  (jobStatusDescription : string) (last : option JobStatus) : M (option JobStatus) :=
  if negb (is_terminal jobStatusDescription) then
    match fuel with
    | O => out_of_fuel
    | S fuel' =>
        jobStatus <- GetJobStatus jobID config ;;
        Sleep (Millisecond PollingIntervalMS) ;;
        now <- Now ;;
        if (Millisecond PollingTimeoutMS <? now - startTime)%N then raise TimeoutError
        else poll_loop fuel' jobID config startTime (JobState jobStatus) (Some jobStatus)
    end
  else ret last.

(** Every iteration sleeps 5 s and the loop stops once more than an hour
    has passed: 721 iterations are always enough. *)
Definition PollFuel : nat := S (N.to_nat (PollingTimeoutMS / PollingIntervalMS)).

(** [waitForJob(jobID, config)]. *)
Definition waitForJob (jobID : Z) (config : Config) : M (option JobStatus) :=
  startTime <- Now ;;
  poll_loop PollFuel jobID config startTime "" None.

(** [checkForJobErrors(jobStatus)]: a job that is not [Successful] is an
    error naming its type, id and messages; the message dereferences
    [jobStatus], [jobStatus.ErrorDetails] and [*ErrorDetails.Errors]. *)
Definition checkForJobErrors (jobStatus : option JobStatus) : M unit :=
  match jobStatus with
  | None => panic nil_deref
  | Some js =>
      if String.eqb (JobState js) JobSuccess then ret tt
      else
        match js_ErrorDetails js with
        | None => panic nil_deref
        | Some ed =>
            match Errors ed with
            | None => panic nil_deref
            | Some msgs =>
                raise (errNew ("Job " ++ JobType js ++ " (" ++ Itoa (js_ID js)
                               ++ ") failed with message " ++ fmt_messages (map Message msgs)))
            end
        end
  end.

(** [handleAsyncRequest(req, config, httpVerb)]. *)
Definition handleAsyncRequest (req : Request) (config : Config) (httpVerb : string)
  : M (option JobStatus) :=
  r <- client_Do (getHttpClient config) req ;;
  match r with
  | DoErr e unread =>
      body <- read_request_body req unread ;;
      raise (errWithMessage e ("athena.apiClient: Failed to do request " ++ httpVerb ++ " "
                               ++ req_url req ++ " " ++ body))
  | DoResp res =>
      match readResponse res with
      | inr e =>
          body <- read_request_body req "" ;;
          raise (errWithMessage e ("athena.apiClient: Failed to read response body from "
                                   ++ httpVerb ++ " " ++ req_url req ++ " " ++ body))
      | inl b =>
          let '(submitted, err) := Unmarshal b (None : option JobStatus) in
          match err with
          | Some e => raise (errWithMessage e ("athena.apiClient: Failed to unmarshal response "
                                               ++ body_text b))
          | None =>
              match submitted with
              | None => panic nil_deref
              | Some js0 =>
                  jobStatus <- waitForJob (js_ID js0) config ;;
                  checkForJobErrors jobStatus ;;
                  ret jobStatus
              end
          end
      end
  end.

(** [handleAsyncRequestAndFetchManagdObject(req, config, &obj, httpVerb)]:
    the job status and the object fetched from the job's [managedObject]
    link. *)
Definition handleAsyncRequestAndFetchManagdObject {T} `{FromJson T} (req : Request)
  (config : Config) (responseObject : T) (httpVerb : string) : M (option JobStatus * T) :=
  jobStatus <- handleAsyncRequest req config httpVerb ;;
  match jobStatus with
  | None => panic nil_deref
  | Some js =>
      match js_Links js with
      | None => panic nil_deref
      | Some links =>
          let url := urlFromHref config (Href (ManagedObject links)) in
          obj <- doGet config url responseObject ;;
          ret (jobStatus, obj)
      end
  end.

(** ** The job protocol

    The protocol the engine runs, without HTTP, JSON or URLs: a job is
    submitted, then polled; each poll observes a status after some
    latency, and the loop sleeps 5 s after it.  The loop leaves [Polling]
    when the last status is terminal, or with [TimedOut] when a poll ends
    more than an hour after polling started: the timeout test is made
    before the loop condition looks at the new status.  [Aborted] is any
    failure of a request, a read, a decoding, or a panic. *)

Inductive phase :=
| Submitted
| Polling (polls : nat) (elapsed : N) (last : option JobStatus)
| Succeeded (js : JobStatus)
| JobFailedPh (js : JobStatus)
| TimedOut
| Aborted.

Inductive label :=
| LSubmit
| LPoll (js : JobStatus) (latency : N)
| LStop
| LError.

Definition desc_of (last : option JobStatus) : string :=
  match last with None => "" | Some js => JobState js end.

Definition Interval : N := Millisecond PollingIntervalMS.
Definition Timeout : N := Millisecond PollingTimeoutMS.

Inductive step : phase -> label -> phase -> Prop :=
| st_submit : step Submitted LSubmit (Polling 0 0 None)
| st_poll n el last js l :
    is_terminal (desc_of last) = false -> (el + l + Interval <= Timeout)%N ->
    step (Polling n el last) (LPoll js l) (Polling (S n) (el + l + Interval) (Some js))
| st_timeout n el last js l :
    is_terminal (desc_of last) = false -> (Timeout < el + l + Interval)%N ->
    step (Polling n el last) (LPoll js l) TimedOut
| st_success n el js :
    JobState js = JobSuccess -> step (Polling n el (Some js)) LStop (Succeeded js)
| st_failed n el js :
    JobState js = JobFailed -> step (Polling n el (Some js)) LStop (JobFailedPh js)
| st_abort_submit : step Submitted LError Aborted
| st_abort_poll n el last :
    is_terminal (desc_of last) = false -> step (Polling n el last) LError Aborted.

Inductive steps : phase -> list label -> phase -> Prop :=
| steps_nil p : steps p [] p
| steps_cons p l p' ls p'' : step p l p' -> steps p' ls p'' -> steps p (l :: ls) p''.

#[export] Hint Constructors step steps : grows.

(** The outcome of [checkForJobErrors] on a terminal job that is not
    [Successful]. *)
Definition job_failure (js : JobStatus) : res error (option JobStatus) :=
  match js_ErrorDetails js with
  | None => Panic nil_deref
  | Some ed =>
      match Errors ed with
      | None => Panic nil_deref
      | Some msgs =>
          Err (errNew ("Job " ++ JobType js ++ " (" ++ Itoa (js_ID js)
                       ++ ") failed with message " ++ fmt_messages (map Message msgs)))
      end
  end.

(** When a result of the code is the one a protocol phase stands for. *)
Inductive agrees : res error (option JobStatus) -> phase -> Prop :=
| ag_succeeded js : agrees (Ok (Some js)) (Succeeded js)
| ag_failed js : agrees (job_failure js) (JobFailedPh js)
| ag_timed_out : agrees (Err TimeoutError) TimedOut
| ag_aborted_err e : e <> TimeoutError -> agrees (Err e) Aborted
| ag_aborted_panic p : agrees (Panic p) Aborted.

(** What the poll loop leaves: the phase it stopped in. *)
Inductive loop_agrees : res error (option JobStatus) -> phase -> Prop :=
| la_stopped n el last :
    is_terminal (desc_of last) = true -> loop_agrees (Ok last) (Polling n el last)
| la_timed_out : loop_agrees (Err TimeoutError) TimedOut
| la_aborted e : e <> TimeoutError -> loop_agrees (Err e) Aborted.

(** ** What a run shows on the wire

    The labels of a run are read off the exchanges it added to the trace,
    oldest first, each with the reply and latency the server gave it.  The
    first exchange is the submission: [LSubmit] when its response decodes
    to a job, [LError] otherwise.  Every later exchange is a status poll:
    [LPoll js lat] when it yields the status [js] after [lat] ns,
    [LError] otherwise.  Sleeps carry no label. *)

Definition submit_label (rep : reply) : label :=
  match rep with
  | RTransportError _ _ => LError
  | RResponse st b re =>
      match readResponse (mkResponse st b re) with
      | inr _ => LError
      | inl b' =>
          match Unmarshal b' (None : option JobStatus) with
          | (Some _, None) => LSubmit
          | _ => LError
          end
      end
  end.

Definition poll_label (rep : reply) (lat : N) : label :=
  match get_outcome rep JobStatus_zero with Some js => LPoll js lat | None => LError end.

(** The labels of the polls among the events [evs] (oldest first) that
    followed the trace [tr]. *)
Fixpoint poll_labels (srv : Server) (tr evs : list event) : list label :=
  match evs with
  | [] => []
  | EvRequest t c q :: evs' =>
      poll_label (fst (srv tr c q)) (snd (srv tr c q)) :: poll_labels srv (EvRequest t c q :: tr) evs'
  | e :: evs' => poll_labels srv (e :: tr) evs'
  end.

Definition run_labels (srv : Server) (tr evs : list event) : list label :=
  match evs with
  | EvRequest t c q :: evs' => submit_label (fst (srv tr c q)) :: poll_labels srv (EvRequest t c q :: tr) evs'
  | _ => []
  end.

(** The one failure that leaves no exchange behind: a status URL that
    [url.Parse] rejects. *)
Definition hidden_abort (config : Config) : Prop :=
  exists id, url_parse_error (itemURL config JobStatusResourceType id) <> None.

(** ** What the poll loop sends *)

(** The request of a status poll. *)
Definition job_request (config : Config) (jobID : Z) : Request :=
  get_request config (itemURL config JobStatusResourceType jobID).

(** The events a run of the loop adds: only status polls, at least 5 s
    apart, none before the loop started, at most one per unit of fuel. *)
Definition poll_segment (jobID : Z) (config : Config) (w : World) (new : list event) (f : nat) : Prop :=
  Forall (fun q => q = job_request config jobID) (requests new) /\
  spaced Interval (request_times new) /\
  Forall (fun t => (clock w <= t)%N) (request_times new) /\
  (length (request_times new) <= f)%nat.

(** ** Concrete runs *)

Definition demo_config : Config := NewConfig "https" "onefuse.example" "443" "admin" "secret" true.

Definition job_json (jobID : Z) (state : string) : json :=
  JObject [("id", JNumber jobID); ("jobState", JString state);
           ("jobType", JString "Create IPAM Reservation");
           ("_links", JObject [("managedObject",
                                JObject [("href", JString "/api/v3/onefuse/ipamReservations/9/")])])].

(** A server for job [jobID]: the [k]-th poll sees [states !! k]
    ("Pending" past the end), every exchange takes [lat] ns, a mutating
    request is accepted as job [jobID], any other GET returns [obj]. *)
Definition script_server (config : Config) (jobID : Z) (states : list string) (lat : N)
  (obj : json) : Server :=
  fun tr _ r =>
    let url := req_url r in
    if String.eqb url (itemURL config JobStatusResourceType jobID) then
      (json_reply 200 (job_json jobID (default "Pending" (states !! count_url url tr))), lat)
    else if String.eqb (req_method r) "GET" then (json_reply 200 obj, lat)
    else (json_reply 202 (JObject [("id", JNumber jobID)]), lat).

Definition demo_world (states : list string) (lat : N) : World :=
  {| clock := 0; trace := [];
     server := script_server demo_config 7 states lat (JObject [("id", JNumber 9)]) |}.

(** The request of a POST submission in the concrete runs. *)
Definition demo_post : Request :=
  setHeaders demo_config (bare_request "POST" (collectionURL demo_config IPAMReservationResourceType)
                            (Some (JObject [("hostname", JString "web01")]))).

(** The run of a submission whose job is polled three times. *)
Definition demo_run : res error (option JobStatus) * World :=
  Eval vm_compute in
    handleAsyncRequest demo_post demo_config "POST"
      (demo_world ["Pending"; "Pending"; "Successful"] 1000000).

Definition demo_wait : res error (option JobStatus) * World :=
  Eval vm_compute in waitForJob 7 demo_config (demo_world ["Pending"; "Successful"] 1000000).

(** A first poll that sees [Successful] after 3 596 s. *)
Definition demo_late_world : World := demo_world ["Successful"] 3596000000000.
Definition demo_late_poll : res error JobStatus * World :=
  Eval vm_compute in GetJobStatus 7 demo_config demo_late_world.
Definition demo_late_status : JobStatus :=
  Eval vm_compute in match fst demo_late_poll with Ok js => js | _ => JobStatus_zero end.

(** ** The poll loop terminates *)

Lemma Grows_GetJobStatus (jobID : Z) (config : Config) : Grows (GetJobStatus jobID config).
Proof. unfold GetJobStatus. auto with grows. Qed.

Lemma Total_GetJobStatus (jobID : Z) (config : Config) : Total (GetJobStatus jobID config).
Proof. unfold GetJobStatus. auto with grows. Qed.

Lemma Safe_GetJobStatus (jobID : Z) (config : Config) : Safe (GetJobStatus jobID config).
Proof. unfold GetJobStatus. auto with grows. Qed.

#[export] Hint Resolve Grows_GetJobStatus Total_GetJobStatus Safe_GetJobStatus : grows.

Lemma PollFuel_val : PollFuel = 721%nat.
Proof. reflexivity. Qed.

(** The interval and the timeout in nanoseconds. *)
Lemma poll_constants :
  Millisecond PollingIntervalMS = 5000000000%N /\ Millisecond PollingTimeoutMS = 3600000000000%N.
Proof. split; reflexivity. Qed.

Section PollLoop.
Context (jobID : Z) (config : Config).

(** One iteration that fetched [js] from [w] and ended in [w1]. *)
Lemma poll_loop_step (f : nat) start desc last w js w1 :
  is_terminal desc = false ->
  GetJobStatus jobID config w = (Ok js, w1) ->
  poll_loop (S f) jobID config start desc last w =
    let w2 := {| clock := (clock w1 + Millisecond PollingIntervalMS)%N;
                 trace := EvSleep (clock w1) (Millisecond PollingIntervalMS) :: trace w1;
                 server := server w1 |} in
    if (Millisecond PollingTimeoutMS <? clock w2 - start)%N then (Err TimeoutError, w2)
    else poll_loop f jobID config start (JobState js) (Some js) w2.
Proof. intros Ht E. cbn [poll_loop]. rewrite Ht. cbn [negb]. unfold bind at 1. rewrite E. cbn. by case_match. Qed.

(** An iteration whose fetch fails ends the loop with that failure. *)
Lemma poll_loop_err (f : nat) start desc last w e w1 :
  is_terminal desc = false ->
  GetJobStatus jobID config w = (Err e, w1) ->
  poll_loop (S f) jobID config start desc last w = (Err e, w1).
Proof. intros Ht E. cbn [poll_loop]. rewrite Ht. cbn [negb]. unfold bind at 1. by rewrite E. Qed.

Lemma poll_loop_panic (f : nat) start desc last w p w1 :
  is_terminal desc = false ->
  GetJobStatus jobID config w = (Panic p, w1) ->
  poll_loop (S f) jobID config start desc last w = (Panic p, w1).
Proof. intros Ht E. cbn [poll_loop]. rewrite Ht. cbn [negb]. unfold bind at 1. by rewrite E. Qed.

Lemma poll_loop_terminal (f : nat) start desc last w :
  is_terminal desc = true -> poll_loop f jobID config start desc last w = (Ok last, w).
Proof. intros Ht. destruct f; cbn [poll_loop]; by rewrite Ht. Qed.

(** Enough fuel is left when the time already spent plus 5 s per unit of
    fuel passes the timeout. *)
Lemma poll_loop_total (f : nat) start desc last w :
  (start <= clock w)%N ->
  (clock w - start <= Millisecond PollingTimeoutMS)%N ->
  (Millisecond PollingTimeoutMS < clock w - start + Millisecond PollingIntervalMS * N.of_nat f)%N ->
  fst (poll_loop f jobID config start desc last w) <> OutOfFuel.
Proof.
  destruct poll_constants as [Hi Ht]. rewrite Hi, Ht.
  revert desc last w. induction f as [|f IH]; intros desc last w H1 H2 H3.
  - cbn [poll_loop]. destruct (is_terminal desc); cbn; [done | lia].
  - destruct (is_terminal desc) eqn:Hd; [by rewrite poll_loop_terminal |].
    destruct (GetJobStatus jobID config w) as [[js|e|p|] w1] eqn:E.
    + rewrite (poll_loop_step _ _ _ _ _ _ _ Hd E). cbv zeta.
      pose proof (Grows_run _ _ _ _ (Grows_GetJobStatus jobID config) E) as [Hc _].
      rewrite Hi, Ht. cbn [clock].
      destruct (N.ltb_spec 3600000000000 (clock w1 + 5000000000 - start)); [done |].
      apply IH; cbn [clock]; lia.
    + by rewrite (poll_loop_err _ _ _ _ _ _ _ Hd E).
    + by rewrite (poll_loop_panic _ _ _ _ _ _ _ Hd E).
    + exfalso. apply (Total_GetJobStatus jobID config w). by rewrite E.
Qed.

End PollLoop.

Lemma waitForJob_run (jobID : Z) (config : Config) (w : World) :
  waitForJob jobID config w = poll_loop PollFuel jobID config (clock w) "" None w.
Proof. reflexivity. Qed.

(** C1. [waitForJob] always ends: whatever the server answers and however
    long it takes, the poll loop stops (on a terminal state, an error or
    the timeout) before its fuel of 721 iterations runs out. *)
Theorem waitForJob_never_out_of_fuel (jobID : Z) (config : Config) (w : World) :
  fst (waitForJob jobID config w) <> OutOfFuel.
Proof.
  rewrite waitForJob_run. apply poll_loop_total; rewrite ?N.sub_diag, ?PollFuel_val.
  - lia.
  - lia.
  - destruct poll_constants as [-> ->]. cbn. lia.
Qed.

Lemma wrapped_not_timeout (c : error) (m : string) : errWithMessage c m <> TimeoutError.
Proof. discriminate. Qed.
#[export] Hint Resolve wrapped_not_timeout : grows.

Lemma GetJobStatus_err_wrapped (jobID : Z) (config : Config) w e w' :
  GetJobStatus jobID config w = (Err e, w') -> e <> TimeoutError.
Proof. intros E. destruct (doGet_err_wrapped _ _ _ _ _ _ E) as (c & m & ->). discriminate. Qed.

(** A status poll whose URL parses is one exchange, labelled by the status
    it yields. *)
Lemma GetJobStatus_exchange (jobID : Z) (config : Config) w o w1 :
  GetJobStatus jobID config w = (o, w1) ->
  url_parse_error (itemURL config JobStatusResourceType jobID) = None ->
  exists rep lat,
    server w (trace w) (getHttpClient config) (job_request config jobID) = (rep, lat) /\
    w1 = logged w (getHttpClient config) (job_request config jobID) lat /\
    poll_label rep lat = match o with Ok js => LPoll js lat | _ => LError end.
Proof.
  unfold GetJobStatus. intros G Hu. pose proof (doGet_exchange _ _ _ _ _ _ G Hu) as X.
  unfold job_request. destruct (server w _ _ _) as [rep lat]. destruct X as [-> Ho].
  exists rep, lat. split_and!; [done | done |]. unfold poll_label.
  destruct (get_outcome rep JobStatus_zero); [by subst | by destruct Ho as [e ->]].
Qed.

(** A status URL that does not parse fails the poll without an exchange. *)
Lemma GetJobStatus_bad_url (jobID : Z) (config : Config) w m :
  url_parse_error (itemURL config JobStatusResourceType jobID) = Some m ->
  exists e, GetJobStatus jobID config w = (Err e, w).
Proof. unfold GetJobStatus, doGet, NewRequest. intros ->. by eexists. Qed.

Lemma poll_labels_iteration (srv : Server) tr t c q t' d evs :
  poll_labels srv tr ((EvRequest t c q :: EvSleep t' d :: evs)%list) =
  poll_label (fst (srv tr c q)) (snd (srv tr c q))
    :: poll_labels srv (EvSleep t' d :: EvRequest t c q :: tr) evs.
Proof. reflexivity. Qed.

(** The poll loop simulates the protocol on the polls it sent: from the
    [Polling] phase of the time spent so far, the labels of the exchanges
    the loop added lead to the phase the loop's result stands for.  Only a
    status URL that does not parse adds an [LError] no exchange shows. *)
Lemma poll_loop_refines (jobID : Z) (config : Config) (f : nat) start last n w r w' :
  (start <= clock w)%N ->
  poll_loop f jobID config start (desc_of last) last w = (r, w') ->
  r <> OutOfFuel ->
  exists new p tail, trace w' = (new ++ trace w)%list /\ server w' = server w /\
    steps (Polling n (clock w - start) last) (poll_labels (server w) (trace w) (rev new) ++ tail) p /\
    loop_agrees r p /\
    (tail = [] \/ tail = [LError] /\ p = Aborted /\
                  url_parse_error (itemURL config JobStatusResourceType jobID) <> None).
Proof.
  revert last n w. induction f as [|f IH]; intros last n w Hs E Hr.
  - cbn [poll_loop] in E. destruct (is_terminal (desc_of last)) eqn:Hd;
      unfold ret, out_of_fuel in E; cbn in E; simplify_eq; try done.
    exists [], (Polling n (clock w' - start) last), [].
    split_and!; [done | done | constructor | by constructor | by left].
  - destruct (is_terminal (desc_of last)) eqn:Hd.
    { rewrite poll_loop_terminal in E by exact Hd. simplify_eq.
      exists [], (Polling n (clock w' - start) last), [].
    split_and!; [done | done | constructor | by constructor | by left]. }
    destruct (url_parse_error (itemURL config JobStatusResourceType jobID)) as [m|] eqn:Hu.
    { destruct (GetJobStatus_bad_url jobID config w m Hu) as [e G].
      rewrite (poll_loop_err _ _ _ _ _ _ _ _ _ Hd G) in E. simplify_eq.
      exists [], Aborted, [LError]. split_and!; [done | done | | | right; split_and!; congruence].
      + cbn. eauto with grows.
      + constructor. by eapply GetJobStatus_err_wrapped. }
    destruct (GetJobStatus jobID config w) as [o w1] eqn:G.
    destruct (GetJobStatus_exchange _ _ _ _ _ G Hu) as (rep & lat & Hsrv & -> & Hl).
    destruct o as [js|e|p|].
    + rewrite (poll_loop_step _ _ _ _ _ _ _ _ _ Hd G) in E. cbv zeta in E.
      unfold Interval, Timeout in *. cbn [clock trace server logged] in E |- *.
      destruct (N.ltb_spec (Millisecond PollingTimeoutMS)
                  (clock w + lat + Millisecond PollingIntervalMS - start)) as [Ht | Ht].
      * simplify_eq. exists [EvSleep (clock w + lat) (Millisecond PollingIntervalMS);
                   EvRequest (clock w) (getHttpClient config) (job_request config jobID)], TimedOut, [].
        split_and!; [done | done | | constructor | by left].
        cbn [rev app]. rewrite poll_labels_iteration, Hsrv. cbn [fst snd]. rewrite Hl.
        econstructor; [apply st_timeout; [done | unfold Interval, Timeout; lia] | constructor].
      * change (JobState js) with (desc_of (Some js)) in E.
        apply IH with (n := S n) in E as (new & p & tail & Htr & Hsv & Hsteps & Hag & Htl);
          [| cbn; lia | done].
        cbn [clock trace server] in Htr, Hsv, Hsteps.
        exists (new ++ [EvSleep (clock w + lat) (Millisecond PollingIntervalMS);
                   EvRequest (clock w) (getHttpClient config) (job_request config jobID)])%list, p, tail.
        split_and!; [by rewrite Htr, <- app_assoc | done | | done | done].
        rewrite rev_app_distr. cbn [rev app]. rewrite poll_labels_iteration, Hsrv. cbn [fst snd].
        rewrite Hl. econstructor; [apply st_poll; [done | unfold Interval, Timeout; lia] |].
        unfold Interval. replace (clock w - start + lat + Millisecond PollingIntervalMS)%N
          with (clock w + lat + Millisecond PollingIntervalMS - start)%N by lia.
        exact Hsteps.
    + rewrite (poll_loop_err _ _ _ _ _ _ _ _ _ Hd G) in E. simplify_eq.
      eexists [_], Aborted, []. split_and!; [done | done | | | by left].
      * cbn. rewrite Hsrv. cbn [fst snd]. rewrite Hl. eauto with grows.
      * constructor. by eapply GetJobStatus_err_wrapped.
    + exfalso. pose proof (Safe_GetJobStatus jobID config w) as S. by rewrite G in S.
    + exfalso. apply (Total_GetJobStatus jobID config w). by rewrite G.
Qed.

Lemma steps_app p ls p' ls' p'' : steps p ls p' -> steps p' ls' p'' -> steps p (ls ++ ls') p''.
Proof. induction 1; cbn; eauto with grows. Qed.

Lemma checkForJobErrors_failed (js : JobStatus) (w : World) :
  JobState js <> JobSuccess ->
  (checkForJobErrors (Some js) ;; ret (Some js)) w = (job_failure js, w).
Proof.
  intros Hs. unfold checkForJobErrors, job_failure.
  destruct (String.eqb_spec (JobState js) JobSuccess); [done |].
  by repeat case_match.
Qed.

Lemma read_request_body_outcome (req : Request) (u : string) (w : World) :
  exists o, read_request_body req u w = (o, w) /\
            match o with Ok _ => True | Panic _ => True | _ => False end.
Proof. unfold read_request_body. destruct (req_body req); eexists; by split. Qed.

(** A failure before polling starts: the request body read for the message
    (or the panic of reading a nil body), then the wrapped error; the
    world is left as it was. *)
Lemma abort_before_poll (req : Request) (u : string) (k : string -> error) w r w' :
  (forall b, k b <> TimeoutError) ->
  bind (read_request_body req u) (fun body => raise (k body)) w = (r, w') ->
  agrees r Aborted /\ w' = w.
Proof.
  intros Hk. unfold bind. destruct (read_request_body_outcome req u w) as ([b| | |] & -> & H);
    try done; intros E; unfold raise in E; simplify_eq; split; by try constructor.
Qed.

(** A submission that fails is the one exchange, labelled [LError]. *)
Lemma submission_aborted (srv : Server) tr t c q :
  submit_label (fst (srv tr c q)) = LError ->
  steps Submitted (run_labels srv tr (rev [EvRequest t c q]) ++ []) Aborted.
Proof. cbn. intros ->. eauto with grows. Qed.

(** A loop that stopped on a terminal status ends the run with the
    outcome of [checkForJobErrors], the protocol's exit [LStop]. *)
Lemma stopped_agrees ls n el js w r w' :
  steps Submitted ls (Polling n el (Some js)) -> is_terminal (JobState js) = true ->
  (checkForJobErrors (Some js) ;; ret (Some js)) w = (r, w') ->
  w' = w /\ exists p, steps Submitted (ls ++ [LStop]) p /\ agrees r p.
Proof.
  intros Hsub Ht E. destruct (String.eqb_spec (JobState js) JobSuccess) as [Hs | Hs].
  - unfold checkForJobErrors, bind in E. rewrite Hs in E. cbn in E. unfold ret in E.
    simplify_eq. split; [done |]. exists (Succeeded js).
    split; [eapply steps_app; [exact Hsub | eauto with grows] | constructor].
  - rewrite checkForJobErrors_failed in E by exact Hs. simplify_eq. split; [done |].
    exists (JobFailedPh js). split; [eapply steps_app; [exact Hsub |] | constructor].
    unfold is_terminal in Ht. destruct (String.eqb_spec (JobState js) JobSuccess); [done |].
    destruct (String.eqb_spec (JobState js) JobFailed); [| done]. eauto with grows.
Qed.

Lemma loop_tail_ok (config : Config) (id : Z) tail (p : phase) :
  (tail = [] \/ tail = [LError] /\ p = Aborted /\
                url_parse_error (itemURL config JobStatusResourceType id) <> None) ->
  tail = [] \/ tail = [LStop] \/ tail = [LError] /\ hidden_abort config.
Proof. intros [-> | (-> & _ & H)]; [by left | right; right; split; [done | by exists id]]. Qed.

(** C2. Refinement: every run of [handleAsyncRequest] follows the job
    protocol on the exchanges it made.  Reading the run's exchanges off
    the trace (the submission, then each status poll with the status it
    returned and its latency) gives a path of protocol steps from
    [Submitted], possibly followed by the loop's exit [LStop] or, when a
    status URL does not parse, an [LError] no exchange shows; the result
    is the one of the phase reached: the job's final status when it
    succeeded, the failure of a job that ended [Failed], the timeout
    error (only when the polls and their 5 s sleeps really took more
    than an hour), or the failure of a request. *)
Theorem handleAsyncRequest_refines (req : Request) (config : Config) (httpVerb : string) w r w' :
  handleAsyncRequest req config httpVerb w = (r, w') ->
  exists new p tail, trace w' = (new ++ trace w)%list /\
    steps Submitted (run_labels (server w) (trace w) (rev new) ++ tail) p /\ agrees r p /\
    (tail = [] \/ tail = [LStop] \/ tail = [LError] /\ hidden_abort config).
Proof.
  unfold handleAsyncRequest, bind at 1. set (c := getHttpClient config).
  destruct (server w (trace w) c req) as [[m u|st b re] lat] eqn:Hsrv.
  { rewrite (client_Do_transport_error _ _ _ _ _ _ Hsrv). cbv beta iota. intros E.
    apply abort_before_poll in E as [Hag ->]; [| auto with grows].
    exists [EvRequest (clock w) c req], Aborted, []. split_and!; [done | | done | by left].
    apply submission_aborted. by rewrite Hsrv. }
  rewrite (client_Do_resp _ _ _ _ _ _ _ Hsrv). cbv beta iota.
  destruct (readResponse (mkResponse st b re)) as [b'|e] eqn:Hr.
  2: { intros E. apply abort_before_poll in E as [Hag ->]; [| auto with grows].
       exists [EvRequest (clock w) c req], Aborted, []. split_and!; [done | | done | by left].
       apply submission_aborted. rewrite Hsrv. cbn [fst submit_label]. by rewrite Hr. }
  destruct (Unmarshal b' None) as [[js0|] [e|]] eqn:Hu; cbv beta iota.
  1,3,4: intros E; unfold raise, panic in E; simplify_eq;
       exists [EvRequest (clock w) c req], Aborted, []; split_and!; [done | | | by left];
       [apply submission_aborted; rewrite Hsrv; cbn [fst submit_label]; by rewrite Hr, Hu
       | first [apply ag_aborted_err, wrapped_not_timeout | apply ag_aborted_panic] ..].
  unfold bind at 1. destruct (waitForJob (js_ID js0) config (logged w c req lat)) as [r1 w2] eqn:Hw.
  pose proof (waitForJob_never_out_of_fuel (js_ID js0) config (logged w c req lat)) as Hf.
  rewrite Hw in Hf. rewrite waitForJob_run in Hw. change "" with (desc_of None) in Hw.
  apply (poll_loop_refines _ _ _ _ _ 0) in Hw as (new & p & tail & Htr & Hsv & Hsteps & Hag & Htl);
    [| lia | done].
  rewrite N.sub_diag in Hsteps. cbn [trace server logged] in Htr, Hsv, Hsteps.
  assert (Hlab : run_labels (server w) (trace w) (rev (new ++ [EvRequest (clock w) c req]))
                 = LSubmit :: poll_labels (server w) (EvRequest (clock w) c req :: trace w) (rev new)).
  { rewrite rev_app_distr. cbn [rev app run_labels]. rewrite Hsrv. cbn [fst submit_label].
    by rewrite Hr, Hu. }
  assert (Hsub : steps Submitted (LSubmit :: poll_labels (server w) (EvRequest (clock w) c req :: trace w)
                                    (rev new) ++ tail) p) by eauto with grows.
  assert (Htr' : trace w2 = ((new ++ [EvRequest (clock w) c req]) ++ trace w)%list)
    by by rewrite Htr, <- app_assoc.
  intros E. inversion Hag as [n el last Ht | | e He]; subst.
  - destruct Htl as [-> | (_ & [=] & _)]. rewrite app_nil_r in Hsub.
    destruct last as [js|]; [| done].
    destruct (stopped_agrees _ _ _ _ _ _ _ Hsub Ht E) as [-> (p & Hp & Hag')].
    exists (new ++ [EvRequest (clock w) c req])%list, p, [LStop].
    split_and!; [done | by rewrite Hlab | done | auto].
  - simplify_eq. exists (new ++ [EvRequest (clock w) c req])%list, TimedOut, tail.
    split_and!; [done | by rewrite Hlab | constructor | by eapply loop_tail_ok].
  - simplify_eq. exists (new ++ [EvRequest (clock w) c req])%list, Aborted, tail.
    split_and!; [done | by rewrite Hlab | by constructor | by eapply loop_tail_ok].
Qed.

Section PollTrace.
Context (jobID : Z) (config : Config).

Lemma poll_segment_nil w f : poll_segment jobID config w [] f.
Proof. repeat split; cbn; auto with lia. constructor. Qed.

Lemma poll_segment_mono w new f f' :
  poll_segment jobID config w new f -> (f <= f')%nat -> poll_segment jobID config w new f'.
Proof. intros (? & ? & ? & ?) ?. repeat split; auto; lia. Qed.

Lemma poll_loop_trace (f : nat) start desc last w r w' :
  poll_loop f jobID config start desc last w = (r, w') ->
  exists new, trace w' = (new ++ trace w)%list /\ poll_segment jobID config w new f.
Proof.
  revert desc last w. induction f as [|f IH]; intros desc last w E.
  - cbn [poll_loop] in E. destruct (is_terminal desc); unfold ret, out_of_fuel in E; cbn in E;
      simplify_eq; exists []; split; [done | apply poll_segment_nil | done | apply poll_segment_nil].
  - destruct (is_terminal desc) eqn:Hd.
    { rewrite poll_loop_terminal in E by done. simplify_eq. exists [].
      split; [done | apply poll_segment_nil]. }
    destruct (GetJobStatus jobID config w) as [o w1] eqn:G.
    (* the fetch adds at most the poll request *)
    assert (Hreq : exists pre, trace w1 = (pre ++ trace w)%list /\ (clock w <= clock w1)%N /\
                   poll_segment jobID config w pre 1 /\
                   Forall (fun t => t = clock w) (request_times pre)).
    { unfold GetJobStatus in G. destruct (doGet_trace _ _ _ _ _ _ G) as [[_ ->] | (_ & Hc & _ & Ht)].
      - exists []. repeat split; cbn; auto with lia; constructor.
      - exists [EvRequest (clock w) (getHttpClient config) (job_request config jobID)].
        repeat split; cbn; auto with lia; repeat constructor. }
    destruct Hreq as (pre & Hpre & Hc & Hseg1 & Ht0).
    pose proof Hseg1 as (Hq & _ & _ & Hl).
    destruct o as [js|e|p|].
    + rewrite (poll_loop_step _ _ _ _ _ _ _ _ _ Hd G) in E. cbv zeta in E.
      set (w2 := {| clock := (clock w1 + Millisecond PollingIntervalMS)%N;
                    trace := EvSleep (clock w1) (Millisecond PollingIntervalMS) :: trace w1;
                    server := server w1 |}) in E.
      assert (Hmid : forall rest, poll_segment jobID config w2 rest f ->
                poll_segment jobID config w (rest ++ EvSleep (clock w1) (Millisecond PollingIntervalMS) :: pre)%list (S f)).
      { intros rest (Rq & Rs & Rt & Rl). unfold poll_segment.
        rewrite requests_app, request_times_app. cbn [requests request_times].
        split_and!.
        - by apply Forall_app.
        - destruct (request_times pre) as [|t0 [|t1 ts]] eqn:Hp; cbn in Hl.
          + by rewrite app_nil_r.
          + inversion Ht0; subst. apply spaced_snoc; [done |].
            eapply Forall_impl; [exact Rt |]. cbn. unfold Interval. lia.
          + lia.
        - apply Forall_app. split; [eapply Forall_impl; [exact Rt | cbn; lia] |].
          eapply Forall_impl; [exact Ht0 | cbn; lia].
        - rewrite length_app. lia. }
      case_match; simplify_eq.
      * exists (EvSleep (clock w1) (Millisecond PollingIntervalMS) :: pre). split.
        { cbn. by rewrite Hpre. }
        apply (Hmid []), poll_segment_nil.
      * apply IH in E as (rest & Hrest & Hseg).
        exists (rest ++ EvSleep (clock w1) (Millisecond PollingIntervalMS) :: pre)%list. split.
        { rewrite Hrest. cbn. by rewrite Hpre, <- app_assoc. }
        by apply Hmid.
    + rewrite (poll_loop_err _ _ _ _ _ _ _ _ _ Hd G) in E. simplify_eq.
      exists pre. split; [done |]. eapply poll_segment_mono; [exact Hseg1 | lia].
    + rewrite (poll_loop_panic _ _ _ _ _ _ _ _ _ Hd G) in E. simplify_eq.
      exists pre. split; [done |]. eapply poll_segment_mono; [exact Hseg1 | lia].
    + exfalso. apply (Total_GetJobStatus jobID config w). by rewrite G.
Qed.
End PollTrace.

Lemma Grows_poll_loop (jobID : Z) (config : Config) (f : nat) start desc last :
  Grows (poll_loop f jobID config start desc last).
Proof. revert desc last. induction f; intros desc last; cbn [poll_loop]; grows_tac. Qed.
#[export] Hint Resolve Grows_poll_loop : grows.

(** The first iteration polls at once, when the status URL parses. *)
Lemma poll_loop_first_request (jobID : Z) (config : Config) (f : nat) start desc last w r w' :
  url_parse_error (itemURL config JobStatusResourceType jobID) = None ->
  is_terminal desc = false ->
  poll_loop (S f) jobID config start desc last w = (r, w') ->
  exists new, trace w' = (new ++ EvRequest (clock w) (getHttpClient config)
                                   (job_request config jobID) :: trace w)%list.
Proof.
  intros Hu Hd. cbn [poll_loop]. rewrite Hd. cbn [negb]. unfold bind at 1.
  destruct (GetJobStatus jobID config w) as [o w1] eqn:G.
  unfold GetJobStatus in G.
  destruct (doGet_trace _ _ _ _ _ _ G) as [[Hu' _] | (_ & _ & _ & Ht)]; [done |].
  intros E. assert (Hev : evolves w1 w').
  { destruct o; simplify_eq; try apply evolves_refl.
    eapply Grows_run; [| exact E]. grows_tac. }
  destruct Hev as (_ & _ & new & Hnew). exists new. by rewrite Hnew, Ht.
Qed.

(** C3. What [waitForJob] puts on the wire: only GETs of
    [jobStatus/{id}/] with the provider's headers, at least 5 s apart, at
    most 721 of them, and, when the status URL parses, a first one at the
    moment the loop starts, so the status is polled at least once even
    when the job was already finished at submission. *)
Theorem waitForJob_polls (jobID : Z) (config : Config) (w : World) r w' :
  waitForJob jobID config w = (r, w') ->
  exists new, trace w' = (new ++ trace w)%list /\
    Forall (fun q => q = job_request config jobID) (requests new) /\
    spaced Interval (request_times new) /\
    (length (request_times new) <= 721)%nat /\
    (url_parse_error (itemURL config JobStatusResourceType jobID) = None ->
     exists ts, request_times new = (ts ++ [clock w])%list).
Proof.
  intros E. rewrite waitForJob_run in E.
  pose proof E as E'.
  apply poll_loop_trace in E as (new & Hnew & Hq & Hs & _ & Hl).
  exists new. split_and!; [done | done | done | by rewrite <- PollFuel_val |].
  intros Hu. rewrite PollFuel_val in E'.
  apply poll_loop_first_request in E' as (pre & Hpre); [| done | done].
  rewrite Hnew in Hpre.
  replace (EvRequest (clock w) (getHttpClient config) (job_request config jobID) :: trace w)
    with ([EvRequest (clock w) (getHttpClient config) (job_request config jobID)] ++ trace w)%list
    in Hpre by done.
  rewrite app_assoc in Hpre. apply app_inv_tail in Hpre. subst new.
  rewrite request_times_app. cbn. by eexists.
Qed.

(** ** The timeout test wins over a finished job *)

(** C4. The loop tests the timeout after the sleep that follows a poll,
    before the loop condition looks at the status just fetched: when the
    first poll already sees [Successful] but returns more than 3 595 s
    after the loop started, [waitForJob] fails with the timeout error
    instead of returning the finished job. *)
Theorem waitForJob_timeout_overrides_success (jobID : Z) (config : Config) (w : World) js w1 :
  GetJobStatus jobID config w = (Ok js, w1) ->
  JobState js = JobSuccess ->
  (Timeout < clock w1 - clock w + Interval)%N ->
  fst (waitForJob jobID config w) = Err TimeoutError.
Proof.
  intros G Hs Ht. rewrite waitForJob_run, PollFuel_val.
  rewrite (poll_loop_step _ _ _ _ "" _ _ _ _ (eq_refl false) G). cbv zeta. cbn [clock].
  pose proof (Grows_run _ _ _ _ (Grows_GetJobStatus jobID config) G) as [Hc _].
  unfold Interval, Timeout in Ht.
  destruct (N.ltb_spec (Millisecond PollingTimeoutMS)
              (clock w1 + Millisecond PollingIntervalMS - clock w)); [done | lia].
Qed.

(** ** Witnesses *)

Lemma handleAsyncRequest_refines_witness :
  handleAsyncRequest demo_post demo_config "POST"
    (demo_world ["Pending"; "Pending"; "Successful"] 1000000) = (fst demo_run, snd demo_run) /\
  exists new p tail, trace (snd demo_run)
                       = (new ++ trace (demo_world ["Pending"; "Pending"; "Successful"] 1000000))%list /\
    steps Submitted (run_labels (server (demo_world ["Pending"; "Pending"; "Successful"] 1000000))
                       (trace (demo_world ["Pending"; "Pending"; "Successful"] 1000000)) (rev new) ++ tail) p /\
    agrees (fst demo_run) p /\
    (tail = [] \/ tail = [LStop] \/ tail = [LError] /\ hidden_abort demo_config).
Proof.
  assert (E : handleAsyncRequest demo_post demo_config "POST"
                (demo_world ["Pending"; "Pending"; "Successful"] 1000000) = (fst demo_run, snd demo_run))
    by (vm_compute; reflexivity).
  split; [exact E | exact (handleAsyncRequest_refines _ _ _ _ _ _ E)].
Defined.

Lemma waitForJob_polls_witness :
  waitForJob 7 demo_config (demo_world ["Pending"; "Successful"] 1000000) = (fst demo_wait, snd demo_wait) /\
  exists new, trace (snd demo_wait) = (new ++ trace (demo_world ["Pending"; "Successful"] 1000000))%list /\
    Forall (fun q => q = job_request demo_config 7) (requests new) /\
    spaced Interval (request_times new) /\ (length (request_times new) <= 721)%nat /\
    (url_parse_error (itemURL demo_config JobStatusResourceType 7) = None ->
     exists ts, request_times new = (ts ++ [clock (demo_world ["Pending"; "Successful"] 1000000)])%list).
Proof.
  assert (E : waitForJob 7 demo_config (demo_world ["Pending"; "Successful"] 1000000)
              = (fst demo_wait, snd demo_wait)) by (vm_compute; reflexivity).
  split; [exact E | exact (waitForJob_polls _ _ _ _ _ E)].
Defined.

Lemma waitForJob_timeout_overrides_success_witness :
  GetJobStatus 7 demo_config demo_late_world = (Ok demo_late_status, snd demo_late_poll) /\
  JobState demo_late_status = JobSuccess /\
  (Timeout < clock (snd demo_late_poll) - clock demo_late_world + Interval)%N /\
  fst (waitForJob 7 demo_config demo_late_world) = Err TimeoutError.
Proof.
  assert (G : GetJobStatus 7 demo_config demo_late_world = (Ok demo_late_status, snd demo_late_poll))
    by (vm_compute; reflexivity).
  assert (S : JobState demo_late_status = JobSuccess) by reflexivity.
  assert (T : (Timeout < clock (snd demo_late_poll) - clock demo_late_world + Interval)%N)
    by (vm_compute; reflexivity).
  split_and!; [exact G | exact S | exact T | exact (waitForJob_timeout_overrides_success _ _ _ _ _ G S T)].
Defined.
