(* ===== verification/Domain.v ===== *)
(** The domain operations of [src/api_client.go]: the API client value
    ([NewAthenaApiClient], lines 133-137), the IPAM reservation operations
    (183-258), the IPAM policy lookups (266-283), the default workspace
    resolution ([findWorkspaceURLOrDefault], 405-420;
    [findDefaultWorkspaceID], 474-511), the generic name lookup
    ([findEntityByName], 513-535) and [RenderTemplate] (424-470).

    Go mutates the record passed to [CreateIPAMReservation] through its
    pointer; no caller reads it afterwards, so the model passes it by
    value. *)

From S2P Require Import Prelude GoLib Json Http Transport Entities JobEngine.
From stdpp Require Import gmap.
Open Scope string_scope.

(** ** The client *)

(** [type AthenaAPIClient struct { config *Config }]. *)
Record AthenaAPIClient := mkAthenaAPIClient { api_config : Config }.

(** [(c *Config) NewAthenaApiClient()]. *)
Definition NewAthenaApiClient (c : Config) : AthenaAPIClient := mkAthenaAPIClient c.

Definition NotImplemented : error := errNew "athena.apiClient: Not implemented yet".

Definition PolicyRequired : error :=
  errNew "athena.apiClient: IPAM Record Create requires a PolicyID or Policy URL".

(** ** Lookups *)

Definition DefaultWorkspaceFilter := "filter=name.exact:Default".

(** The URL of the default-workspace lookup. *)
Definition defaultWorkspaceURL (config : Config) : string :=
  collectionURL config WorkspaceResourceType ++ "?" ++ DefaultWorkspaceFilter.

(** [findDefaultWorkspaceID(config)]: the id of the first workspace named
    "Default", as a decimal string.  The decoding error is ignored, and an
    empty list gives [errors.WithMessage(clientErr, ...)] with a nil
    [clientErr], that is no error and an empty id. *)
Definition findDefaultWorkspaceID (config : Config) : M string :=
  let url := defaultWorkspaceURL config in
  match NewRequest "GET" url None with
  | inr clientErr =>
      raise (errWithMessage clientErr ("athena.findDefaultWorkspaceID: Failed to make request GET " ++ url))
  | inl req0 =>
      r <- client_Do (getHttpClient config) (setHeaders config req0) ;;
      match r with
      | DoErr clientErr _ =>
          raise (errWithMessage clientErr ("athena.findDefaultWorkspaceID: Failed to do request GET " ++ url))
      | DoResp res =>
          match readResponse res with
          | inr err => raise err
          | inl body =>
              let data := fst (Unmarshal body WorkspacesListResponse_zero) in
              match Workspaces (wslr_Embedded data) with
              | [] =>
                  match WithMessage None "athena.findDefaultWorkspaceID: Failed to find default workspace!" with
                  | Some err => raise err
                  | None => ret ""
                  end
              | ws :: _ => ret (Itoa (ws_ID ws))
              end
          end
      end
  end.

(** [findWorkspaceURLOrDefault(config, workspaceURL)]. *)
Definition findWorkspaceURLOrDefault (config : Config) (workspaceURL : string) : M string :=
  if String.eqb workspaceURL "" then
    workspaceID <- map_err (fun e => errWithMessage e "athena.apiClient: Failed to find default workspace")
                     (findDefaultWorkspaceID config) ;;
    let '(workspaceIDInt, err) := Atoi workspaceID in
    match err with
    | Some e => raise (errWithMessage e ("athena.apiClient: Failed to convert Workspace ID '"
                                         ++ workspaceID ++ "' to integer"))
    | None => ret (itemURL config WorkspaceResourceType workspaceIDInt)
    end
  else ret workspaceURL.

Definition reflect_len_panic : string := "reflect: call of reflect.Value.Len on zero Value".

(** [findEntityByName(config, name, resourceType, &collection, field,
    filters)]: the first element of [collection.Embedded.<field>]. *)
Definition findEntityByName {R E} `{FromJson R, Embedded R E} (config : Config)
  (name resourceType : string) (collectionResponse : R)
  (embeddedStructFieldName additionalFilters : string) : M E :=
  let url := collectionURL config resourceType ++ "?filter=name:" ++ name ++ additionalFilters in
  resp <- doGet config url collectionResponse ;;
  match embedded_field embeddedStructFieldName resp with
  | None => panic reflect_len_panic
  | Some [] => raise (errNew ("athena.apiClient: Could not find " ++ resourceType ++ " '" ++ name ++ "'!"))
  | Some (entity :: _) => ret entity
  end.

(** ** IPAM reservations *)

(** [CreateIPAMReservation(newIPAMRecord)]. *)
Definition CreateIPAMReservation (apiClient : AthenaAPIClient) (newIPAMRecord : IPAMReservation)
  : M IPAMReservation :=
  let config := api_config apiClient in
  ws <- findWorkspaceURLOrDefault config (WorkspaceURL newIPAMRecord) ;;
  let record := IPAMReservation_set_WorkspaceURL ws newIPAMRecord in
  if String.eqb (r_Policy record) "" then
    if negb (PolicyID record =? 0)%Z then
      let record := IPAMReservation_set_r_Policy
                      (itemURL config WorkspaceResourceType (PolicyID record)) record in
      match buildPostRequest config IPAMReservationResourceType record with
      | inr e => raise e
      | inl req =>
          res <- handleAsyncRequestAndFetchManagdObject req config IPAMReservation_zero "POST" ;;
          ret (snd res)
      end
    else raise PolicyRequired
  else raise PolicyRequired.

(** [GetIPAMReservation(id)]. *)
Definition GetIPAMReservation (apiClient : AthenaAPIClient) (id : Z) : M IPAMReservation :=
  let config := api_config apiClient in
  doGet config (itemURL config IPAMReservationResourceType id) IPAMReservation_zero.

(** [UpdateIPAMReservation(id, updated)]. *)
Definition UpdateIPAMReservation (apiClient : AthenaAPIClient) (id : Z)
  (updatedIPAMReservation : IPAMReservation) : M IPAMReservation :=
  raise NotImplemented.

(** [DeleteIPAMReservation(id)]. *)
Definition DeleteIPAMReservation (apiClient : AthenaAPIClient) (id : Z) : M unit :=
  let config := api_config apiClient in
  let url := itemURL config IPAMReservationResourceType id in
  match NewRequest "DELETE" url None with
  | inr e => raise (errWithMessage e ("athena.apiClient: Failed to create request DELETE " ++ url))
  | inl req0 =>
      _ <- handleAsyncRequest (setHeaders config req0) config "DELETE" ;;
      ret tt
  end.

(** ** IPAM policies *)

(** [GetIPAMPolicy(id)]. *)
Definition GetIPAMPolicy (apiClient : AthenaAPIClient) (id : Z) : M IPAMPolicy :=
  raise NotImplemented.

(** [GetIPAMPolicyByName(name)]. *)
Definition GetIPAMPolicyByName (apiClient : AthenaAPIClient) (name : string) : M IPAMPolicy :=
  findEntityByName (api_config apiClient) name IPAMPolicyResourceType IPAMPolicyResponse_zero
    "IPAMPolicies" "".

(** ** Templates *)

(** [RenderTemplate(template, templateProperties)]: a POST answered at
    once, without a job. *)
Definition RenderTemplate (apiClient : AthenaAPIClient) (template : string)
  (templateProperties : gmap string json) : M RenderTemplateResponse :=
  let config := api_config apiClient in
  let requestBody := mkRenderTemplateRequest template templateProperties in
  match buildPostRequest config RenderTemplateType requestBody with
  | inr e => raise e
  | inl req =>
      r <- client_Do (getHttpClient config) req ;;
      match r with
      | DoErr e unread =>
          body <- read_request_body req unread ;;
          raise (errWithMessage e ("athena.apiClient: Failed to do request POST " ++ req_url req ++ " " ++ body))
      | DoResp res =>
          match checkForErrors res with
          | Some e =>
              body <- read_request_body req "" ;;
              raise (errWithMessage e ("athena.apiClient: Request failed POST " ++ req_url req ++ " " ++ body))
          | None =>
              match ReadAll res with
              | inr e =>
                  body <- read_request_body req "" ;;
                  raise (errWithMessage e ("athena.apiClient: Failed to read response body from POST "
                                           ++ req_url req ++ " " ++ body))
              | inl b =>
                  let '(renderTemplateResponse, err) := Unmarshal b RenderTemplateResponse_zero in
                  match err with
                  | Some e => raise (errWithMessage e ("athena.apiClient: Failed to unmarshal response "
                                                       ++ body_text b))
                  | None => ret renderTemplateResponse
                  end
              end
          end
      end
  end.

(** The DELETE request of [DeleteIPAMReservation]. *)
Definition delete_request (config : Config) (id : Z) : Request :=
  setHeaders config (bare_request "DELETE" (itemURL config IPAMReservationResourceType id) None).

(** ** Concrete runs

    The client of [JobEngine.demo_config]; the server of
    [JobEngine.script_server] for job 7, answering every other GET (the
    default-workspace lookup, the managed object) with a list of
    workspaces named "Default" with the given ids. *)

Definition ws_list_json (ids : list Z) : json :=
  JObject [("_embedded", JObject [("workspaces",
    JArray (map (fun i => JObject [("id", JNumber i); ("name", JString "Default")]) ids))])].

Definition demo_client : AthenaAPIClient := NewAthenaApiClient demo_config.

Definition domain_world (ids : list Z) (states : list string) : World :=
  {| clock := 0; trace := [];
     server := script_server demo_config 7 states 1000000 (ws_list_json ids) |}.

Definition lookup_body (ids : list Z) : body := mkBody (json_text (ws_list_json ids)) (Some (ws_list_json ids)).

(** The first workspace of the lookup answer for id 42, as decoded. *)
Definition demo_ws : Workspace :=
  Eval vm_compute in
    default Workspace_zero
      (head (Workspaces (wslr_Embedded (fst (Unmarshal (lookup_body [42%Z]) WorkspacesListResponse_zero))))).

(** A reservation with a host name and a policy id, no workspace URL. *)
Definition demo_reservation : IPAMReservation :=
  IPAMReservation_set_PolicyID 3%Z (IPAMReservation_set_Hostname "web01" IPAMReservation_zero).

(** A server that refuses everything with 404. *)
Definition refusing_world : World :=
  {| clock := 0; trace := [];
     server := fun _ _ _ => (json_reply 404 (JObject [("message", JString "not found")]), 1000000%N) |}.

Definition demo_create : res error IPAMReservation * World :=
  Eval vm_compute in CreateIPAMReservation demo_client demo_reservation (domain_world [42%Z] ["Successful"]).

Definition demo_delete : res error unit * World :=
  Eval vm_compute in DeleteIPAMReservation demo_client 9%Z (domain_world [] ["Pending"; "Successful"]).

(** ** The default workspace *)

(** The default-workspace lookup against a server that answers it with
    [b]: the id of the first workspace of the decoded list, or "" when
    the list is empty; one request, nothing else. *)
Lemma findDefaultWorkspaceID_run (config : Config) (w : World) st b lat :
  url_parse_error (defaultWorkspaceURL config) = None ->
  server w (trace w) (getHttpClient config) (get_request config (defaultWorkspaceURL config))
    = (RResponse st b None, lat) ->
  (st < 400)%Z ->
  findDefaultWorkspaceID config w =
    (Ok (match Workspaces (wslr_Embedded (fst (Unmarshal b WorkspacesListResponse_zero))) with
         | [] => ""
         | ws :: _ => Itoa (ws_ID ws)
         end),
     logged w (getHttpClient config) (get_request config (defaultWorkspaceURL config)) lat).
Proof.
  intros Hu Hs Hst. unfold findDefaultWorkspaceID, NewRequest. cbv zeta. rewrite Hu.
  unfold get_request in *. unfold bind. rewrite (client_Do_resp _ _ _ _ _ _ _ Hs). cbv beta iota.
  rewrite readResponse_ok by exact Hst. by case_match.
Qed.

Lemma map_err_run {A} (f : error -> error) (m : M A) (w : World) a w' :
  m w = (Ok a, w') -> map_err f m w = (Ok a, w').
Proof. unfold map_err. by intros ->. Qed.

(** C5. The default workspace: with no workspace URL, the reservation's
    workspace is the item URL of the first workspace the server returns
    for [?filter=name.exact:Default], and resolving it costs that one
    request. *)
Theorem findWorkspaceURLOrDefault_default (config : Config) (w : World) st b lat ws rest :
  url_parse_error (defaultWorkspaceURL config) = None ->
  server w (trace w) (getHttpClient config) (get_request config (defaultWorkspaceURL config))
    = (RResponse st b None, lat) ->
  (st < 400)%Z ->
  Workspaces (wslr_Embedded (fst (Unmarshal b WorkspacesListResponse_zero))) = ws :: rest ->
  (int64_min <= ws_ID ws <= int64_max)%Z ->
  findWorkspaceURLOrDefault config "" w =
    (Ok (itemURL config WorkspaceResourceType (ws_ID ws)),
     logged w (getHttpClient config) (get_request config (defaultWorkspaceURL config)) lat).
Proof.
  intros Hu Hs Hst Hws Hid. unfold findWorkspaceURLOrDefault. cbn [String.eqb].
  unfold bind at 1. rewrite (map_err_run _ _ _ _ _ (findDefaultWorkspaceID_run _ _ _ _ _ Hu Hs Hst)).
  rewrite Hws, Atoi_Itoa by exact Hid. reflexivity.
Qed.

(** C6. A missing default workspace is not reported as missing: the
    lookup's empty list becomes an empty id with no error
    ([errors.WithMessage] of a nil error is nil), and the creation fails
    on converting "" to an integer; the lookup is the only request, no
    reservation is submitted. *)
Theorem CreateIPAMReservation_missing_default (apiClient : AthenaAPIClient) (rec : IPAMReservation)
  (w : World) st b lat :
  let config := api_config apiClient in
  WorkspaceURL rec = "" ->
  url_parse_error (defaultWorkspaceURL config) = None ->
  server w (trace w) (getHttpClient config) (get_request config (defaultWorkspaceURL config))
    = (RResponse st b None, lat) ->
  (st < 400)%Z ->
  Workspaces (wslr_Embedded (fst (Unmarshal b WorkspacesListResponse_zero))) = [] ->
  CreateIPAMReservation apiClient rec w =
    (Err (errWithMessage (errNum "Atoi" "" ErrSyntax)
            "athena.apiClient: Failed to convert Workspace ID '' to integer"),
     logged w (getHttpClient config) (get_request config (defaultWorkspaceURL config)) lat).
Proof.
  intros config Hw Hu Hs Hst Hws. unfold CreateIPAMReservation. rewrite Hw.
  unfold bind at 1, findWorkspaceURLOrDefault. cbn [String.eqb].
  unfold bind at 1. rewrite (map_err_run _ _ _ _ _ (findDefaultWorkspaceID_run _ _ _ _ _ Hu Hs Hst)).
  rewrite Hws. reflexivity.
Qed.

(** A given workspace URL is kept without a request. *)
Lemma findWorkspaceURLOrDefault_given (config : Config) (url : string) (w : World) :
  url <> "" -> findWorkspaceURLOrDefault config url w = (Ok url, w).
Proof.
  intros Hu. unfold findWorkspaceURLOrDefault. by destruct (String.eqb_spec url ""). Qed.


(** With no workspace URL, whatever the server answers, the resolution
    sends exactly the default-workspace lookup and ends in a value or an
    error. *)
Lemma findWorkspaceURLOrDefault_empty_run (config : Config) (w : World) r w' :
  url_parse_error (defaultWorkspaceURL config) = None ->
  findWorkspaceURLOrDefault config "" w = (r, w') ->
  trace w' = EvRequest (clock w) (getHttpClient config) (get_request config (defaultWorkspaceURL config))
               :: trace w
  /\ match r with Ok _ | Err _ => True | _ => False end.
Proof.
  intros Hu. unfold findWorkspaceURLOrDefault. cbn [String.eqb].
  unfold bind at 1, map_err, findDefaultWorkspaceID, NewRequest. cbv zeta. rewrite Hu.
  unfold bind. destruct (client_Do _ _ w) as [o w1] eqn:Hd.
  destruct (client_Do_world _ _ _ _ _ Hd) as (Ht & _ & _).
  pose proof (Safe_client_Do (getHttpClient config) (get_request config (defaultWorkspaceURL config)) w)
    as Hs. unfold get_request in Hs. rewrite Hd in Hs.
  destruct o as [[res|e u]| | |]; try done; repeat case_match; unfold raise, ret in *;
    intros E; simplify_eq; done.
Qed.

(** The policy test of [CreateIPAMReservation] comes after the workspace
    resolution: a missing policy id, or a policy URL, fails with
    [PolicyRequired] once the workspace is known. *)
Lemma CreateIPAMReservation_bad_policy_after (apiClient : AthenaAPIClient) (rec : IPAMReservation)
  (w : World) ws w1 :
  (r_Policy rec <> "" \/ PolicyID rec = 0%Z) ->
  findWorkspaceURLOrDefault (api_config apiClient) (WorkspaceURL rec) w = (Ok ws, w1) ->
  CreateIPAMReservation apiClient rec w = (Err PolicyRequired, w1).
Proof.
  intros Hp Hf. unfold CreateIPAMReservation. cbv zeta. unfold bind at 1. rewrite Hf.
  cbn [r_Policy PolicyID IPAMReservation_set_WorkspaceURL].
  destruct (String.eqb_spec (r_Policy rec) ""), (Z.eqb_spec (PolicyID rec) 0); cbn;
    try done; by destruct Hp.
Qed.

(** ** What the operations send *)

Lemma setHeaders_method (config : Config) (r : Request) : req_method (setHeaders config r) = req_method r.
Proof. reflexivity. Qed.

Lemma setHeaders_body (config : Config) (r : Request) : req_body (setHeaders config r) = req_body r.
Proof. reflexivity. Qed.

Lemma setHeaders_url (config : Config) (r : Request) : req_url (setHeaders config r) = req_url r.
Proof. reflexivity. Qed.

Lemma checkForJobErrors_world (j : option JobStatus) (w : World) r w' :
  checkForJobErrors j w = (r, w') -> w' = w.
Proof. unfold checkForJobErrors. repeat case_match; unfold ret, raise, panic; congruence. Qed.

Lemma read_request_body_world (q : Request) (u : string) (w : World) r w' :
  read_request_body q u w = (r, w') -> w' = w.
Proof. unfold read_request_body. case_match; unfold ret, panic; congruence. Qed.

(** [waitForJob] sends only status polls of its job. *)
Lemma waitForJob_trace (jobID : Z) (config : Config) (w : World) r w' :
  waitForJob jobID config w = (r, w') ->
  exists new, trace w' = (new ++ trace w)%list /\
    Forall (fun q => q = job_request config jobID) (requests new).
Proof.
  rewrite waitForJob_run. intros E.
  apply poll_loop_trace in E as (new & Hnew & Hq & _). eauto.
Qed.

(** [handleAsyncRequest] sends [req], then only the polls of one job. *)
Lemma handleAsyncRequest_trace (req : Request) (config : Config) (verb : string) (w : World) r w' :
  handleAsyncRequest req config verb w = (r, w') ->
  exists jobID new,
    trace w' = (new ++ EvRequest (clock w) (getHttpClient config) req :: trace w)%list /\
    Forall (fun q => q = job_request config jobID) (requests new).
Proof.
  unfold handleAsyncRequest, bind. destruct (client_Do _ _ w) as [o w1] eqn:Hd.
  destruct (client_Do_world _ _ _ _ _ Hd) as (Ht & _ & _).
  assert (Hnil : w' = w1 -> exists jobID new,
    trace w' = (new ++ EvRequest (clock w) (getHttpClient config) req :: trace w)%list /\
    Forall (fun q => q = job_request config jobID) (requests new)).
  { intros ->. exists 0%Z, []. by rewrite Ht. }
  destruct o as [[res|e u]| | |]; try (intros Hrun; simplify_eq; by auto).
  all: repeat case_match; unfold raise, ret, panic in *; intros Hrun; simplify_eq;
    repeat match goal with
    | H : checkForJobErrors _ _ = (_, _) |- _ => apply checkForJobErrors_world in H; subst
    | H : read_request_body _ _ _ = (_, _) |- _ => apply read_request_body_world in H; subst
    end;
    first [ by apply Hnil
          | match goal with
            | H : waitForJob ?j _ _ = _ |- _ =>
                destruct (waitForJob_trace _ _ _ _ _ H) as (new & Hnew & Hq);
                exists j, new; by rewrite Hnew, Ht
            end ].
Qed.

(** The object fetch adds at most one more GET. *)
Lemma handleAsyncRequestAndFetchManagdObject_trace {T} `{FromJson T} (req : Request) (config : Config)
  (obj : T) (verb : string) (w : World) r w' :
  handleAsyncRequestAndFetchManagdObject req config obj verb w = (r, w') ->
  exists new,
    trace w' = (new ++ EvRequest (clock w) (getHttpClient config) req :: trace w)%list /\
    Forall (fun q => req_method q = "GET") (requests new).
Proof.
  unfold handleAsyncRequestAndFetchManagdObject, bind.
  destruct (handleAsyncRequest _ _ _ w) as [o w1] eqn:Hh.
  destruct (handleAsyncRequest_trace _ _ _ _ _ _ Hh) as (jobID & new & Ht & Hq).
  assert (Hpolls : Forall (fun q => req_method q = "GET") (requests new)).
  { eapply Forall_impl; [exact Hq | intros q ->; reflexivity]. }
  destruct o as [[js|]| | |]; unfold panic; intros Hrun; simplify_eq; eauto.
  destruct (js_Links js) as [l|]; unfold panic in Hrun; [| simplify_eq; eauto].
  destruct (doGet _ _ _ w1) as [o2 w2] eqn:Hg in Hrun.
  destruct (doGet_trace _ _ _ _ _ _ Hg) as [[_ ->] | (_ & _ & _ & Ht2)].
  - destruct o2; unfold ret in Hrun; simplify_eq; eauto.
  - exists (EvRequest (clock w1) (getHttpClient config)
             (get_request config (urlFromHref config (Href (ManagedObject l)))) :: new).
    destruct o2; unfold ret in Hrun; simplify_eq; rewrite Ht2, Ht; split; try done;
      cbn; apply Forall_app; split; auto.
Qed.

(** Resolving the workspace sends nothing but GETs. *)
Lemma findWorkspaceURLOrDefault_trace (config : Config) (url : string) (w : World) r w' :
  findWorkspaceURLOrDefault config url w = (r, w') ->
  exists new, trace w' = (new ++ trace w)%list /\
    Forall (fun q => req_method q = "GET") (requests new).
Proof.
  destruct (String.eqb_spec url "") as [->|Hne].
  2: { rewrite findWorkspaceURLOrDefault_given by done. intros; simplify_eq. by exists []. }
  destruct (url_parse_error (defaultWorkspaceURL config)) eqn:Hu.
  - unfold findWorkspaceURLOrDefault, bind, map_err, findDefaultWorkspaceID, NewRequest.
    cbn [String.eqb]. cbv zeta. rewrite Hu. unfold raise. intros; simplify_eq. by exists [].
  - intros Hrun. destruct (findWorkspaceURLOrDefault_empty_run _ _ _ _ Hu Hrun) as [Ht _].
    exists [EvRequest (clock w) (getHttpClient config) (get_request config (defaultWorkspaceURL config))].
    split; [done | cbn; auto].
Qed.

(** The request [buildPostRequest] builds. *)
Lemma buildPostRequest_ok {T} `{ToJson T} (config : Config) (rt : string) (e : T) req :
  buildPostRequest config rt e = inl req ->
  req = setHeaders config (bare_request "POST" (collectionURL config rt) (Some (to_json e))).
Proof.
  unfold buildPostRequest, buildRequest, NewRequest. repeat case_match; congruence.
Qed.

(** ** Creating a reservation *)

(** C7. A reservation with a workspace URL and without a usable policy
    (a policy URL given, or no policy id) is rejected with
    [PolicyRequired] before any request. *)
Theorem CreateIPAMReservation_policy_required (apiClient : AthenaAPIClient) (rec : IPAMReservation)
  (w : World) :
  WorkspaceURL rec <> "" ->
  (r_Policy rec <> "" \/ PolicyID rec = 0%Z) ->
  CreateIPAMReservation apiClient rec w = (Err PolicyRequired, w).
Proof.
  intros Hw Hp. apply CreateIPAMReservation_bad_policy_after with (ws := WorkspaceURL rec); [done |].
  by apply findWorkspaceURLOrDefault_given.
Qed.

(** C8. Without a workspace URL the default-workspace lookup is sent
    before the policy is looked at: a reservation that names no policy id
    (or names a policy URL) still costs that request, and then fails. *)
Theorem CreateIPAMReservation_lookup_before_policy_check (apiClient : AthenaAPIClient)
  (rec : IPAMReservation) (w : World) :
  let config := api_config apiClient in
  WorkspaceURL rec = "" ->
  (r_Policy rec <> "" \/ PolicyID rec = 0%Z) ->
  url_parse_error (defaultWorkspaceURL config) = None ->
  trace (final (CreateIPAMReservation apiClient rec) w) =
    EvRequest (clock w) (getHttpClient config) (get_request config (defaultWorkspaceURL config))
      :: trace w
  /\ exists e, outcome (CreateIPAMReservation apiClient rec) w = Err e.
Proof.
  intros config Hw Hp Hu. unfold final, outcome.
  destruct (findWorkspaceURLOrDefault config "" w) as [o w1] eqn:Hf.
  destruct (findWorkspaceURLOrDefault_empty_run _ _ _ _ Hu Hf) as [Ht Ho].
  destruct o as [ws|e| |]; try done.
  - rewrite <- Hw in Hf. rewrite (CreateIPAMReservation_bad_policy_after _ _ _ _ _ Hp Hf). cbn; split; eauto.
  - assert (Hc : CreateIPAMReservation apiClient rec w = (Err e, w1))
      by (unfold CreateIPAMReservation, bind at 1; fold config; rewrite Hw, Hf; reflexivity).
    rewrite Hc. cbn; split; eauto.
Qed.

(** C9. Every request a creation sends is a GET, except the one POST of
    the reservation to the reservations collection, whose [policy] field
    is the URL built from the policy id with the WORKSPACES resource type
    ([.../api/v3/onefuse/workspaces/<PolicyID>/]) rather than the IPAM
    policies one. *)
Theorem CreateIPAMReservation_posted_policy (apiClient : AthenaAPIClient) (rec : IPAMReservation)
  (w : World) r w' :
  let config := api_config apiClient in
  CreateIPAMReservation apiClient rec w = (r, w') ->
  exists new, trace w' = (new ++ trace w)%list /\
    Forall (fun q => req_method q = "GET" \/
      exists ws, q = setHeaders config
        (bare_request "POST" (collectionURL config IPAMReservationResourceType)
          (Some (to_json (IPAMReservation_set_r_Policy
                            (itemURL config WorkspaceResourceType (PolicyID rec))
                            (IPAMReservation_set_WorkspaceURL ws rec))))))
      (requests new).
Proof.
  intros config. unfold CreateIPAMReservation. fold config. unfold bind at 1.
  destruct (findWorkspaceURLOrDefault config (WorkspaceURL rec) w) as [o w1] eqn:Hf.
  destruct (findWorkspaceURLOrDefault_trace _ _ _ _ _ Hf) as (n1 & Ht1 & Hq1).
  assert (Hq1' : Forall (fun q => req_method q = "GET" \/ False) (requests n1))
    by (eapply Forall_impl; [exact Hq1 | auto]).
  assert (Hstop : w' = w1 -> exists new, trace w' = (new ++ trace w)%list /\
    Forall (fun q => req_method q = "GET" \/ exists ws, q = setHeaders config
        (bare_request "POST" (collectionURL config IPAMReservationResourceType)
          (Some (to_json (IPAMReservation_set_r_Policy
                            (itemURL config WorkspaceResourceType (PolicyID rec))
                            (IPAMReservation_set_WorkspaceURL ws rec)))))) (requests new)).
  { intros ->. exists n1. split; [done | eapply Forall_impl; [exact Hq1 | auto]]. }
  destruct o as [ws| | |]; intros Hrun; try (simplify_eq; by apply Hstop).
  cbn [r_Policy PolicyID IPAMReservation_set_WorkspaceURL] in Hrun.
  destruct (String.eqb (r_Policy rec) ""), (negb (PolicyID rec =? 0)%Z);
    cbn in Hrun; try (unfold raise in Hrun; simplify_eq; by apply Hstop).
  destruct (buildPostRequest _ _ _) as [req|e] eqn:Hb in Hrun;
    [| unfold raise in Hrun; simplify_eq; by apply Hstop].
  apply buildPostRequest_ok in Hb. unfold bind in Hrun.
  destruct (handleAsyncRequestAndFetchManagdObject _ _ _ _ w1) as [o2 w2] eqn:Hh in Hrun.
  destruct (handleAsyncRequestAndFetchManagdObject_trace _ _ _ _ _ _ _ Hh) as (n2 & Ht2 & Hq2).
  assert (w' = w2) as -> by (destruct o2; unfold ret in Hrun; congruence).
  exists (n2 ++ EvRequest (clock w1) (getHttpClient config) req :: n1)%list. split.
  - by rewrite Ht2, Ht1, <- app_assoc.
  - rewrite requests_app. cbn [requests]. apply Forall_app; split; [apply Forall_app; split |].
    + eapply Forall_impl; [exact Hq1 | auto].
    + constructor; [right; exists ws; exact Hb | constructor].
    + eapply Forall_impl; [exact Hq2 | auto].
Qed.

(** ** Deleting a reservation *)

(** A reply is refused by [readResponse] exactly when its status is 400
    or more or its body cannot be read. *)
Lemma readResponse_err (st : Z) (b : body) (re : option string) :
  (400 <= st)%Z \/ re <> None -> exists e, readResponse (mkResponse st b re) = inr e.
Proof.
  intros Hr. unfold readResponse, checkForErrors, ReadAll. cbn.
  destruct (Z.leb_spec 500 st), (Z.leb_spec 400 st), re; eauto; destruct Hr; [lia | done].
Qed.

(** C10. A deletion sends the DELETE of the reservation's item URL and
    then only the status polls of one job: the job's managed object is
    not fetched. *)
Theorem DeleteIPAMReservation_requests (apiClient : AthenaAPIClient) (id : Z) (w : World) r w' :
  let config := api_config apiClient in
  url_parse_error (itemURL config IPAMReservationResourceType id) = None ->
  DeleteIPAMReservation apiClient id w = (r, w') ->
  exists jobID new,
    trace w' = (new ++ EvRequest (clock w) (getHttpClient config) (delete_request config id) :: trace w)%list /\
    Forall (fun q => q = job_request config jobID) (requests new).
Proof.
  intros config Hu. unfold DeleteIPAMReservation, NewRequest. fold config. cbv zeta. rewrite Hu.
  unfold bind. destruct (handleAsyncRequest _ _ _ w) as [o w1] eqn:Hh.
  destruct (handleAsyncRequest_trace _ _ _ _ _ _ Hh) as (jobID & new & Ht & Hq).
  intros Hrun. exists jobID, new. split; [| done].
  assert (w' = w1) as -> by (destruct o; unfold ret in Hrun; congruence). exact Ht.
Qed.

(** C11. A deletion the server does not accept panics instead of
    returning an error: when the DELETE fails in transport, or its reply
    has a status of 400 or more or an unreadable body, the handler reads
    the request's nil body ([ioutil.ReadAll(req.Body)]) and dereferences
    nil. *)
Theorem DeleteIPAMReservation_refusal_panics (apiClient : AthenaAPIClient) (id : Z) (w : World) reply lat :
  let config := api_config apiClient in
  url_parse_error (itemURL config IPAMReservationResourceType id) = None ->
  server w (trace w) (getHttpClient config) (delete_request config id) = (reply, lat) ->
  match reply with
  | RTransportError _ _ => True
  | RResponse st _ re => (400 <= st)%Z \/ re <> None
  end ->
  DeleteIPAMReservation apiClient id w =
    (Panic nil_deref, logged w (getHttpClient config) (delete_request config id) lat).
Proof.
  intros config Hu Hs Hr. unfold DeleteIPAMReservation, NewRequest. fold config. cbv zeta. rewrite Hu.
  unfold handleAsyncRequest, bind. unfold delete_request in Hs. destruct reply as [m u | st b re].
  - by rewrite (client_Do_transport_error _ _ _ _ _ _ Hs).
  - rewrite (client_Do_resp _ _ _ _ _ _ _ Hs). cbv beta iota.
    destruct (readResponse_err st b re Hr) as [e ->]. reflexivity.
Qed.

(** ** Witnesses *)

Lemma findWorkspaceURLOrDefault_default_witness :
  findWorkspaceURLOrDefault demo_config "" (domain_world [42%Z] []) =
    (Ok (itemURL demo_config WorkspaceResourceType 42),
     logged (domain_world [42%Z] []) (getHttpClient demo_config)
       (get_request demo_config (defaultWorkspaceURL demo_config)) 1000000).
Proof.
  apply (findWorkspaceURLOrDefault_default demo_config (domain_world [42%Z] []) 200 (lookup_body [42%Z])
           1000000 demo_ws []);
    [vm_compute; reflexivity | vm_compute; reflexivity | lia | vm_compute; reflexivity
    | unfold int64_min, int64_max; cbn; lia].
Defined.

Lemma CreateIPAMReservation_missing_default_witness :
  CreateIPAMReservation demo_client demo_reservation (domain_world [] []) =
    (Err (errWithMessage (errNum "Atoi" "" ErrSyntax)
            "athena.apiClient: Failed to convert Workspace ID '' to integer"),
     logged (domain_world [] []) (getHttpClient demo_config)
       (get_request demo_config (defaultWorkspaceURL demo_config)) 1000000).
Proof.
  apply (CreateIPAMReservation_missing_default demo_client demo_reservation (domain_world [] []) 200
           (lookup_body []) 1000000);
    [reflexivity | vm_compute; reflexivity | vm_compute; reflexivity | lia | vm_compute; reflexivity].
Defined.

Lemma CreateIPAMReservation_policy_required_witness :
  CreateIPAMReservation demo_client
    (IPAMReservation_set_WorkspaceURL (itemURL demo_config WorkspaceResourceType 42)
       (IPAMReservation_set_r_Policy (itemURL demo_config IPAMPolicyResourceType 3) demo_reservation))
    (domain_world [42%Z] ["Successful"]) = (Err PolicyRequired, domain_world [42%Z] ["Successful"]).
Proof.
  apply CreateIPAMReservation_policy_required; [vm_compute; discriminate | left; vm_compute; discriminate].
Defined.

Lemma CreateIPAMReservation_lookup_before_policy_check_witness :
  trace (final (CreateIPAMReservation demo_client (IPAMReservation_set_PolicyID 0 demo_reservation))
           (domain_world [42%Z] ["Successful"])) =
    EvRequest 0 (getHttpClient demo_config) (get_request demo_config (defaultWorkspaceURL demo_config)) :: []
  /\ exists e, outcome (CreateIPAMReservation demo_client (IPAMReservation_set_PolicyID 0 demo_reservation))
                 (domain_world [42%Z] ["Successful"]) = Err e.
Proof.
  apply (CreateIPAMReservation_lookup_before_policy_check demo_client
           (IPAMReservation_set_PolicyID 0 demo_reservation) (domain_world [42%Z] ["Successful"]));
    [reflexivity | right; reflexivity | vm_compute; reflexivity].
Defined.

Lemma CreateIPAMReservation_posted_policy_witness :
  CreateIPAMReservation demo_client demo_reservation (domain_world [42%Z] ["Successful"])
    = (fst demo_create, snd demo_create) /\
  exists new, trace (snd demo_create) = (new ++ [])%list /\
    Forall (fun q => req_method q = "GET" \/
      exists ws, q = setHeaders demo_config
        (bare_request "POST" (collectionURL demo_config IPAMReservationResourceType)
          (Some (to_json (IPAMReservation_set_r_Policy
                            (itemURL demo_config WorkspaceResourceType (PolicyID demo_reservation))
                            (IPAMReservation_set_WorkspaceURL ws demo_reservation))))))
      (requests new).
Proof.
  assert (E : CreateIPAMReservation demo_client demo_reservation (domain_world [42%Z] ["Successful"])
              = (fst demo_create, snd demo_create)) by (vm_compute; reflexivity).
  split; [exact E | exact (CreateIPAMReservation_posted_policy _ _ _ _ _ E)].
Defined.

Lemma DeleteIPAMReservation_requests_witness :
  DeleteIPAMReservation demo_client 9 (domain_world [] ["Pending"; "Successful"])
    = (fst demo_delete, snd demo_delete) /\
  exists jobID new,
    trace (snd demo_delete) =
      (new ++ [EvRequest 0 (getHttpClient demo_config) (delete_request demo_config 9)])%list /\
    Forall (fun q => q = job_request demo_config jobID) (requests new).
Proof.
  assert (E : DeleteIPAMReservation demo_client 9 (domain_world [] ["Pending"; "Successful"])
              = (fst demo_delete, snd demo_delete)) by (vm_compute; reflexivity).
  split; [exact E |].
  exact (DeleteIPAMReservation_requests demo_client 9 _ _ _ ltac:(vm_compute; reflexivity) E).
Defined.

Lemma DeleteIPAMReservation_refusal_panics_witness :
  DeleteIPAMReservation demo_client 9 refusing_world =
    (Panic nil_deref, logged refusing_world (getHttpClient demo_config) (delete_request demo_config 9) 1000000).
Proof.
  apply (DeleteIPAMReservation_refusal_panics demo_client 9 refusing_world
           (json_reply 404 (JObject [("message", JString "not found")])) 1000000);
    [vm_compute; reflexivity | reflexivity | cbn; lia].
Defined.
