(* ===== verification/Binding.v ===== *)
(** The Terraform binding of [src/unnamed/part_000]: the schema of the
    [athena_ipam_record] resource ([resourceIPAMReservation]), the
    copy of a reservation into the resource data
    ([bindIPAMReservationResource]) and the four handlers
    [resourceIPAMReservationCreate], [...Read], [...Update], [...Delete].

    The Terraform SDK's [*schema.ResourceData] is a library the handlers
    only call; it is modelled by what the handlers use of it: the resource
    id, the attribute values [Get] returns (the zero value of the
    attribute's type when unset), the attributes the plan changes (what
    [HasChange] answers) and [Set], which refuses an attribute the schema
    does not declare or a value of another type.  A handler runs in the
    monad [TF] over the resource data and the world of [Http]; the client
    operations of [Domain] are lifted into it. *)

From S2P Require Import Prelude GoLib Json Http Transport Entities JobEngine Domain.
From stdpp Require Import gmap.
From Stdlib Require Import Ascii.
Open Scope string_scope.
Open Scope go_scope.

(** ** The SDK's values and schema *)

(** [schema.ValueType], as far as the resource uses it. *)
Inductive ValueType := TypeString | TypeInt | TypeList | TypeMap.

#[export] Instance ValueType_eq_dec : EqDecision ValueType.
Proof. solve_decision. Defined.

(** The value of an attribute, as [d.Get] returns it in an
    [interface{}]. *)
#[local] Set Warnings "-register-all".
Inductive tfval :=
| TFString (s : string)
| TFInt (n : Z)
| TFList (xs : list tfval)
| TFMap (m : gmap string json).

(** [*schema.Schema]: the type and the flags the resource sets. *)
Record Schema := mkSchema {
  sch_Type : ValueType;
  sch_Elem : option ValueType;
  sch_Required : bool;
  sch_Optional : bool;
  sch_Computed : bool;
  sch_ForceNew : bool
}.

Definition required (t : ValueType) : Schema := mkSchema t None true false false false.
Definition computed (t : ValueType) : Schema := mkSchema t None false false true false.
Definition optional_computed (t : ValueType) (forceNew : bool) : Schema :=
  mkSchema t None false true true forceNew.

(** The [Schema] map of [resourceIPAMReservation()]. *)
Definition resourceIPAMReservationSchema : list (string * Schema) :=
  [("hostname", required TypeString);
   ("computed_hostname", computed TypeString);
   ("policy_id", required TypeInt);
   ("workspace_url", optional_computed TypeString false);
   ("ip_address", optional_computed TypeString true);
   ("netmask", optional_computed TypeString true);
   ("gateway", optional_computed TypeString true);
   ("network", optional_computed TypeString true);
   ("subnet", optional_computed TypeString true);
   ("primary_dns", optional_computed TypeString true);
   ("secondary_dns", optional_computed TypeString true);
   ("nic_label", optional_computed TypeString true);
   ("dns_suffix", optional_computed TypeString false);
   ("dns_search_suffix", mkSchema TypeList (Some TypeString) false true true false);
   ("template_properties", mkSchema TypeMap None false true false false)].

(** The type of an attribute, when the schema declares it. *)
Definition schema_type (k : string) : option ValueType :=
  sch_Type <$> (snd <$> List.find (fun '(k', _) => String.eqb k' k) resourceIPAMReservationSchema).

(** A value of a type; the elements of [dns_search_suffix] are strings. *)
Definition has_type (t : ValueType) (v : tfval) : bool :=
  match t, v with
  | TypeString, TFString _ | TypeInt, TFInt _ | TypeMap, TFMap _ => true
  | TypeList, TFList xs => forallb (fun x => match x with TFString _ => true | _ => false end) xs
  | _, _ => false
  end.

(** The zero value [d.Get] returns for an unset attribute. *)
Definition zero_of (t : ValueType) : tfval :=
  match t with
  | TypeString => TFString ""
  | TypeInt => TFInt 0
  | TypeList => TFList []
  | TypeMap => TFMap ∅
  end.

(** ** Resource data *)

Record ResourceData := mkResourceData {
  rd_id : string;
  rd_values : gmap string tfval;
  rd_changed : list string
}.

(** [d.Get(key)]: [None] is the nil [interface{}] of an undeclared key. *)
Definition rd_get (k : string) (d : ResourceData) : option tfval :=
  match schema_type k with
  | None => None
  | Some t => Some (default (zero_of t) (rd_values d !! k))
  end.

(** [d.Set(key, value)]. *)
Definition rd_set (k : string) (v : tfval) (d : ResourceData) : ResourceData * option error :=
  match schema_type k with
  | None => (d, Some (errNew ("Invalid address to set: " ++ quote k)))
  | Some t =>
      if has_type t v then (mkResourceData (rd_id d) (<[k := v]> (rd_values d)) (rd_changed d), None)
      else (d, Some (errNew (k ++ ": value has the wrong type")))
  end.

(** [d.HasChange(key)]. *)
Definition rd_has_change (k : string) (d : ResourceData) : bool :=
  existsb (String.eqb k) (rd_changed d).

(** Every value held has the type the schema gives its key. *)
Definition rd_wf (d : ResourceData) : Prop :=
  map_Forall (fun k v => exists t, schema_type k = Some t /\ has_type t v = true) (rd_values d).

(** [d.Set(k, v)] succeeds. *)
Definition settable (k : string) (v : tfval) : bool :=
  match schema_type k with Some t => has_type t v | None => false end.

(** ** The handler monad *)

Definition TF := St (ResourceData * World) error.

(** A client operation, run on the world. *)
Definition liftW {A} (m : M A) : TF A :=
  fun '(d, w) => let '(r, w') := m w in (r, (d, w')).

Definition Get (k : string) : TF (option tfval) := fun '(d, w) => (Ok (rd_get k d), (d, w)).

Definition SetAttr (k : string) (v : tfval) : TF (option error) :=
  fun '(d, w) => let '(d', e) := rd_set k v d in (Ok e, (d', w)).

Definition HasChange (k : string) : TF bool := fun '(d, w) => (Ok (rd_has_change k d), (d, w)).

Definition Id : TF string := fun '(d, w) => (Ok (rd_id d), (d, w)).

Definition SetId (id : string) : TF unit :=
  fun '(d, w) => (Ok tt, (mkResourceData id (rd_values d) (rd_changed d), w)).

(** The message of a failed type assertion [x.(T)]. *)
Definition assert_panic (t : string) : string := "interface conversion: interface {} is not " ++ t.

(** [d.Get(key).(string)], [.(int)], [.(map[string]interface{})],
    [.([]interface{})]. *)
Definition GetString (k : string) : TF string :=
  v <- Get k ;; match v with Some (TFString s) => ret s | _ => panic (assert_panic "string") end.

Definition GetInt (k : string) : TF Z :=
  v <- Get k ;; match v with Some (TFInt n) => ret n | _ => panic (assert_panic "int") end.

Definition GetMap (k : string) : TF (gmap string json) :=
  v <- Get k ;; match v with Some (TFMap m) => ret m | _ => panic (assert_panic "map[string]interface {}") end.

Definition GetList (k : string) : TF (list tfval) :=
  v <- Get k ;; match v with Some (TFList xs) => ret xs | _ => panic (assert_panic "[]interface {}") end.

(** [if err := d.Set(key, v); err != nil { return errors.WithMessage(err, msg) }]. *)
Definition set_or (k : string) (v : tfval) (msg : string) : TF unit :=
  e <- SetAttr k v ;;
  match e with Some err => raise (errWithMessage err msg) | None => ret tt end.

(** ** The binding *)

(** [xs[i]] with Go's bounds check. *)
Definition index_or_panic {A} (xs : list A) (i : Z) : TF A :=
  match index xs i with
  | Some x => ret x
  | None => panic ("runtime error: index out of range [" ++ Itoa i ++ "]")
  end.

(** The policy id the binding reads back from a policy link: the
    second-to-last segment of the href, converted with the error
    ignored. *)
Definition policy_id_of_href (href : string) : TF Z :=
  let ipamPolicyURLSplit := Split href "/" in
  ipamPolicyID <- index_or_panic ipamPolicyURLSplit (Z.of_nat (length ipamPolicyURLSplit) - 2) ;;
  ret (fst (Atoi ipamPolicyID)).

(** [bindIPAMReservationResource(d, ipamRecord)]. *)
Definition bindIPAMReservationResource (ipamRecord : IPAMReservation) : TF unit :=
  set_or "computed_hostname" (TFString (Hostname ipamRecord)) ("Cannot set name: " ++ Hostname ipamRecord) ;;
  match r_Links ipamRecord with
  | None => panic nil_deref
  | Some links =>
      let wsHref := Href (rl_Workspace links) in
      set_or "workspace_url" (TFString wsHref) ("Cannot set workspace: " ++ wsHref) ;;
      set_or "ip_address" (TFString (IPaddress ipamRecord)) ("Cannot set IPAddress: " ++ IPaddress ipamRecord) ;;
      set_or "netmask" (TFString (Netmask ipamRecord)) ("Cannot set Netmask " ++ Netmask ipamRecord) ;;
      set_or "primary_dns" (TFString (PrimaryDNS ipamRecord))
        ("Cannot set Primmary DNS: " ++ PrimaryDNS ipamRecord) ;;
      set_or "secondary_dns" (TFString (SecondaryDNS ipamRecord))
        ("Cannot set Secondary DNS: " ++ SecondaryDNS ipamRecord) ;;
      set_or "gateway" (TFString (Gateway ipamRecord)) ("Cannot set Gateway: " ++ Gateway ipamRecord) ;;
      set_or "network" (TFString (Network ipamRecord)) ("Cannot set Network: " ++ Network ipamRecord) ;;
      set_or "subnet" (TFString (Subnet ipamRecord)) ("Cannot set Subnet: " ++ Subnet ipamRecord) ;;
      set_or "nic_label" (TFString (NicLabel ipamRecord)) ("Cannot set NicLabel: " ++ NicLabel ipamRecord) ;;
      set_or "dns_suffix" (TFString (DNSSuffix ipamRecord)) ("Cannot set DNSSuffix: " ++ DNSSuffix ipamRecord) ;;
      ipamPolicyIDInt <- policy_id_of_href (Href (rl_Policy links)) ;;
      set_or "policy_id" (TFInt ipamPolicyIDInt) "Cannot set policy"
  end.

(** ** The handlers *)

(** [for _, group := range d.Get("dns_search_suffix").([]interface{}) {
    ipam_Suffixes = append(ipam_Suffixes, group.(string)) }]. *)
Fixpoint collect_strings (xs : list tfval) (acc : list string) : TF (list string) :=
  match xs with
  | [] => ret acc
  | TFString s :: r => collect_strings r (acc ++ [s])
  | _ :: _ => panic (assert_panic "string")
  end.

(** The reservation the Create and Update handlers build from the
    resource data, field by field in the order of the composite
    literal. *)
Definition record_from_data : TF IPAMReservation :=
  hostname <- GetString "hostname" ;;
  policyID <- GetInt "policy_id" ;;
  workspaceURL <- GetString "workspace_url" ;;
  ipAddress <- GetString "ip_address" ;;
  netmask <- GetString "netmask" ;;
  subnet <- GetString "subnet" ;;
  gateway <- GetString "gateway" ;;
  network <- GetString "network" ;;
  primaryDNS <- GetString "primary_dns" ;;
  secondaryDNS <- GetString "secondary_dns" ;;
  dnsSuffix <- GetString "dns_suffix" ;;
  nicLabel <- GetString "nic_label" ;;
  templateProperties <- GetMap "template_properties" ;;
  ret (mkIPAMReservation None 0 hostname policyID "" workspaceURL ipAddress gateway primaryDNS
         secondaryDNS network subnet dnsSuffix netmask nicLabel templateProperties).

(** [resourceIPAMReservationCreate(d, m)], [m] being the [Config]. *)
Definition resourceIPAMReservationCreate (config : Config) : TF unit :=
  groups <- GetList "dns_search_suffix" ;;
  ipam_Suffixes <- collect_strings groups [] ;;
  newIPAMRecord <- record_from_data ;;
  ipamRecord <- liftW (CreateIPAMReservation (NewAthenaApiClient config) newIPAMRecord) ;;
  SetId (Itoa (r_ID ipamRecord)) ;;
  bindIPAMReservationResource ipamRecord.

(** [strconv.Atoi(d.Id())], returning the error. *)
Definition id_of_data : TF Z :=
  id <- Id ;;
  let '(intID, err) := Atoi id in
  match err with Some e => raise e | None => ret intID end.

(** [resourceIPAMReservationRead(d, m)]. *)
Definition resourceIPAMReservationRead (config : Config) : TF unit :=
  intID <- id_of_data ;;
  ipamRecord <- liftW (GetIPAMReservation (NewAthenaApiClient config) intID) ;;
  bindIPAMReservationResource ipamRecord.

(** The attributes whose change makes [resourceIPAMReservationUpdate]
    act. *)
Definition update_keys : list string :=
  ["hostname"; "computed_hostname"; "policy_id"; "workspace_url"; "ip_address"; "netmask";
   "subnet"; "network"; "gateway"; "primary_dns"; "secondary_dns"; "dns_suffix"; "nic_label";
   "template_properties"].

(** [resourceIPAMReservationUpdate(d, m)]. *)
Definition resourceIPAMReservationUpdate (config : Config) : TF unit :=
  changed <- foldl (fun (acc : TF bool) k => c <- acc ;; if c then ret true else HasChange k)
               (ret false) update_keys ;;
  if negb changed then ret tt
  else
    groups <- GetList "dns_search_suffix" ;;
    ipam_Suffixes <- collect_strings groups [] ;;
    desiredIPAMRecord <- record_from_data ;;
    intID <- id_of_data ;;
    ipamRecord <- liftW (UpdateIPAMReservation (NewAthenaApiClient config) intID desiredIPAMRecord) ;;
    bindIPAMReservationResource ipamRecord.

(** [resourceIPAMReservationDelete(d, m)]. *)
Definition resourceIPAMReservationDelete (config : Config) : TF unit :=
  intID <- id_of_data ;;
  liftW (DeleteIPAMReservation (NewAthenaApiClient config) intID).

(** [resourceIPAMReservation()]: the handlers, the schema and the create
    and delete timeouts (5 minutes, in ns). *)
Record Resource := mkResource {
  res_Create : Config -> TF unit;
  res_Read : Config -> TF unit;
  res_Update : Config -> TF unit;
  res_Delete : Config -> TF unit;
  res_Schema : list (string * Schema);
  res_CreateTimeout : N;
  res_DeleteTimeout : N
}.

Definition resourceIPAMReservation : Resource :=
  mkResource resourceIPAMReservationCreate resourceIPAMReservationRead resourceIPAMReservationUpdate
    resourceIPAMReservationDelete resourceIPAMReservationSchema (5 * 60 * 1000000000) (5 * 60 * 1000000000).

(** ** Concrete data *)

(** The links a server returns with a reservation, the policy link
    given. *)
Definition demo_links (policyHref : string) : ReservationLinks :=
  mkReservationLinks (mkLinkRef "/api/v3/onefuse/ipamReservations/9/" "")
    (mkLinkRef "/api/v3/onefuse/workspaces/42/" "") (mkLinkRef policyHref "") LinkRef_zero.

Definition demo_bound (policyHref : string) : IPAMReservation :=
  IPAMReservation_set_r_Links (Some (demo_links policyHref)) demo_reservation.

Definition empty_data : ResourceData := mkResourceData "" ∅ [].

(** A resource whose plan changes the netmask. *)
Definition changed_data : ResourceData := mkResourceData "9" ∅ ["netmask"].

(** ** Run predicates *)

(** [m] leaves the world as it found it: no request, no sleep. *)
Definition keeps_world {A} (m : TF A) : Prop := forall s, snd (snd (m s)) = snd s.

(** [m] never ends in success. *)
Definition never_ok {A} (m : TF A) : Prop :=
  forall s, match fst (m s) with Ok _ => False | _ => True end.

(** Two handler states that differ at most in the [dns_search_suffix]
    attribute, and a step that cannot tell them apart. *)
Definition same_but_suffixes (s1 s2 : ResourceData * World) : Prop :=
  snd s1 = snd s2 /\ rd_id (fst s1) = rd_id (fst s2) /\ rd_changed (fst s1) = rd_changed (fst s2) /\
  forall k, k <> "dns_search_suffix" -> rd_values (fst s1) !! k = rd_values (fst s2) !! k.

Definition blind_to_suffixes {A} (m : TF A) : Prop :=
  forall s1 s2, same_but_suffixes s1 s2 ->
  fst (m s1) = fst (m s2) /\ same_but_suffixes (snd (m s1)) (snd (m s2)).

(** ** Lemmas on the SDK model *)

Lemma rd_set_ok (k : string) (v : tfval) (d : ResourceData) :
  settable k v = true ->
  rd_set k v d = (mkResourceData (rd_id d) (<[k := v]> (rd_values d)) (rd_changed d), None).
Proof. unfold settable, rd_set. destruct (schema_type k); [| done]. by intros ->. Qed.

Lemma set_or_ok (k : string) (v : tfval) (msg : string) (d : ResourceData) (w : World) :
  settable k v = true ->
  set_or k v msg (d, w) = (Ok tt, (mkResourceData (rd_id d) (<[k := v]> (rd_values d)) (rd_changed d), w)).
Proof. intros H. unfold set_or, SetAttr, bind. by rewrite rd_set_ok. Qed.

(** ** Reading the policy id back *)

(** The href of an item ([.../<id>/]) gives its id back. *)
Lemma policy_id_of_href_ok (p : string) (n : Z) (s : ResourceData * World) :
  (int64_min <= n <= int64_max)%Z ->
  policy_id_of_href (p ++ "/" ++ Itoa n ++ "/") s = (Ok n, s).
Proof.
  intros Hn. unfold policy_id_of_href.
  change ("/" ++ Itoa n ++ "/") with (String "/" (Itoa n ++ String "/" "")).
  rewrite !Split_app_sep, (Split_no_sep (Itoa n)) by apply Itoa_no_slash.
  change (Split "" "/") with [""]. rewrite length_app. unfold index_or_panic, index.
  replace (Z.of_nat (length (Split p "/") + length ([Itoa n] ++ [""])) - 2)%Z
    with (Z.of_nat (length (Split p "/"))) by (cbn; lia).
  destruct (Z.ltb_spec (Z.of_nat (length (Split p "/"))) 0); [lia |].
  rewrite Nat2Z.id, lookup_app_r, Nat.sub_diag by done. cbn.
  unfold bind, ret. by rewrite Atoi_Itoa.
Qed.

(** An href without a slash splits into one piece, and [xs[len-2]] is
    out of range. *)
Lemma policy_id_of_href_no_slash (href : string) (s : ResourceData * World) :
  str_forallb (fun c => negb (Ascii.eqb c "/")) href = true ->
  policy_id_of_href href s = (Panic "runtime error: index out of range [-1]", s).
Proof. intros H. unfold policy_id_of_href. rewrite Split_no_sep by exact H. reflexivity. Qed.

(** The binding copies the fields before it reads the policy link. *)
Lemma bindIPAMReservationResource_fields (r : IPAMReservation) (l : ReservationLinks)
  (d : ResourceData) (w : World) :
  r_Links r = Some l ->
  exists d1, bindIPAMReservationResource r (d, w) =
      (ipamPolicyIDInt <- policy_id_of_href (Href (rl_Policy l)) ;;
       set_or "policy_id" (TFInt ipamPolicyIDInt) "Cannot set policy") (d1, w)
    /\ rd_id d1 = rd_id d /\ rd_changed d1 = rd_changed d
    /\ rd_values d1 !! "workspace_url" = Some (TFString (Href (rl_Workspace l)))
    /\ rd_values d1 !! "computed_hostname" = Some (TFString (Hostname r))
    /\ rd_values d1 !! "ip_address" = Some (TFString (IPaddress r)).
Proof.
  intros Hl. unfold bindIPAMReservationResource. rewrite Hl. cbv zeta.
  do 11 (erewrite bind_run_ok; [| apply set_or_ok; reflexivity]).
  eexists. split; [reflexivity |]. cbn [rd_id rd_values rd_changed]. by simplify_map_eq.
Qed.

(** C12. The policy id read back by the binding is the id in the policy
    link: for a link [<prefix>/<id>/] the resource's [policy_id] becomes
    [id] (the link format of the spec, [.../modulePolicies/42/] giving
    42), and the workspace link, the host name and the address are copied
    into the resource data. *)
Theorem bindIPAMReservationResource_policy_id (r : IPAMReservation) (l : ReservationLinks)
  (p : string) (n : Z) (d : ResourceData) (w : World) :
  r_Links r = Some l ->
  Href (rl_Policy l) = p ++ "/" ++ Itoa n ++ "/" ->
  (int64_min <= n <= int64_max)%Z ->
  exists d', bindIPAMReservationResource r (d, w) = (Ok tt, (d', w)) /\
    rd_id d' = rd_id d /\
    rd_values d' !! "policy_id" = Some (TFInt n) /\
    rd_values d' !! "workspace_url" = Some (TFString (Href (rl_Workspace l))) /\
    rd_values d' !! "computed_hostname" = Some (TFString (Hostname r)) /\
    rd_values d' !! "ip_address" = Some (TFString (IPaddress r)).
Proof.
  intros Hl Hp Hn. destruct (bindIPAMReservationResource_fields r l d w Hl) as (d1 & E & Hid & _ & Hws & Hh & Hip).
  rewrite E, Hp. erewrite bind_run_ok; [| apply policy_id_of_href_ok; exact Hn].
  rewrite set_or_ok by reflexivity. eexists. split; [reflexivity |]. cbn [rd_id rd_values].
  by simplify_map_eq.
Qed.

(** C13. A policy link without a slash (an empty href in particular)
    makes the binding panic: the href splits into one piece and the
    index [len - 2] is -1. *)
Theorem bindIPAMReservationResource_short_href_panics (r : IPAMReservation) (l : ReservationLinks)
  (d : ResourceData) (w : World) :
  r_Links r = Some l ->
  str_forallb (fun c => negb (Ascii.eqb c "/")) (Href (rl_Policy l)) = true ->
  exists d', bindIPAMReservationResource r (d, w) =
    (Panic "runtime error: index out of range [-1]", (d', w)).
Proof.
  intros Hl Hh. destruct (bindIPAMReservationResource_fields r l d w Hl) as (d1 & E & _).
  rewrite E. unfold bind at 1. rewrite policy_id_of_href_no_slash by exact Hh. eauto.
Qed.

(** ** Runs that stay off the network *)

Create HintDb keeps discriminated.

Lemma keeps_ret {A} (a : A) : keeps_world (ret a).
Proof. by intros []. Qed.
Lemma keeps_raise {A} (e : error) : keeps_world (A := A) (raise e).
Proof. by intros []. Qed.
Lemma keeps_panic {A} (p : string) : keeps_world (A := A) (panic p).
Proof. by intros []. Qed.
Lemma keeps_Get (k : string) : keeps_world (Get k).
Proof. by intros []. Qed.
Lemma keeps_SetAttr (k : string) (v : tfval) : keeps_world (SetAttr k v).
Proof. intros [d w]. unfold SetAttr. by destruct (rd_set k v d). Qed.
Lemma keeps_HasChange (k : string) : keeps_world (HasChange k).
Proof. by intros []. Qed.
Lemma keeps_Id : keeps_world Id.
Proof. by intros []. Qed.
Lemma keeps_SetId (id : string) : keeps_world (SetId id).
Proof. by intros []. Qed.

(** A client operation that does not touch the world. *)
Lemma keeps_liftW {A} (m : M A) : (forall w, snd (m w) = w) -> keeps_world (liftW m).
Proof. intros H [d w]. unfold liftW. specialize (H w). destruct (m w). cbn in *. congruence. Qed.

Lemma keeps_bind {A B} (m : TF A) (k : A -> TF B) :
  keeps_world m -> (forall a, keeps_world (k a)) -> keeps_world (bind m k).
Proof.
  intros Hm Hk s. unfold bind. specialize (Hm s).
  destruct (m s) as [[a| | |] s']; cbn in *; [rewrite Hk | ..]; congruence.
Qed.

#[export] Hint Resolve keeps_ret keeps_raise keeps_panic keeps_Get keeps_SetAttr keeps_HasChange
  keeps_Id keeps_SetId : keeps.

Ltac keeps_tac :=
  repeat (solve [auto with keeps] || case_match || apply keeps_bind || intro).

Lemma keeps_set_or (k : string) (v : tfval) (msg : string) : keeps_world (set_or k v msg).
Proof. unfold set_or. keeps_tac. Qed.

Lemma keeps_collect_strings (xs : list tfval) (acc : list string) : keeps_world (collect_strings xs acc).
Proof. revert acc. induction xs as [|[] xs IH]; intros acc; cbn; auto with keeps. Qed.

Lemma keeps_record_from_data : keeps_world record_from_data.
Proof. unfold record_from_data, GetString, GetInt, GetMap. keeps_tac. Qed.

Lemma keeps_id_of_data : keeps_world id_of_data.
Proof. unfold id_of_data. keeps_tac. Qed.

Lemma keeps_policy_id_of_href (href : string) : keeps_world (policy_id_of_href href).
Proof. unfold policy_id_of_href, index_or_panic. keeps_tac. Qed.

Lemma keeps_bind_resource (r : IPAMReservation) : keeps_world (bindIPAMReservationResource r).
Proof. unfold bindIPAMReservationResource. pose proof keeps_set_or. pose proof keeps_policy_id_of_href. keeps_tac. Qed.

#[export] Hint Resolve keeps_set_or keeps_collect_strings keeps_record_from_data keeps_id_of_data
  keeps_bind_resource : keeps.

(** The test of [resourceIPAMReservationUpdate] for a change. *)
Lemma changed_run (ks : list string) (acc : TF bool) (b : bool) (d : ResourceData) (w : World) :
  acc (d, w) = (Ok b, (d, w)) ->
  foldl (fun (acc : TF bool) k => c <- acc ;; if c then ret true else HasChange k) acc ks (d, w)
  = (Ok (b || existsb (fun k => rd_has_change k d) ks), (d, w)).
Proof.
  revert acc b. induction ks as [|k ks IH]; intros acc b Hacc; cbn [foldl existsb].
  - by rewrite orb_false_r.
  - rewrite (IH _ (b || rd_has_change k d)), orb_assoc; [done |].
    unfold bind. rewrite Hacc. by destruct b.
Qed.

Lemma keeps_changed (ks : list string) (acc : TF bool) :
  keeps_world acc ->
  keeps_world (foldl (fun (acc : TF bool) k => c <- acc ;; if c then ret true else HasChange k) acc ks).
Proof.
  revert acc. induction ks as [|k ks IH]; intros acc Hacc; cbn [foldl]; [done |].
  apply IH. keeps_tac.
Qed.

Lemma never_ok_raise {A} (e : error) : never_ok (A := A) (raise e).
Proof. by intros []. Qed.

Lemma never_ok_bind_l {A B} (m : TF A) (k : A -> TF B) : never_ok m -> never_ok (bind m k).
Proof. intros Hm s. unfold bind. specialize (Hm s). by destruct (m s) as [[] s']. Qed.

Lemma never_ok_bind_r {A B} (m : TF A) (k : A -> TF B) :
  (forall a, never_ok (k a)) -> never_ok (bind m k).
Proof. intros Hk s. unfold bind. destruct (m s) as [[a| | |] s']; [apply Hk | done..]. Qed.

(** Once a change is seen, the Update handler cannot succeed. *)
Lemma update_branch_never_ok (config : Config) :
  never_ok (groups <- GetList "dns_search_suffix" ;;
            ipam_Suffixes <- collect_strings groups [] ;;
            desiredIPAMRecord <- record_from_data ;;
            intID <- id_of_data ;;
            ipamRecord <- liftW (UpdateIPAMReservation (NewAthenaApiClient config) intID desiredIPAMRecord) ;;
            bindIPAMReservationResource ipamRecord).
Proof.
  do 4 (apply never_ok_bind_r; intros ?). apply never_ok_bind_l. by intros [].
Qed.

(** C14. The Update handler never calls the server: it leaves the world
    unchanged; when no tracked attribute changed it returns at once
    without touching the resource data, and when one did it never
    reports success ([UpdateIPAMReservation] is not implemented). *)
Theorem resourceIPAMReservationUpdate_no_remote_call (config : Config) (d : ResourceData) (w : World) :
  snd (final (resourceIPAMReservationUpdate config) (d, w)) = w /\
  (existsb (fun k => rd_has_change k d) update_keys = false ->
   resourceIPAMReservationUpdate config (d, w) = (Ok tt, (d, w))) /\
  (existsb (fun k => rd_has_change k d) update_keys = true ->
   match outcome (resourceIPAMReservationUpdate config) (d, w) with Ok _ => False | _ => True end).
Proof.
  unfold final, outcome, resourceIPAMReservationUpdate. split_and!.
  - change w with (snd (d, w)) at 2. apply keeps_bind; [apply keeps_changed; auto with keeps |].
    intros c. destruct c; cbn [negb]; keeps_tac.
    apply keeps_liftW. by intros.
  - intros Hc. unfold bind at 1. rewrite (changed_run _ _ false) by done. cbn [orb]. by rewrite Hc.
  - intros Hc. unfold bind at 1. rewrite (changed_run _ _ false) by done. cbn [orb]. rewrite Hc.
    apply update_branch_never_ok.
Qed.

(** ** What the Create handler sends does not depend on the search suffixes *)

Create HintDb blind discriminated.

Lemma blind_ret {A} (a : A) : blind_to_suffixes (ret a).
Proof. by intros [] []. Qed.
Lemma blind_raise {A} (e : error) : blind_to_suffixes (A := A) (raise e).
Proof. by intros [] []. Qed.
Lemma blind_panic {A} (p : string) : blind_to_suffixes (A := A) (panic p).
Proof. by intros [] []. Qed.
Lemma blind_Id : blind_to_suffixes Id.
Proof. intros [] [] H. split; [| done]. cbn. f_equal. apply H. Qed.
Lemma blind_SetId (id : string) : blind_to_suffixes (SetId id).
Proof. intros [] [] (Hw & Hi & Hc & Hv). split; [done |]. cbn in *. by split_and!. Qed.

Lemma blind_Get (k : string) : k <> "dns_search_suffix" -> blind_to_suffixes (Get k).
Proof.
  intros Hk [d1 w1] [d2 w2] H. split; [| done]. cbn. unfold rd_get.
  destruct H as (_ & _ & _ & Hv). cbn in Hv. by rewrite Hv.
Qed.

Lemma blind_SetAttr (k : string) (v : tfval) : blind_to_suffixes (SetAttr k v).
Proof.
  intros [d1 w1] [d2 w2] (Hw & Hi & Hc & Hv). cbn in *. unfold rd_set.
  destruct (schema_type k) as [t|]; [destruct (has_type t v) |]; cbn; unfold same_but_suffixes; cbn;
    split_and!; try done;
    intros k' Hk'; try by apply Hv.
  destruct (String.eq_dec k k') as [<-|Hne].
  - by simplify_map_eq.
  - rewrite !lookup_insert_ne by done. by apply Hv.
Qed.

Lemma blind_liftW {A} (m : M A) : blind_to_suffixes (liftW m).
Proof.
  intros [d1 w1] [d2 w2] (Hw & Hi & Hc & Hv). cbn in *. subst w2.
  destruct (m w1) as [r w']. cbn. by split_and!.
Qed.

Lemma blind_bind {A B} (m : TF A) (k : A -> TF B) :
  blind_to_suffixes m -> (forall a, blind_to_suffixes (k a)) -> blind_to_suffixes (bind m k).
Proof.
  intros Hm Hk s1 s2 H. unfold bind. destruct (Hm s1 s2 H) as [Ho Hs].
  destruct (m s1) as [o1 s1'], (m s2) as [o2 s2']. cbn in *. subst o2.
  destruct o1; [by apply Hk | done..].
Qed.

#[export] Hint Resolve blind_ret blind_raise blind_panic blind_Id blind_SetId blind_SetAttr blind_liftW
  : blind.
#[export] Hint Extern 1 (blind_to_suffixes (Get _)) => apply blind_Get; discriminate : blind.

Ltac blind_tac :=
  repeat (solve [auto with blind] || case_match || apply blind_bind || intro).

Lemma blind_bind_resource (r : IPAMReservation) : blind_to_suffixes (bindIPAMReservationResource r).
Proof.
  unfold bindIPAMReservationResource, set_or, policy_id_of_href, index_or_panic. blind_tac.
Qed.

Lemma blind_record_from_data : blind_to_suffixes record_from_data.
Proof. unfold record_from_data, GetString, GetInt, GetMap. blind_tac. Qed.

(** The suffix loop over a list of strings returns them. *)
Lemma collect_strings_run (ss : list string) (acc : list string) (s : ResourceData * World) :
  collect_strings (map TFString ss) acc s = (Ok (acc ++ ss)%list, s).
Proof.
  revert acc. induction ss as [|x ss IH]; intros acc; cbn [map collect_strings].
  - by rewrite app_nil_r.
  - by rewrite IH, <- app_assoc.
Qed.

Lemma GetList_suffixes (i : string) (vs : gmap string tfval) (c : list string) (ss : list string) (w : World) :
  let d := mkResourceData i (<["dns_search_suffix" := TFList (map TFString ss)]> vs) c in
  GetList "dns_search_suffix" (d, w) = (Ok (map TFString ss), (d, w)).
Proof. intros d. unfold GetList, Get, bind, rd_get. cbn. by simplify_map_eq. Qed.

(** C15. The [dns_search_suffix] attribute is read and collected by the
    Create handler but never used: two resource data that differ only in
    the search suffixes give the same outcome and the same requests. *)
Theorem resourceIPAMReservationCreate_ignores_dns_search_suffix (config : Config) (d : ResourceData)
  (w : World) (ss1 ss2 : list string) :
  let with_suffixes ss :=
    mkResourceData (rd_id d) (<["dns_search_suffix" := TFList (map TFString ss)]> (rd_values d)) (rd_changed d) in
  outcome (resourceIPAMReservationCreate config) (with_suffixes ss1, w)
    = outcome (resourceIPAMReservationCreate config) (with_suffixes ss2, w) /\
  snd (final (resourceIPAMReservationCreate config) (with_suffixes ss1, w))
    = snd (final (resourceIPAMReservationCreate config) (with_suffixes ss2, w)).
Proof.
  cbv beta zeta. unfold outcome, final, resourceIPAMReservationCreate.
  rewrite (bind_run_ok _ _ _ _ _ (GetList_suffixes (rd_id d) (rd_values d) (rd_changed d) ss1 w)),
    (bind_run_ok _ _ _ _ _ (GetList_suffixes (rd_id d) (rd_values d) (rd_changed d) ss2 w)).
  rewrite !(bind_run_ok _ _ _ _ _ (collect_strings_run _ [] _)).
  match goal with
  | |- fst (?m _) = fst (?m _) /\ _ =>
      assert (Hb : blind_to_suffixes m) by (pose proof blind_record_from_data;
                                            pose proof blind_bind_resource; blind_tac)
  end.
  match goal with
  | |- fst (_ ?s1) = fst (_ ?s2) /\ _ => assert (Hs : same_but_suffixes s1 s2)
  end.
  { split_and!; try done. intros k Hk. cbn. by rewrite !lookup_insert_ne by congruence. }
  destruct (Hb _ _ Hs) as [Ho (Hw & _)]. split; [exact Ho | exact Hw].
Qed.

(** ** Witnesses *)

Lemma bindIPAMReservationResource_policy_id_witness :
  exists d', bindIPAMReservationResource (demo_bound "/api/v3/onefuse/modulePolicies/42/")
               (empty_data, domain_world [] []) = (Ok tt, (d', domain_world [] [])) /\
    rd_id d' = rd_id empty_data /\
    rd_values d' !! "policy_id" = Some (TFInt 42) /\
    rd_values d' !! "workspace_url" = Some (TFString "/api/v3/onefuse/workspaces/42/") /\
    rd_values d' !! "computed_hostname" = Some (TFString "web01") /\
    rd_values d' !! "ip_address" = Some (TFString "").
Proof.
  apply (bindIPAMReservationResource_policy_id (demo_bound "/api/v3/onefuse/modulePolicies/42/")
           (demo_links "/api/v3/onefuse/modulePolicies/42/") "/api/v3/onefuse/modulePolicies" 42);
    [reflexivity | reflexivity | unfold int64_min, int64_max; lia].
Defined.

Lemma bindIPAMReservationResource_short_href_panics_witness :
  exists d', bindIPAMReservationResource (demo_bound "") (empty_data, domain_world [] []) =
    (Panic "runtime error: index out of range [-1]", (d', domain_world [] [])).
Proof. apply (bindIPAMReservationResource_short_href_panics (demo_bound "") (demo_links "")); reflexivity. Defined.

Lemma resourceIPAMReservationUpdate_no_remote_call_witness :
  resourceIPAMReservationUpdate demo_config (empty_data, domain_world [] [])
    = (Ok tt, (empty_data, domain_world [] [])) /\
  match outcome (resourceIPAMReservationUpdate demo_config) (changed_data, domain_world [] []) with
  | Ok _ => False | _ => True end.
Proof.
  split.
  - apply (resourceIPAMReservationUpdate_no_remote_call demo_config empty_data (domain_world [] [])).
    reflexivity.
  - apply (resourceIPAMReservationUpdate_no_remote_call demo_config changed_data (domain_world [] [])).
    reflexivity.
Defined.
